(** * makeprojects: a shallow embedding of the project generator

    The first half of the file embeds the Python package, module by module:

    - [Py]        the pieces of Python's string, list and truth-value
                  semantics the code relies on;
    - [Enums]     [enums.py]: [FileTypes], [ProjectTypes], [IDETypes],
                  [PlatformTypes], their tables, [lookup], [default] and
                  [match];
    - [Burger]    the slash conversions of the [burger] library;
    - [Legacy]    [core.py]: the [SourceFile] of the JSON driven generator,
                  [scandirectory] and [getfilelist];
    - [Core]      the project model the emitters read (solution, project,
                  configuration, chained settings);
    - [Package]   [__init__.py]: [SourceFile.extractgroupname],
                  [new_configuration] and [Property];
    - [World]     the disk the emitters write to;
    - [Watcom]    [watcom.py]: the WMAKE emitter;
    - [Codewarrior] [codewarrior.py]: the entry point of the emitter, the
                  file references and the groups of a project;
    - [Defaults]  [defaults.py]: the lists of IDEs and platforms of a build;
    - [BuildRules] [build_rules.py]: the default configurations.

    The second half states and proves the properties: [EnumsTheory],
    [SourceTheory], [ChainTheory], [ScanTheory] and [EmitterTheory], then
    [LookupTheory], [HostTheory], [DefaultsTheory], [BuildRulesTheory],
    [PropertyTheory], [GroupNameTheory], [ConfigurationTheory],
    [FilterTheory], [WatcomTheory] and [CodewarriorTheory].

    Python strings are modelled by [string] (a list of 8 bit characters);
    every string the code or the statements below handle is ASCII. *)

From Stdlib Require Import ZArith Bool List Ascii String Permutation.
From stdpp Require Import base decidable option list sorting strings gmap.

Open Scope string_scope.
Open Scope list_scope.
Open Scope Z_scope.

(** ** Python strings and truth values *)

Module Py.

(** [str.lower()] restricted to ASCII. *)
Definition lower_char (c : ascii) : ascii :=
  let n := N_of_ascii c in
  if ((65 <=? n) && (n <=? 90))%N then ascii_of_N (n + 32) else c.

Fixpoint lower (s : string) : string :=
  match s with
  | EmptyString => EmptyString
  | String c s' => String (lower_char c) (lower s')
  end.

(** [len(s)] as a Python integer. *)
Definition len (s : string) : Z := Z.of_nat (String.length s).

(** [s.startswith(p)]. *)
Definition startswith (s p : string) : bool := String.prefix p s.

(** [s.endswith(p)]: [p] is a prefix of the remainder of [s] at offset
    [len s - len p]. *)
Fixpoint drop (n : nat) (s : string) : string :=
  match n, s with
  | O, _ => s
  | S n', String _ s' => drop n' s'
  | S _, EmptyString => EmptyString
  end.

Fixpoint take (n : nat) (s : string) : string :=
  match n, s with
  | S n', String c s' => String c (take n' s')
  | _, _ => EmptyString
  end.

Definition endswith (s p : string) : bool :=
  (String.length p <=? String.length s)%nat
  && String.eqb (drop (String.length s - String.length p) s) p.

(** [s.rfind(sub)]: the highest index at which [sub] starts, [-1] when there
    is none. *)
Fixpoint rfind_from (sub s : string) (i acc : Z) : Z :=
  match s with
  | EmptyString => if String.prefix sub EmptyString then i else acc
  | String _ s' => rfind_from sub s' (i + 1) (if String.prefix sub s then i else acc)
  end.

Definition rfind (s sub : string) : Z := rfind_from sub s 0 (-1).

(** A slice bound: negative bounds count from the end, and every bound is
    clamped to [0 .. len s], as Python does for [s[a:b]]. *)
Definition clamp (s : string) (i : Z) : nat :=
  let i' := if i <? 0 then i + len s else i in
  Z.to_nat (Z.min (Z.max i' 0) (len s)).

(** [s[a:b]], [s[a:]] and [s[:b]]. *)
Definition slice (s : string) (a b : Z) : string :=
  take (clamp s b - clamp s a) (drop (clamp s a) s).

Definition slice_from (s : string) (a : Z) : string := drop (clamp s a) s.

Definition slice_to (s : string) (b : Z) : string := take (clamp s b) s.

(** [s.replace(a, b)] for single characters. *)
Fixpoint replace_char (a b : ascii) (s : string) : string :=
  match s with
  | EmptyString => EmptyString
  | String c s' => String (if Ascii.eqb c a then b else c) (replace_char a b s')
  end.

(** [sep.join(l)]. *)
Fixpoint join (sep : string) (l : list string) : string :=
  match l with
  | [] => EmptyString
  | [x] => x
  | x :: l' => x +:+ sep +:+ join sep l'
  end.

(** [x in l] for a tuple or a list of strings. *)
Definition str_in (x : string) (l : list string) : bool :=
  existsb (String.eqb x) l.

(** A dictionary literal read in the order it is written: [d.get(k)]. *)
Fixpoint dict_get {K V : Type} `{EqDecision K} (d : list (K * V)) (k : K) : option V :=
  match d with
  | [] => None
  | (k', v) :: d' => if decide (k = k') then Some v else dict_get d' k
  end.

(** The characters that Rocq string literals cannot hold directly. *)
Definition TAB : string := String (ascii_of_N 9) EmptyString.
Definition QUOTE : string := String (ascii_of_N 34) EmptyString.
Definition BACKSLASH : ascii := ascii_of_N 92.
Definition SLASH : ascii := ascii_of_N 47.

(** [cmp] on two strings: the order of their character codes. *)
Definition cmp (a b : string) : Z :=
  match String.compare a b with
  | Lt => -1
  | Eq => 0
  | Gt => 1
  end.

(** [sorted(l, cmp=f)]: Python's sort is stable, and a stable sort has one
    result only; it is computed here by insertion from the right. *)
Fixpoint insert_sorted {A : Type} (f : A -> A -> Z) (x : A) (l : list A) : list A :=
  match l with
  | [] => [x]
  | y :: l' => if f x y <=? 0 then x :: y :: l' else y :: insert_sorted f x l'
  end.

Definition sorted {A : Type} (f : A -> A -> Z) (l : list A) : list A :=
  foldr (insert_sorted f) [] l.

(** What a call either returns or raises. *)
Inductive outcome (A : Type) : Type :=
  | Returns (a : A)
  | Raises (exception : string).
Arguments Returns {A} a.
Arguments Raises {A} exception.

End Py.

(** ** [enums.py] *)

Module Enums.

(** What the enumerations ask the executing host and the Python runtime:
    the probes of the [burger] library, and the attribute names that the
    runtime's [int] and [IntEnum] classes add to every enumeration class
    (for those [hasattr] is true although they name no member).
    [get_installed_xcode] walks a set literal, whose iteration order is the
    runtime's choice: [xcode_table_order] lists the Xcode versions in that
    order. *)
Record Host : Type := {
  runtime_attrs : list string;
  xcode_table_order : list Z;
  get_windows_host_type : option string;
  get_mac_host_type : option string;
  where_is_visual_studio : Z -> bool;
  where_is_xcode : Z -> bool;
  where_is_codeblocks : bool;
  where_is_watcom : bool
}.

(** Truth value of a probe result: [None], [False] and the empty string are
    false. *)
Definition probe_true (r : option string) : bool :=
  match r with
  | Some s => negb (String.eqb s EmptyString)
  | None => false
  end.

(** The argument of a [lookup]: [None], a string, or a member already. *)
Inductive arg (E : Type) : Type :=
  | ArgNone
  | ArgStr (s : string)
  | ArgMember (m : E).
Arguments ArgNone {E}.
Arguments ArgStr {E} s.
Arguments ArgMember {E} m.

(** Position of a member in the definition order: [AutoEnum] numbers the
    members from 0, one by one. *)
Fixpoint index_of {E : Type} `{EqDecision E} (x : E) (l : list E) : Z :=
  match l with
  | [] => 0
  | y :: l' => if decide (x = y) then 0 else 1 + index_of x l'
  end.

(** The members are [IntEnum]s, so [if x:] tests the integer value. *)
Definition arg_true {E : Type} (value : E -> Z) (a : arg E) : bool :=
  match a with
  | ArgNone => false
  | ArgStr s => negb (String.eqb s EmptyString)
  | ArgMember m => negb (value m =? 0)
  end.

(** [Class[name]]: the member of that name, [KeyError] otherwise. *)
Definition getitem {E : Type} (members : list E) (name : E -> string)
    (key : string) : Py.outcome (option E) :=
  match find (fun m => String.eqb (name m) key) members with
  | Some m => Py.Returns (Some m)
  | None => Py.Raises "KeyError"
  end.

(** [hasattr(Class, key)]: a member, a method of the class, or an attribute
    inherited from the runtime. *)
Definition hasattr {E : Type} (h : Host) (members : list E) (name : E -> string)
    (methods : list string) (key : string) : bool :=
  Py.str_in key (map name members) || Py.str_in key methods
  || Py.str_in key (runtime_attrs h).

(** *** [FileTypes] *)

Module FileTypes.

Inductive t : Set :=
  | user | generic | c | cpp | h | m | xml | rc | r | hlsl | glsl | x360sl
  | vitacg | frameworks | library | exe | xcconfig | x86 | x64 | a65 | ppc
  | a68 | image | ico | icns.

#[global] Instance eq_dec : EqDecision t.
Proof. solve_decision. Defined.

(** [_FILETYPES_LOOKUP] *)
Definition FILETYPES_LOOKUP : list (string * t) :=
  [ ("c", c); ("cc", cpp); ("cpp", cpp); ("c++", cpp); ("hpp", h); ("h", h);
    ("hh", h); ("i", h); ("inc", h); ("m", m); ("plist", xml); ("rc", rc);
    ("r", r); ("rsrc", r); ("hlsl", hlsl); ("vsh", glsl); ("fsh", glsl);
    ("glsl", glsl); ("x360sl", x360sl); ("vitacg", vitacg); ("xml", xml);
    ("x86", x86); ("x64", x64); ("a65", a65); ("ppc", ppc); ("a68", a68);
    ("ico", ico); ("icns", icns); ("png", image); ("jpg", image);
    ("bmp", image); ("txt", generic); ("rtf", generic); ("rst", generic);
    ("md", generic); ("pdf", generic); ("sh", generic); ("cmd", generic);
    ("bat", generic) ].

End FileTypes.

(** *** [ProjectTypes] *)

Module ProjectTypes.

Inductive t : Set :=
  | library | tool | app | screensaver | sharedlibrary | empty.

#[global] Instance eq_dec : EqDecision t.
Proof. solve_decision. Defined.

Definition members : list t :=
  [library; tool; app; screensaver; sharedlibrary; empty].

Definition name (x : t) : string :=
  match x with
  | library => "library" | tool => "tool" | app => "app"
  | screensaver => "screensaver" | sharedlibrary => "sharedlibrary"
  | empty => "empty"
  end.

Definition value (x : t) : Z := index_of x members.

(** The attributes the class body itself defines. *)
Definition methods : list string :=
  ["lookup"; "default"; "__repr__"; "__str__"].

(** [_PROJECTTYPES_READABLE] *)
Definition PROJECTTYPES_READABLE : list (t * string) :=
  [ (library, "Library"); (tool, "Tool"); (app, "Application");
    (screensaver, "ScreenSaver"); (sharedlibrary, "Dynamic Library");
    (empty, "Empty") ].

(** [str(item)] is [__repr__]. *)
Definition repr (x : t) : option string := Py.dict_get PROJECTTYPES_READABLE x.

Definition is_library (x : t) : bool := bool_decide (x = library).

Definition lookup (h : Host) (project_type_name : arg t) : Py.outcome (option t) :=
  if arg_true value project_type_name then
    match project_type_name with
    | ArgMember x => Py.Returns (Some x)
    | ArgNone => Py.Returns None
    | ArgStr project_type_name =>
        let test_name := Py.lower project_type_name in
        if hasattr h members name methods project_type_name then
          getitem members name project_type_name
        else
          match find (fun item => bool_decide (Some test_name = Py.lower <$> repr item))
                     (map fst PROJECTTYPES_READABLE) with
          | Some item => Py.Returns (Some item)
          | None =>
              if Py.str_in test_name ["lib"] then Py.Returns (Some library)
              else if Py.str_in test_name ["game"] then Py.Returns (Some app)
              else if Py.str_in test_name ["dll"] then Py.Returns (Some sharedlibrary)
              else Py.Returns None
          end
    end
  else Py.Returns None.

Definition default : t := tool.

End ProjectTypes.

(** [configuration_short_code] *)
Definition configuration_short_code (configuration_name : string) : option string :=
  Py.dict_get
    [ ("Debug", "dbg"); ("Release", "rel"); ("Internal", "int");
      ("Profile", "pro"); ("Release_LTCG", "ltc"); ("CodeAnalysis", "cod");
      ("Profile_FastCap", "fas") ]
    configuration_name.

(** *** [IDETypes] *)

Module IDETypes.

Inductive t : Set :=
  | vs2003 | vs2005 | vs2008 | vs2010 | vs2012 | vs2013 | vs2015 | vs2017
  | vs2019 | watcom | codewarrior50 | codewarrior58 | codewarrior59
  | xcode3 | xcode4 | xcode5 | xcode6 | xcode7 | xcode8 | xcode9 | xcode10
  | codeblocks | nmake | make | bazel.

#[global] Instance eq_dec : EqDecision t.
Proof. solve_decision. Defined.

Definition members : list t :=
  [ vs2003; vs2005; vs2008; vs2010; vs2012; vs2013; vs2015; vs2017; vs2019;
    watcom; codewarrior50; codewarrior58; codewarrior59;
    xcode3; xcode4; xcode5; xcode6; xcode7; xcode8; xcode9; xcode10;
    codeblocks; nmake; make; bazel ].

Definition name (x : t) : string :=
  match x with
  | vs2003 => "vs2003" | vs2005 => "vs2005" | vs2008 => "vs2008"
  | vs2010 => "vs2010" | vs2012 => "vs2012" | vs2013 => "vs2013"
  | vs2015 => "vs2015" | vs2017 => "vs2017" | vs2019 => "vs2019"
  | watcom => "watcom" | codewarrior50 => "codewarrior50"
  | codewarrior58 => "codewarrior58" | codewarrior59 => "codewarrior59"
  | xcode3 => "xcode3" | xcode4 => "xcode4" | xcode5 => "xcode5"
  | xcode6 => "xcode6" | xcode7 => "xcode7" | xcode8 => "xcode8"
  | xcode9 => "xcode9" | xcode10 => "xcode10"
  | codeblocks => "codeblocks" | nmake => "nmake" | make => "make"
  | bazel => "bazel"
  end.

Definition value (x : t) : Z := index_of x members.

Definition methods : list string :=
  [ "get_short_code"; "is_visual_studio"; "is_xcode"; "is_codewarrior";
    "lookup"; "default"; "__repr__"; "__str__" ].

(** [_IDETYPES_CODES] *)
Definition IDETYPES_CODES : list (t * string) :=
  [ (vs2003, "vc7"); (vs2005, "vc8"); (vs2008, "vc9"); (vs2010, "v10");
    (vs2012, "v12"); (vs2013, "v13"); (vs2015, "v15"); (vs2017, "v17");
    (vs2019, "v19"); (watcom, "wat"); (codewarrior50, "c50");
    (codewarrior58, "c58"); (codewarrior59, "c59"); (xcode3, "xc3");
    (xcode4, "xc4"); (xcode5, "xc5"); (xcode6, "xc6"); (xcode7, "xc7");
    (xcode8, "xc8"); (xcode9, "xc9"); (xcode10, "x10"); (codeblocks, "cdb");
    (nmake, "nmk"); (make, "mak"); (bazel, "bzl") ].

(** [_IDETYPES_READABLE] *)
Definition IDETYPES_READABLE : list (t * string) :=
  [ (vs2003, "Visual Studio 2003"); (vs2005, "Visual Studio 2005");
    (vs2008, "Visual Studio 2008"); (vs2010, "Visual Studio 2010");
    (vs2012, "Visual Studio 2012"); (vs2013, "Visual Studio 2013");
    (vs2015, "Visual Studio 2015"); (vs2017, "Visual Studio 2017");
    (vs2019, "Visual Studio 2019"); (watcom, "Open Watcom 1.9 wmake");
    (codewarrior50, "CodeWarrior 9"); (codewarrior58, "CodeWarrior 10");
    (codewarrior59, "Freescale CodeWarrior 5.9"); (xcode3, "XCode 3.1.4");
    (xcode4, "XCode 4"); (xcode5, "XCode 5"); (xcode6, "XCode 6");
    (xcode7, "XCode 7"); (xcode8, "XCode 8"); (xcode9, "XCode 9");
    (xcode10, "XCode 10"); (codeblocks, "CodeBlocks 13.12");
    (nmake, "GNU make"); (make, "Linux make"); (bazel, "Bazel build") ].

Definition get_short_code (x : t) : option string := Py.dict_get IDETYPES_CODES x.

Definition repr (x : t) : option string := Py.dict_get IDETYPES_READABLE x.

Definition is_visual_studio (x : t) : bool :=
  bool_decide (x ∈ [ vs2003; vs2005; vs2005; vs2008; vs2010; vs2012; vs2013;
                     vs2015; vs2017; vs2019 ]).

Definition is_xcode (x : t) : bool :=
  bool_decide (x ∈ [xcode3; xcode4; xcode5; xcode6; xcode7; xcode8; xcode9; xcode10]).

Definition is_codewarrior (x : t) : bool :=
  bool_decide (x ∈ [codewarrior50; codewarrior58; codewarrior59]).

(** [get_installed_visual_studio] *)
Definition get_installed_visual_studio (h : Host) : option t :=
  let vs_studio_table :=
    [ (2019, vs2019); (2017, vs2017); (2015, vs2015); (2013, vs2013);
      (2012, vs2012); (2010, vs2010); (2008, vs2008); (2005, vs2005);
      (2003, vs2003) ] in
  snd <$> find (fun item => where_is_visual_studio h (fst item)) vs_studio_table.

(** [get_installed_xcode]: the table is a set, walked in the runtime's order. *)
Definition get_installed_xcode (h : Host) : option t :=
  let xcode_table :=
    [ (10, xcode10); (9, xcode9); (8, xcode8); (7, xcode7); (6, xcode6);
      (5, xcode5); (4, xcode4); (3, xcode3) ] in
  let walked :=
    omap (fun v => (fun x => (v, x)) <$> Py.dict_get xcode_table v)
         (xcode_table_order h) in
  snd <$> find (fun item => where_is_xcode h (fst item)) walked.

Definition lookup (h : Host) (ide_name : arg t) : Py.outcome (option t) :=
  if arg_true value ide_name then
    match ide_name with
    | ArgMember x => Py.Returns (Some x)
    | ArgNone => Py.Returns None
    | ArgStr ide_name =>
        let test_name := Py.lower ide_name in
        if hasattr h members name methods test_name then
          getitem members name test_name
        else
          match find (fun item =>
                        bool_decide (Some test_name = Py.lower <$> repr item)
                        || bool_decide (Some test_name = get_short_code item))
                     (map fst IDETYPES_READABLE) with
          | Some item => Py.Returns (Some item)
          | None =>
              if Py.str_in ide_name ["vs"; "visualstudio"; "visual_studio"; "visual studio"]
              then Py.Returns (get_installed_visual_studio h)
              else if Py.str_in ide_name ["xcode"]
              then Py.Returns (get_installed_xcode h)
              else if Py.str_in ide_name ["codewarrior"; "metrowerks"; "cw"; "freescale"]
              then Py.Returns (Some codewarrior50)
              else Py.Returns None
          end
    end
  else Py.Returns None.

(** [IDETypes.default] *)
Definition default (h : Host) : t :=
  let fallback :=
    if where_is_codeblocks h then codeblocks
    else if where_is_watcom h then watcom
    else make in
  if probe_true (get_windows_host_type h) then
    match get_installed_visual_studio h with
    | Some result => result
    | None => fallback
    end
  else if probe_true (get_mac_host_type h) then
    match get_installed_xcode h with
    | Some result => result
    | None => fallback
    end
  else fallback.

End IDETypes.

(** *** [PlatformTypes] *)

Module PlatformTypes.

Inductive t : Set :=
  | windows | win32 | win64
  | macosx | macosxppc32 | macosxppc64 | macosxintel32 | macosxintel64
  | macos9 | macos968k | macos9ppc | maccarbon | maccarbon68k | maccarbonppc
  | ios | ios32 | ios64 | iosemu | iosemu32 | iosemu64
  | xbox | xbox360 | xboxone
  | ps3 | ps4 | vita
  | wiiu | switch | dsi | ds
  | android | shield | amico | ouya
  | androidarm32 | androidarm64 | androidintel32 | androidintel64
  | linux
  | msdos | msdos4gw | msdosx32
  | beos | iigs.

#[global] Instance eq_dec : EqDecision t.
Proof. solve_decision. Defined.

Definition members : list t :=
  [ windows; win32; win64;
    macosx; macosxppc32; macosxppc64; macosxintel32; macosxintel64;
    macos9; macos968k; macos9ppc; maccarbon; maccarbon68k; maccarbonppc;
    ios; ios32; ios64; iosemu; iosemu32; iosemu64;
    xbox; xbox360; xboxone;
    ps3; ps4; vita;
    wiiu; switch; dsi; ds;
    android; shield; amico; ouya;
    androidarm32; androidarm64; androidintel32; androidintel64;
    linux;
    msdos; msdos4gw; msdosx32;
    beos; iigs ].

Definition name (x : t) : string :=
  match x with
  | windows => "windows" | win32 => "win32" | win64 => "win64"
  | macosx => "macosx" | macosxppc32 => "macosxppc32"
  | macosxppc64 => "macosxppc64" | macosxintel32 => "macosxintel32"
  | macosxintel64 => "macosxintel64"
  | macos9 => "macos9" | macos968k => "macos968k" | macos9ppc => "macos9ppc"
  | maccarbon => "maccarbon" | maccarbon68k => "maccarbon68k"
  | maccarbonppc => "maccarbonppc"
  | ios => "ios" | ios32 => "ios32" | ios64 => "ios64"
  | iosemu => "iosemu" | iosemu32 => "iosemu32" | iosemu64 => "iosemu64"
  | xbox => "xbox" | xbox360 => "xbox360" | xboxone => "xboxone"
  | ps3 => "ps3" | ps4 => "ps4" | vita => "vita"
  | wiiu => "wiiu" | switch => "switch" | dsi => "dsi" | ds => "ds"
  | android => "android" | shield => "shield" | amico => "amico"
  | ouya => "ouya"
  | androidarm32 => "androidarm32" | androidarm64 => "androidarm64"
  | androidintel32 => "androidintel32" | androidintel64 => "androidintel64"
  | linux => "linux"
  | msdos => "msdos" | msdos4gw => "msdos4gw" | msdosx32 => "msdosx32"
  | beos => "beos" | iigs => "iigs"
  end.

Definition value (x : t) : Z := index_of x members.

Definition methods : list string :=
  [ "get_short_code"; "is_windows"; "is_macosx"; "is_ios"; "is_macos";
    "is_macos_carbon"; "is_macos_classic"; "is_msdos"; "is_android";
    "match"; "get_vs_platform"; "get_expanded"; "is_expandable"; "lookup";
    "default"; "__repr__"; "__str__" ].

(** [_PLATFORMTYPES_CODES] *)
Definition PLATFORMTYPES_CODES : list (t * string) :=
  [ (windows, "win"); (win32, "w32"); (win64, "w64");
    (macosx, "osx"); (macosxppc32, "osxp32"); (macosxppc64, "osxp64");
    (macosxintel32, "osxx86"); (macosxintel64, "osxx64");
    (macos9, "mac"); (macos968k, "mac68k"); (macos9ppc, "macppc");
    (maccarbon, "car"); (maccarbon68k, "car68k"); (maccarbonppc, "carppc");
    (ios, "ios"); (ios32, "iosa32"); (ios64, "iosa64");
    (iosemu, "ioe"); (iosemu32, "ioex86"); (iosemu64, "ioex64");
    (xbox, "xbx"); (xbox360, "x36"); (xboxone, "one");
    (ps3, "ps3"); (ps4, "ps4"); (vita, "vit");
    (wiiu, "wiu"); (switch, "swi"); (dsi, "dsi"); (ds, "2ds");
    (android, "and"); (shield, "shi"); (amico, "ami"); (ouya, "oya");
    (androidarm32, "anda32"); (androidarm64, "anda64");
    (androidintel32, "andx32"); (androidintel64, "andx64");
    (linux, "lnx");
    (msdos, "dos"); (msdos4gw, "dos4gw"); (msdosx32, "dosx32");
    (beos, "beo"); (iigs, "2gs") ].

(** [_PLATFORMTYPES_VS] *)
Definition PLATFORMTYPES_VS : list (t * list string) :=
  [ (windows, ["Win32"; "x64"]); (win32, ["Win32"]); (win64, ["x64"]);
    (xbox, ["Xbox"]); (xbox360, ["Xbox 360"]); (xboxone, ["Xbox ONE"]);
    (ps3, ["PS3"]); (ps4, ["ORBIS"]); (vita, ["PSVita"]);
    (wiiu, ["Cafe"]); (dsi, ["CTR"]); (switch, ["Switch"]);
    (android, ["Android"]);
    (shield, [ "Tegra-Android"; "ARM-Android-NVIDIA"; "AArch64-Android-NVIDIA";
               "x86-Android-NVIDIA"; "x64-Android-NVIDIA" ]);
    (androidarm32, ["ARM-Android-NVIDIA"]);
    (androidarm64, ["AArch64-Android-NVIDIA"]);
    (androidintel32, ["x86-Android-NVIDIA"]);
    (androidintel64, ["x64-Android-NVIDIA"]) ].

(** [_PLATFORMTYPES_READABLE] *)
Definition PLATFORMTYPES_READABLE : list (t * string) :=
  [ (windows, "Microsoft Windows x86 and x64");
    (win32, "Microsoft Windows x86"); (win64, "Microsoft Windows x64");
    (macosx, "Apple macOS all CPUs"); (macosxppc32, "Apple macOS PowerPC 32");
    (macosxppc64, "Apple macOS PowerPC 64"); (macosxintel32, "Apple macOS x86");
    (macosxintel64, "Apple macOS x64");
    (macos9, "Apple MacOS 9 PPC and 68k"); (macos968k, "Apple MacOS 9 68k");
    (macos9ppc, "Apple MacOS 9 PowerPC 32"); (maccarbon, "Apple MacOS Carbon");
    (maccarbon68k, "Apple MacOS Carbon 68k");
    (maccarbonppc, "Apple MacOS Carbon PowerPC 32");
    (ios, "Apple iOS"); (ios32, "Apple iOS ARM 32"); (ios64, "Apple iOS ARM 64");
    (iosemu, "Apple iOS Emulator"); (iosemu32, "Apple iOS Emulator x86");
    (iosemu64, "Apple iOS Emulator x64");
    (xbox, "Microsoft Xbox"); (xbox360, "Microsoft Xbox 360");
    (xboxone, "Microsoft Xbox ONE");
    (ps3, "Sony PS3"); (ps4, "Sony PS4"); (vita, "Sony Playstation Vita");
    (wiiu, "Nintendo WiiU"); (switch, "Nintendo Switch");
    (dsi, "Nintendo DSI"); (ds, "Nintendo 2DS");
    (android, "Google Android"); (shield, "nVidia Shield");
    (amico, "Intellivision Amico"); (ouya, "Ouya");
    (androidarm32, "Android ARM 32"); (androidarm64, "Android ARM 64");
    (androidintel32, "Android x86"); (androidintel64, "Android x64");
    (linux, "Linux");
    (msdos, "MSDos DOS4GW and X32"); (msdos4gw, "MSDos DOS4GW");
    (msdosx32, "MSDos X32");
    (beos, "BeOS"); (iigs, "Apple IIgs") ].

(** [_PLATFORMTYPES_EXPANDED] *)
Definition PLATFORMTYPES_EXPANDED : list (t * list t) :=
  [ (windows, [win32; win64]);
    (msdos, [msdosx32; msdos4gw]);
    (macosx, [macosxppc32; macosxppc64; macosxintel32; macosxintel64]);
    (macos9, [macos968k; macos9ppc]);
    (maccarbon, [maccarbon68k; maccarbonppc]);
    (ios, [ios32; ios64]);
    (iosemu, [iosemu32; iosemu64]);
    (android, [androidarm32; androidarm64; androidintel32; androidintel64]) ].

Definition get_short_code (self : t) : option string :=
  Py.dict_get PLATFORMTYPES_CODES self.

Definition repr (self : t) : option string :=
  Py.dict_get PLATFORMTYPES_READABLE self.

Definition is_windows (self : t) : bool :=
  bool_decide (self ∈ [windows; win32; win64]).

Definition is_macosx (self : t) : bool :=
  bool_decide (self ∈ [macosx; macosxppc32; macosxppc64; macosxintel32; macosxintel64]).

Definition is_ios (self : t) : bool :=
  bool_decide (self ∈ [ios; ios32; ios64; iosemu; iosemu32; iosemu64]).

Definition is_macos_carbon (self : t) : bool :=
  bool_decide (self ∈ [maccarbon; maccarbon68k; maccarbonppc]).

Definition is_macos_classic (self : t) : bool :=
  bool_decide (self ∈ [macos9; macos968k; macos9ppc]).

Definition is_macos (self : t) : bool :=
  is_macos_classic self || is_macos_carbon self.

Definition is_msdos (self : t) : bool :=
  bool_decide (self ∈ [msdos; msdos4gw; msdosx32]).

Definition is_android (self : t) : bool :=
  bool_decide (self ∈ [ android; shield; ouya; amico; androidarm32;
                        androidarm64; androidintel32; androidintel64 ]).

(** [PlatformTypes.match]; [match] is a keyword here. *)
Definition match_ (self second : t) : bool :=
  if bool_decide (self = second) then true
  else if bool_decide (self = windows) || bool_decide (second = windows)
  then Bool.eqb (is_windows self) (is_windows second)
  else if bool_decide (self = macosx) || bool_decide (second = macosx)
  then Bool.eqb (is_macosx self) (is_macosx second)
  else if bool_decide (self = macos9) || bool_decide (second = macos9)
  then Bool.eqb (is_macos_classic self) (is_macos_classic second)
  else if bool_decide (self = maccarbon) || bool_decide (second = maccarbon)
  then Bool.eqb (is_macos_carbon self) (is_macos_carbon second)
  else if bool_decide (self = ios) || bool_decide (second = ios)
  then Bool.eqb (is_ios self) (is_ios second)
  else if bool_decide (self = msdos) || bool_decide (second = msdos)
  then Bool.eqb (is_msdos self) (is_msdos second)
  else if bool_decide (self = android) || bool_decide (second = android)
  then Bool.eqb (is_android self) (is_android second)
  else false.

Definition get_vs_platform (self : t) : list string :=
  default [] (Py.dict_get PLATFORMTYPES_VS self).

Definition get_expanded (self : t) : list t :=
  default [self] (Py.dict_get PLATFORMTYPES_EXPANDED self).

Definition is_expandable (self : t) : bool :=
  bool_decide (is_Some (Py.dict_get PLATFORMTYPES_EXPANDED self)).

Definition lookup (h : Host) (platform_name : arg t) : Py.outcome (option t) :=
  if arg_true value platform_name then
    match platform_name with
    | ArgMember x => Py.Returns (Some x)
    | ArgNone => Py.Returns None
    | ArgStr platform_name =>
        let test_name := Py.lower platform_name in
        if hasattr h members name methods test_name then
          getitem members name test_name
        else
          Py.Returns
            (find (fun item =>
                     bool_decide (Some test_name = Py.lower <$> repr item)
                     || bool_decide (Some test_name = get_short_code item)
                     || (negb (is_expandable item)
                         && existsb (fun vs_name => String.eqb test_name (Py.lower vs_name))
                                    (default [] (Py.dict_get PLATFORMTYPES_VS item))))
                  (map fst PLATFORMTYPES_READABLE))
    end
  else Py.Returns None.

(** [PlatformTypes.default]: the value looked up in [mac_table] is dropped. *)
Definition default (h : Host) : t :=
  let temp := get_windows_host_type h in
  if probe_true temp then
    (if bool_decide (temp = Some "x64") then win64 else win32)
  else
    let temp := get_mac_host_type h in
    let _ :=
      if probe_true temp then
        let mac_table :=
          [ ("ppc", macosxppc32); ("ppc64", macosxppc64);
            ("x32", macosxintel32); ("x64", macosxintel64) ] in
        Some (option.default macosxintel64 (temp ≫= Py.dict_get mac_table))
      else None in
    linux.

End PlatformTypes.

End Enums.

(** ** The [burger] path helpers

    [burger] is a library of its own; these are its slash conversions as the
    generator uses them (without the optional trailing slash). *)

Module Burger.

Definition convert_to_windows_slashes (path_name : string) : string :=
  Py.replace_char Py.SLASH Py.BACKSLASH path_name.

Definition convert_to_linux_slashes (path_name : string) : string :=
  Py.replace_char Py.BACKSLASH Py.SLASH path_name.

(** [convert_to_windows_slashes(path_name, force_ending_slash=True)] *)
Definition convert_to_windows_slashes_ending (path_name : string) : string :=
  let result := convert_to_windows_slashes path_name in
  if Py.endswith result "\" then result else result +:+ "\".

End Burger.

(** ** [core.py]: the JSON driven generator *)

Module Legacy.

Module FileTypes.

Inductive t : Set :=
  | user | generic | cpp | h | m | xml | rc | r | hlsl | glsl | x360sl
  | vitacg | frameworks | library | exe | xcconfig | x86 | a65 | image
  | ico | icns.

#[global] Instance eq_dec : EqDecision t.
Proof. solve_decision. Defined.

End FileTypes.

(** [defaultcodeextensions] *)
Definition defaultcodeextensions : list (string * FileTypes.t) :=
  [ (".c", FileTypes.cpp); (".cc", FileTypes.cpp); (".cpp", FileTypes.cpp);
    (".c++", FileTypes.cpp); (".hpp", FileTypes.h); (".h", FileTypes.h);
    (".hh", FileTypes.h); (".i", FileTypes.h); (".inc", FileTypes.h);
    (".m", FileTypes.m); (".plist", FileTypes.xml); (".rc", FileTypes.rc);
    (".r", FileTypes.r); (".rsrc", FileTypes.r); (".hlsl", FileTypes.hlsl);
    (".vsh", FileTypes.glsl); (".fsh", FileTypes.glsl);
    (".glsl", FileTypes.glsl); (".x360sl", FileTypes.x360sl);
    (".vitacg", FileTypes.vitacg); (".xml", FileTypes.xml);
    (".a65", FileTypes.a65); (".x86", FileTypes.x86); (".ico", FileTypes.ico);
    (".icns", FileTypes.icns); (".png", FileTypes.image);
    (".jpg", FileTypes.image); (".bmp", FileTypes.image) ].

(** [class SourceFile] *)
Record SourceFile : Type := {
  filename : string;
  directory : string;
  type : FileTypes.t
}.

#[global] Instance SourceFile_eq_dec : EqDecision SourceFile.
Proof. solve_decision. Defined.

(** [SourceFile.__init__] *)
Definition new_SourceFile (filename directory : string) (type : FileTypes.t) : SourceFile :=
  {| filename := Burger.convert_to_windows_slashes filename;
     directory := directory;
     type := type |}.

(** [while newname.startswith('..' + slash): newname = newname[3:len(newname)]].
    [slash] is one character, so a match leaves [rest = newname[3:]]. *)
Fixpoint strip_parent_prefixes (slash : string) (newname : string) : string :=
  match newname with
  | String _ (String _ (String _ rest)) =>
      if Py.startswith newname (".." +:+ slash)
      then strip_parent_prefixes slash rest
      else newname
  | _ => newname
  end.

(** [SourceFile.extractgroupname] *)
Definition extractgroupname (self : SourceFile) : string :=
  let index := Py.rfind (filename self) "\" in
  if index =? -1 then EmptyString
  else
    let newname := Py.slice (filename self) 0 index in
    let newname := strip_parent_prefixes "\" newname in
    if Py.startswith newname ".\"
    then Py.slice newname 2 (Py.len newname)
    else newname.

(** What the scan finds on disk.  A directory lists its entries in the order
    [os.listdir] reports them; [Other] is whatever is neither a regular file
    nor a directory.  The entry reached by name from a listed directory is
    the one the joined path names. *)
#[warnings="-register-all"]
Inductive node : Type :=
  | File
  | Dir (entries : list (string * node))
  | Other.

(** [class SolutionData], without the per-IDE default objects. *)
Record SolutionData : Type := {
  verbose : bool;
  workingDir : string;
  kind : string;
  projectname : string;
  ide : string;
  platform : string;
  configurations : list string;
  finalfolder : option string;
  exclude : list string;
  defines : list string;
  sourcefolders : list string;
  includefolders : list string;
  codefiles : list SourceFile
}.

Section Scan.

(** The host: [os.sep], [os.path.join], and the directory tree found at a
    path ([Other] when the path is no directory). *)
Variable os_sep : string.
Variable os_path_join : string -> string -> string.
Variable disk : string -> node.

Variable self : SolutionData.
Variable recurse : bool.
Variable acceptable : list FileTypes.t.

(** The loop [for baseName in nameList] of [scandirectory]; [scan] is the
    call of [scandirectory] on a subdirectory. *)
Fixpoint scan_entries
    (scan : string -> node -> list SourceFile -> list string
            -> list SourceFile * list string)
    (directory searchDir : string) (nameList : list (string * node)) (found : bool)
    (codefiles : list SourceFile) (includedirectories : list string)
    {struct nameList} : list SourceFile * list string :=
  match nameList with
  | [] => (codefiles, includedirectories)
  | (baseName, entry) :: nameList' =>
      let testName := Py.lower baseName in
      if existsb (fun item => String.eqb testName (Py.lower item)) (exclude self)
      then scan_entries scan directory searchDir nameList' found
                        codefiles includedirectories
      else
        match entry with
        | File =>
            match find (fun item => Py.endswith testName (fst item))
                       defaultcodeextensions with
            | Some item =>
                if existsb (fun item2 => bool_decide (snd item = item2)) acceptable
                then
                  let newfilename :=
                    if String.eqb directory "." then baseName
                    else directory +:+ os_sep +:+ baseName in
                  let fileentry := new_SourceFile newfilename searchDir (snd item) in
                  scan_entries scan directory searchDir nameList' true
                               (codefiles ++ [fileentry])
                               (if found then includedirectories
                                else includedirectories ++ [directory])
                else scan_entries scan directory searchDir nameList' found
                                  codefiles includedirectories
            | None => scan_entries scan directory searchDir nameList' found
                                   codefiles includedirectories
            end
        | Dir _ =>
            if recurse
            then
              let '(codefiles, includedirectories) :=
                scan (directory +:+ os_sep +:+ baseName) entry
                     codefiles includedirectories in
              scan_entries scan directory searchDir nameList' found
                           codefiles includedirectories
            else scan_entries scan directory searchDir nameList' found
                              codefiles includedirectories
        | Other => scan_entries scan directory searchDir nameList' found
                                codefiles includedirectories
        end
  end.

(** [searchDir]: the root directory is a special case. *)
Definition searchDir_of (directory : string) : string :=
  if String.eqb directory "." then workingDir self
  else os_path_join (workingDir self) directory.

(** The body of [scandirectory] once [searchDir] is known to hold [here]. *)
Fixpoint scandirectory_at (directory : string) (here : node)
    (codefiles : list SourceFile) (includedirectories : list string)
    {struct here} : list SourceFile * list string :=
  match here with
  | Dir nameList =>
      scan_entries scandirectory_at directory (searchDir_of directory) nameList false
                   codefiles includedirectories
  | _ => (codefiles, includedirectories)
  end.

(** [SolutionData.scandirectory] *)
Definition scandirectory (directory : string)
    (codefiles : list SourceFile) (includedirectories : list string)
    : list SourceFile * list string :=
  scandirectory_at directory (disk (searchDir_of directory))
                   codefiles includedirectories.

End Scan.

(** [SolutionData.getfilelist] *)
Definition getfilelist (os_sep : string) (os_path_join : string -> string -> string)
    (disk : string -> node) (self : SolutionData) (acceptable : list FileTypes.t)
    : list SourceFile * list string :=
  let '(codefiles, includedirectories) :=
    fold_left
      (fun '(codefiles, includedirectories) item =>
         let recurse := Py.endswith item "/*.*" in
         let item := if recurse then Py.slice item 0 (Py.len item - 4) else item in
         scandirectory os_sep os_path_join disk self recurse acceptable
                       item codefiles includedirectories)
      (sourcefolders self) (codefiles self, []) in
  (Py.sorted (fun x y => Py.cmp (filename x) (filename y)) codefiles, includedirectories).

(** [getconfigurationcode] *)
Definition getconfigurationcode (configuration : string) : string :=
  if String.eqb configuration "Debug" then "dbg"
  else if String.eqb configuration "Release" then "rel"
  else if String.eqb configuration "Internal" then "int"
  else if String.eqb configuration "Profile" then "pro"
  else Py.lower configuration.

End Legacy.

(** ** The project model the emitters read *)

Module Core.

Import Enums.

(** Modelled from the spec: the value of a setting of a [Configuration] or a
    [Project] ([core.py] of the package is not among the sources).  A
    setting is a flag, a text or a list of texts, and may be unset. *)
Inductive value : Type :=
  | VNone
  | VBool (b : bool)
  | VStr (s : string)
  | VList (l : list string).

#[global] Instance value_eq_dec : EqDecision value.
Proof. solve_decision. Defined.

(** Modelled from the spec: the [SourceFile] of the package core, as the
    emitters read it: the relative path, the owning directory and the
    file type. *)
Record SourceFile : Type := {
  relative_pathname : string;
  working_directory : string;
  type : FileTypes.t
}.

(** Modelled from the spec: a [Configuration] with the attributes the
    emitters read by name, its other settings by attribute name, and the
    back-reference to its project as an index into the solution's project
    list. *)
Record Configuration : Type := {
  name : string;
  platform : option PlatformTypes.t;
  project_type : option ProjectTypes.t;
  short_code : string;
  deploy_folder : option string;
  attributes : gmap string value;
  parent : option nat
}.

(** Modelled from the spec: a [Project].  [resolve] stands for the scan of
    the declared source folders: the sorted files found there whose type is
    among the accepted ones. *)
Record Project : Type := {
  project_name : string;
  project_platform : option PlatformTypes.t;
  project_attributes : gmap string value;
  configuration_list : list Configuration;
  codefiles : list SourceFile;
  resolve : list FileTypes.t -> list SourceFile
}.

(** Modelled from the spec: a [Solution]; the emitters add the name of the
    file they write. *)
Record Solution : Type := {
  solution_name : string;
  solution_working_directory : string;
  ide : IDETypes.t;
  ide_code : string;
  platform_code : string;
  perforce : bool;
  verbose : bool;
  project_list : list Project;
  watcom_filename : option string;
  codewarrior_filename : option string
}.

(** Assignments to attributes of a solution. *)
Definition set_project_list (l : list Project) (s : Solution) : Solution :=
  {| solution_name := solution_name s;
     solution_working_directory := solution_working_directory s;
     ide := ide s;
     ide_code := ide_code s;
     platform_code := platform_code s;
     perforce := perforce s;
     verbose := verbose s;
     project_list := l;
     watcom_filename := watcom_filename s;
     codewarrior_filename := codewarrior_filename s |}.

Definition set_watcom_filename (filename : string) (s : Solution) : Solution :=
  {| solution_name := solution_name s;
     solution_working_directory := solution_working_directory s;
     ide := ide s;
     ide_code := ide_code s;
     platform_code := platform_code s;
     perforce := perforce s;
     verbose := verbose s;
     project_list := project_list s;
     watcom_filename := Some filename;
     codewarrior_filename := codewarrior_filename s |}.

Definition set_codewarrior_filename (filename : string) (s : Solution) : Solution :=
  {| solution_name := solution_name s;
     solution_working_directory := solution_working_directory s;
     ide := ide s;
     ide_code := ide_code s;
     platform_code := platform_code s;
     perforce := perforce s;
     verbose := verbose s;
     project_list := project_list s;
     watcom_filename := watcom_filename s;
     codewarrior_filename := Some filename |}.

(** Modelled from the spec: [Configuration(name, platform, project_type)]
    keeps what it is given; the short code is the one
    [configuration_short_code] has for the name. *)
Definition new_Configuration (name : string) (platform : option PlatformTypes.t)
    (project_type : option ProjectTypes.t) : Configuration :=
  {| name := name;
     platform := platform;
     project_type := project_type;
     short_code := default EmptyString (configuration_short_code name);
     deploy_folder := None;
     attributes := ∅;
     parent := None |}.

(** Modelled from the spec: a configuration added to a project has that
    project for its owner. *)
Definition owned_by (index : nat) (c : Configuration) : Configuration :=
  {| name := name c;
     platform := platform c;
     project_type := project_type c;
     short_code := short_code c;
     deploy_folder := deploy_folder c;
     attributes := attributes c;
     parent := Some index |}.

(** Modelled from the spec: [Project.get_file_list] stores the resolved list
    in the project. *)
Definition get_file_list (acceptable : list FileTypes.t) (p : Project) : Project :=
  {| project_name := project_name p;
     project_platform := project_platform p;
     project_attributes := project_attributes p;
     configuration_list := configuration_list p;
     codefiles := resolve p acceptable;
     resolve := resolve p |}.

(** *** Chained settings *)

(** Modelled from the spec: a setting is unset when it is absent or [None],
    and empty when it is the empty text or the empty list. *)
Definition is_set (v : option value) : bool :=
  match v with
  | None | Some VNone | Some (VStr EmptyString) | Some (VList []) => false
  | Some _ => true
  end.

(** Modelled from the spec: the settings along the chain that starts at a
    configuration and goes on with its owning project. *)
Definition chain (projects : list Project) (c : Configuration) : list (gmap string value) :=
  attributes c :: match parent c ≫= (projects !!.) with
                  | Some p => [project_attributes p]
                  | None => []
                  end.

(** Modelled from the spec: the first value that is set along a chain,
    [None] when there is none. *)
Fixpoint first_set (attribute_name : string) (ch : list (gmap string value)) : value :=
  match ch with
  | [] => VNone
  | m :: ch' =>
      if is_set (m !! attribute_name)
      then default VNone (m !! attribute_name)
      else first_set attribute_name ch'
  end.

(** Modelled from the spec: [Configuration.get_chained_value]. *)
Definition get_chained_value (projects : list Project) (c : Configuration)
    (attribute_name : string) : value :=
  first_set attribute_name (chain projects c).

(** The list a value stands for. *)
Definition as_list (v : option value) : list string :=
  match v with
  | Some (VList l) => l
  | _ => []
  end.

(** Modelled from the spec: [Configuration.get_chained_list]: the list values
    along the chain, one after the other. *)
Definition get_chained_list (projects : list Project) (c : Configuration)
    (attribute_name : string) : list string :=
  concat (map (fun m => as_list (m !! attribute_name)) (chain projects c)).

(** Keeping the first occurrence of every item:
    [for item in l: if item not in result: result.append(item)]. *)
Definition unique (l : list string) : list string :=
  fold_left (fun result item => if Py.str_in item result then result else result ++ [item])
            l [].

(** Modelled from the spec: [Configuration.get_unique_chained_list]. *)
Definition get_unique_chained_list (projects : list Project) (c : Configuration)
    (attribute_name : string) : list string :=
  unique (get_chained_list projects c attribute_name).

End Core.

(** ** [__init__.py] *)

Module Package.

Import Enums.

(** [class SourceFile]; the constructor refuses a [filetype] that is no
    [FileTypes], which the type of [new_SourceFile] already states. *)
Record SourceFile : Type := {
  filename : string;
  directory : string;
  type : FileTypes.t
}.

Definition new_SourceFile (relativepathname directory : string) (filetype : FileTypes.t)
    : SourceFile :=
  {| filename := Burger.convert_to_windows_slashes relativepathname;
     directory := directory;
     type := filetype |}.

(** [while newname.startswith('.' + slash): newname = newname[2:len(newname)]] *)
Fixpoint strip_current_prefixes (slash : string) (newname : string) : string :=
  match newname with
  | String _ (String _ rest) =>
      if Py.startswith newname ("." +:+ slash)
      then strip_current_prefixes slash rest
      else newname
  | _ => newname
  end.

(** [SourceFile.extractgroupname] *)
Definition extractgroupname (self : SourceFile) : string :=
  let after (slash : string) (index : Z) : string :=
    let newname := Py.slice (filename self) 0 index in
    let newname := Legacy.strip_parent_prefixes slash newname in
    strip_current_prefixes slash newname in
  let slash := "\" in
  let index := Py.rfind (filename self) slash in
  if index =? -1 then
    let slash := "/" in
    let index := Py.rfind (filename self) slash in
    if index =? -1 then EmptyString else after slash index
  else after slash index.

(** [new_configuration]; [name] is the list [convert_to_array] makes of the
    argument, and the result is the list [results] (the function hands back
    the only element itself when there is just one). *)
Definition new_configuration (h : Host) (name : list string)
    (platform : arg PlatformTypes.t) (project_type : option ProjectTypes.t)
    : Py.outcome (list Core.Configuration) :=
  fold_left
    (fun results name =>
       match results with
       | Py.Raises e => Py.Raises e
       | Py.Returns results =>
           if arg_true PlatformTypes.value platform then
             match PlatformTypes.lookup h platform with
             | Py.Raises e => Py.Raises e
             | Py.Returns None => Py.Raises "TypeError"
             | Py.Returns (Some platform_type) =>
                 Py.Returns
                   (results ++ map (fun item => Core.new_Configuration name (Some item) project_type)
                                   (PlatformTypes.get_expanded platform_type))
             end
           else
             let given := match platform with ArgMember x => Some x | _ => None end in
             Py.Returns (results ++ [Core.new_Configuration name given project_type])
       end)
    name (Py.Returns []).

(** [class Property].  The configurations are compared with [==] and the
    data is passed along as it is, so both are left open. *)
Module Property.

Record t (C D : Type) : Type := {
  configuration : option C;
  platform : option PlatformTypes.t;
  name : string;
  data : D
}.
Arguments configuration {C D} _.
Arguments platform {C D} _.
Arguments name {C D} _.
Arguments data {C D} _.

(** [Property.__init__]: a property without a name is refused. *)
Definition new {C D : Type} (configuration : option C)
    (platform : option PlatformTypes.t) (name : option string) (data : D)
    : Py.outcome (t C D) :=
  match name with
  | None => Py.Raises "TypeError"
  | Some name =>
      Py.Returns {| configuration := configuration; platform := platform;
                    name := name; data := data |}
  end.

(** [Property.find] *)
Definition find {C D : Type} `{EqDecision C} (entries : list (t C D))
    (name : option string) (configuration : option C)
    (platform : option PlatformTypes.t) : list (t C D) :=
  fold_left
    (fun result item =>
       if match configuration, Property.configuration item with
          | None, _ => true
          | Some _, None => true
          | Some wanted, Some found => bool_decide (found = wanted)
          end
       then
         if match platform, Property.platform item with
            | None, _ => true
            | Some _, None => true
            | Some wanted, Some found => PlatformTypes.match_ found wanted
            end
         then
           if match name with
              | None => true
              | Some wanted => String.eqb (Property.name item) wanted
              end
           then result ++ [item]
           else result
         else result
       else result)
    entries [].

(** [Property.getdata] *)
Definition getdata {C D : Type} `{EqDecision C} (entries : list (t C D))
    (name : option string) (configuration : option C)
    (platform : option PlatformTypes.t) : list D :=
  fold_left
    (fun result item =>
       if match configuration, Property.configuration item with
          | None, _ => true
          | Some _, None => true
          | Some wanted, Some found => bool_decide (found = wanted)
          end
       then
         if match platform, Property.platform item with
            | None, _ => true
            | Some _, None => true
            | Some wanted, Some found => PlatformTypes.match_ found wanted
            end
         then
           if match name with
              | None => true
              | Some wanted => String.eqb (Property.name item) wanted
              end
           then result ++ [Property.data item]
           else result
         else result
       else result)
    entries [].

End Property.

End Package.

(** ** What the emitters do to the disk

    [burger.save_text_file_if_newer] writes a file when what is on disk is
    not the text it is given, and answers zero.  The disk is a map from path
    to lines, and [written] keeps the paths written, in order. *)

Module World.

Record t : Type := {
  files : gmap string (list string);
  written : list string
}.

Definition save_text_file_if_newer (file_name : string) (text_lines : list string)
    (w : t) : Z * t :=
  if decide (files w !! file_name = Some text_lines) then (0, w)
  else (0, {| files := <[file_name := text_lines]> (files w);
              written := written w ++ [file_name] |}).

(** What a call of an emitter leaves behind: the result, the solution as the
    call changed it, and the disk. *)
Record run : Type := {
  result : Py.outcome Z;
  solution_after : Core.Solution;
  world_after : t
}.

End World.

(** ** [watcom.py] *)

Module Watcom.

Import Enums.

Local Abbreviation Q := Py.QUOTE.
Local Abbreviation T := Py.TAB.

Definition SUPPORTED_IDES : list IDETypes.t := [IDETypes.watcom].

(** [test] *)
Definition test (ide : IDETypes.t) (platform_type : PlatformTypes.t) : bool :=
  bool_decide (platform_type ∈ [ PlatformTypes.win32; PlatformTypes.msdos4gw;
                                 PlatformTypes.msdosx32 ]).

(** [class Project]: the exporter. *)
Record Project : Type := {
  solution : Core.Solution;
  platforms : list (option PlatformTypes.t);
  configuration_list : list Core.Configuration;
  configuration_names : list Core.Configuration
}.

(** [Project.__init__]; [project.get_file_list] leaves the resolved files in
    the projects of the solution. *)
Definition new_Project (solution : Core.Solution) : Project :=
  let scanned :=
    map (Core.get_file_list [ FileTypes.h; FileTypes.cpp; FileTypes.c; FileTypes.x86 ])
        (Core.project_list solution) in
  let solution := Core.set_project_list scanned solution in
  fold_left
    (fun self project =>
       fold_left
         (fun self configuration =>
            {| solution := solution;
               platforms :=
                 if bool_decide (Core.platform configuration ∈ platforms self)
                 then platforms self
                 else platforms self ++ [Core.platform configuration];
               configuration_list := configuration_list self;
               configuration_names :=
                 if existsb (fun item => String.eqb (Core.name configuration) (Core.name item))
                            (configuration_names self)
                 then configuration_names self
                 else configuration_names self ++ [configuration] |})
         (Core.configuration_list project)
         {| solution := solution;
            platforms := platforms self;
            configuration_list := configuration_list self ++ Core.configuration_list project;
            configuration_names := configuration_names self |})
    scanned
    {| solution := solution; platforms := []; configuration_list := [];
       configuration_names := [] |}.

(** [platform.get_short_code()].  Every member has a code; on [None] the
    call raises, which [Project.generate] below accounts for. *)
Definition code (platform : option PlatformTypes.t) : string :=
  default EmptyString (platform ≫= PlatformTypes.get_short_code).

(** [line_list[-1] = f(line_list[-1])] *)
Definition map_last (f : string -> string) (line_list : list string) : list string :=
  match reverse line_list with
  | [] => []
  | x :: l => reverse (f x :: l)
  end.

Section Emitter.

(** [burger.encapsulate_path_linux], a function of that library. *)
Variable encapsulate_path_linux : string -> string.

Variable self : Project.

(** [Project.write_header] *)
Definition write_header (line_list : list string) : list string :=
  let line_list := line_list ++
    [ "#";
        "# Build " +:+ Core.solution_name (solution self) +:+ " with WMAKE";
        "# Generated with makeprojects";
        "#";
        "# Require the environment variable WATCOM set to the OpenWatcom folder";
        "# Example: WATCOM=C:\WATCOM";
        "#";
        EmptyString;
        "# This speeds up the building process for Watcom because it";
        "# keeps the apps in memory and doesn't have to reload for every source file";
        "# Note: There is a bug that if the wlib app is loaded, it will not";
        "# get the proper WOW file if a full build is performed";
        EmptyString;
        "# The bug is gone from Watcom 1.2";
        EmptyString;
        "!ifdef %WATCOM";
        "!ifdef __LOADDLL__";
        "!loaddll wcc $(%WATCOM)/binnt/wccd";
        "!loaddll wccaxp $(%WATCOM)/binnt/wccdaxp";
        "!loaddll wcc386 $(%WATCOM)/binnt/wccd386";
        "!loaddll wpp $(%WATCOM)/binnt/wppdi86";
        "!loaddll wppaxp $(%WATCOM)/binnt/wppdaxp";
        "!loaddll wpp386 $(%WATCOM)/binnt/wppd386";
        "!loaddll wlink $(%WATCOM)/binnt/wlinkd";
        "!loaddll wlib $(%WATCOM)/binnt/wlibd";
        "!endif";
        "!endif" ] in
  let config :=
    fold_left
      (fun config item =>
         if String.eqb (Core.name item) "Release" then Some "Release"
         else match config with
              | None => Some (Core.name item)
              | Some _ => config
              end)
      (configuration_list self) None in
  let config := default "Release" config in
  let line_list := line_list ++
    [ EmptyString;
        "#";
        "# Default configuration";
        "#";
        EmptyString;
        "!ifndef CONFIG";
        "CONFIG = " +:+ config;
        "!endif" ] in
  let target :=
    fold_left
      (fun target platform =>
         if bool_decide (platform = Some PlatformTypes.msdos4gw) then Some (code platform)
         else match target with
              | None => Some (code platform)
              | Some _ => target
              end)
      (platforms self) None in
  let target := default "Release" target in
  let line_list := line_list ++
    [ EmptyString;
        "#";
        "# Default target";
        "#";
        EmptyString;
        "!ifndef TARGET";
        "TARGET = " +:+ target;
        "!endif" ] in
  let line_list := line_list ++
    [ EmptyString;
        "#";
        "# Directory name fragments";
        "#";
        EmptyString ] in
  let line_list := line_list ++
    map (fun platform =>
           "TARGET_SUFFIX_" +:+ code platform +:+ " = "
           +:+ Py.slice_from (code platform) (-3))
        (platforms self) in
  let line_list := line_list ++ [EmptyString] in
  let line_list := line_list ++
    map (fun item =>
           "CONFIG_SUFFIX_" +:+ Core.name item +:+ " = " +:+ Core.short_code item)
        (configuration_names self) in
  line_list ++
    [ EmptyString;
        "#";
        "# Set the set of known files supported";
        "# Note: They are in the reverse order of building. .c is built first, then .x86";
        "# until the .exe or .lib files are built";
        "#";
        EmptyString;
        ".extensions:";
        ".extensions: .exe .exp .lib .obj .h .cpp .x86 .c .i86" ].

(** [Project.write_source_dir] *)
Definition write_source_dir (line_list : list string) : list string :=
  let line_list := line_list ++
    [ EmptyString;
        "#";
        "# Ensure sdks are pulled from the environment";
        "#";
        EmptyString;
        "BURGER_SDKS = $(%BURGER_SDKS)" ] in
  let line_list := line_list ++
    [ EmptyString;
        "#";
        "# SOURCE_DIRS = Work directories for the source code";
        "#";
        EmptyString ] in
  let projects := Core.project_list (solution self) in
  let '(include_folders, source_folders) :=
    fold_left
      (fun '(include_folders, source_folders) configuration =>
         let source_folders :=
           fold_left
             (fun source_folders item =>
                if Py.str_in item source_folders then source_folders
                else source_folders ++ [item])
             (Core.get_unique_chained_list projects configuration "_source_include_list")
             source_folders in
         let include_folders :=
           fold_left
             (fun include_folders item =>
                if Py.str_in item include_folders then include_folders
                else include_folders ++ [item])
             (Core.get_unique_chained_list projects configuration "include_folders_list")
             include_folders in
         (include_folders, source_folders))
      (configuration_list self) ([], []) in
  let line_list :=
    match source_folders with
    | [] => line_list ++ ["SOURCE_DIRS ="]
    | _ =>
        fst (fold_left
               (fun '(line_list, colon) item =>
                  (line_list ++ ["SOURCE_DIRS " +:+ colon +:+ encapsulate_path_linux item],
                   "+=;"))
               (Py.sorted Py.cmp source_folders) (line_list, "="))
    end in
  let line_list := line_list ++
    [ EmptyString;
        "#";
        "# Name of the output library";
        "#";
        EmptyString;
        "PROJECT_NAME = " +:+ Core.solution_name (solution self) ] in
  let line_list := line_list ++
    [ EmptyString;
        "#";
        "# Base name of the temp directory";
        "#";
        EmptyString;
        "BASE_TEMP_DIR = temp/$(PROJECT_NAME)";
        "BASE_SUFFIX = wat$(TARGET_SUFFIX_$(%TARGET))$(CONFIG_SUFFIX_$(%CONFIG))";
        "TEMP_DIR = $(BASE_TEMP_DIR)$(BASE_SUFFIX)" ] in
  let line_list := line_list ++
    [ EmptyString;
        "#";
        "# Binary directory";
        "#";
        EmptyString;
        "DESTINATION_DIR = bin" ] in
  let line_list := line_list ++
    [ EmptyString;
        "#";
        "# INCLUDE_DIRS = Header includes";
        "#";
        EmptyString;
        "INCLUDE_DIRS = $(SOURCE_DIRS)" ] in
  line_list ++
    map (fun item => "INCLUDE_DIRS +=;" +:+ Burger.convert_to_linux_slashes item)
        include_folders.

(** [Project.write_rules] *)
Definition write_rules (line_list : list string) : list string :=
  let line_list := line_list ++
    [ EmptyString;
        "#";
        "# Tell WMAKE where to find the files to work with";
        "#";
        EmptyString;
        ".c: $(SOURCE_DIRS)";
        ".cpp: $(SOURCE_DIRS)";
        ".x86: $(SOURCE_DIRS)";
        ".i86: $(SOURCE_DIRS)" ] in
  line_list ++
    [ EmptyString;
        "#";
        "# Set the compiler flags for each of the build types";
        "#";
        EmptyString;
        "CFlagsDebug=-d_DEBUG -d2 -od";
        "CFlagsInternal=-d_DEBUG -d2 -oaxsh";
        "CFlagsRelease=-dNDEBUG -d0 -oaxsh";
        EmptyString;
        "#";
        "# Set the flags for each target operating system";
        "#";
        EmptyString;
        "CFlagscom=-bt=com -d__COM__=1 -i=" +:+ Q +:+ "$(%BURGER_SDKS)/dos/burgerlib;$(%BURGER_SDKS)/dos/x32;$(%WATCOM)/h" +:+ Q;
        "CFlagsdosx32=-bt=DOS -d__X32__=1 -i=" +:+ Q +:+ "$(%BURGER_SDKS)/dos/burgerlib;$(%BURGER_SDKS)/dos/x32;$(%WATCOM)/h" +:+ Q;
        "CFlagsdos4gw=-bt=DOS -d__DOS4G__=1 -i=" +:+ Q +:+ "$(%BURGER_SDKS)/dos/burgerlib;$(%BURGER_SDKS)/dos/sosaudio;$(%WATCOM)/h;$(%WATCOM)/h/nt" +:+ Q;
        "CFlagsw32=-bt=NT -dGLUT_DISABLE_ATEXIT_HACK -dGLUT_NO_LIB_PRAGMA -dTARGET_CPU_X86=1 -dTARGET_OS_WIN32=1 -dTYPE_BOOL=1 -dUNICODE -d_UNICODE -dWIN32_LEAN_AND_MEAN -i=" +:+ Q +:+ "$(%BURGER_SDKS)/windows/burgerlib;$(%BURGER_SDKS)/windows/opengl;$(%BURGER_SDKS)/windows/directx9;$(%BURGER_SDKS)/windows/windows5;$(%BURGER_SDKS)/windows/quicktime7;$(%WATCOM)/h;$(%WATCOM)/h/nt" +:+ Q;
        EmptyString;
        "#";
        "# Set the WASM flags for each of the build types";
        "#";
        EmptyString;
        "AFlagsDebug=-d_DEBUG";
        "AFlagsInternal=-d_DEBUG";
        "AFlagsRelease=-dNDEBUG";
        EmptyString;
        "#";
        "# Set the WASM flags for each operating system";
        "#";
        EmptyString;
        "AFlagscom=-d__COM__=1";
        "AFlagsdosx32=-d__X32__=1";
        "AFlagsdos4gw=-d__DOS4G__=1";
        "AFlagsw32=-d__WIN32__=1";
        EmptyString;
        "LFlagsDebug=";
        "LFlagsInternal=";
        "LFlagsRelease=";
        EmptyString;
        "LFlagscom=format dos com libp $(%BURGER_SDKS)/dos/burgerlib";
        "LFlagsx32=system x32r libp $(%BURGER_SDKS)/dos/burgerlib;$(%BURGER_SDKS)/dos/x32";
        "LFlagsdos4gw=system dos4g libp $(%BURGER_SDKS)/dos/burgerlib;$(%BURGER_SDKS)/dos/sosaudio";
        "LFlagsw32=system nt libp $(%BURGER_SDKS)/windows/burgerlib;$(%BURGER_SDKS)/windows/directx9 LIBRARY VERSION.lib,opengl32.lib,winmm.lib,shell32.lib,shfolder.lib";
        EmptyString;
        "# Now, set the compiler flags";
        EmptyString;
        "CL=WCC386 -6r -fp6 -w4 -ei -j -mf -zq -zp=8 -wcd=7 -i=$(INCLUDE_DIRS)";
        "CP=WPP386 -6r -fp6 -w4 -ei -j -mf -zq -zp=8 -wcd=7 -i=$(INCLUDE_DIRS)";
        "ASM=WASM -5r -fp6 -w4 -zq -d__WATCOM__=1";
        "LINK=*WLINK option caseexact option quiet PATH $(%WATCOM)/binnt;$(%WATCOM)/binw;.";
        EmptyString;
        "# Set the default build rules";
        "# Requires ASM, CP to be set";
        EmptyString;
        "# Macro expansion is on page 93 of the C//C++ Tools User's Guide";
        "# $^* = C:\dir\target (No extension)";
        "# $[* = C:\dir\dep (No extension)";
        "# $^@ = C:\dir\target.ext";
        "# $^: = C:\dir\";
        EmptyString;
        ".i86.obj : .AUTODEPEND";
        T +:+ "@echo $[&.i86 / $(%CONFIG) / $(%TARGET)";
        T +:+ "@$(ASM) -0 -w4 -zq -d__WATCOM__=1 $(AFlags$(%CONFIG)) $(AFlags$(%TARGET)) $[*.i86 -fo=$^@ -fr=$^*.err";
        EmptyString;
        ".x86.obj : .AUTODEPEND";
        T +:+ "@echo $[&.x86 / $(%CONFIG) / $(%TARGET)";
        T +:+ "@$(ASM) $(AFlags$(%CONFIG)) $(AFlags$(%TARGET)) $[*.x86 -fo=$^@ -fr=$^*.err";
        EmptyString;
        ".c.obj : .AUTODEPEND";
        T +:+ "@echo $[&.c / $(%CONFIG) / $(%TARGET)";
        T +:+ "@$(CP) $(CFlags$(%CONFIG)) $(CFlags$(%TARGET)) $[*.c -fo=$^@ -fr=$^*.err";
        EmptyString;
        ".cpp.obj : .AUTODEPEND";
        T +:+ "@echo $[&.cpp / $(%CONFIG) / $(%TARGET)";
        T +:+ "@$(CP) $(CFlags$(%CONFIG)) $(CFlags$(%TARGET)) $[*.cpp -fo=$^@ -fr=$^*.err" ].

(** [Project.write_files] *)
Definition write_files (line_list : list string) : list string :=
  let line_list := line_list ++
    [ EmptyString;
        "#";
        "# Object files to work with for the library";
        "#";
        EmptyString ] in
  let codefiles :=
    match Core.project_list (solution self) with
    | project :: _ => Core.codefiles project
    | [] => []
    end in
  let obj_list :=
    fold_left
      (fun obj_list item =>
         if bool_decide (Core.type item = FileTypes.c)
            || bool_decide (Core.type item = FileTypes.cpp)
            || bool_decide (Core.type item = FileTypes.x86)
         then
           let tempfile := Burger.convert_to_linux_slashes (Core.relative_pathname item) in
           let index := Py.rfind tempfile "." in
           let entry := if index =? -1 then tempfile else Py.slice_to tempfile index in
           let index := Py.rfind entry "/" in
           let entry := if negb (index =? -1) then Py.slice_from entry (index + 1) else entry in
           obj_list ++ [entry]
         else obj_list)
      codefiles [] in
  match obj_list with
  | [] => line_list ++ ["OBJS="]
  | _ =>
      let line_list :=
        fst (fold_left
               (fun '(line_list, colon) item =>
                  (line_list ++ [colon +:+ "$(A)/" +:+ item +:+ ".obj &"], T))
               (Py.sorted Py.cmp obj_list) (line_list, "OBJS= ")) in
      map_last (fun line => Py.slice_to line (-2)) line_list
  end.

(** [Project.write_all_target] *)
Definition write_all_target (line_list : list string) : list string :=
  let line_list := line_list ++
    [ EmptyString;
        "#";
        "# List the names of all of the final binaries to build";
        "#";
        EmptyString ] in
  let target_list :=
    ["all:"] ++ map Core.name (configuration_names self) ++ [".SYMBOLIC"] in
  let line_list := line_list ++ [Py.join " " target_list] in
  let line_list := line_list ++ [T +:+ "@%null"] in
  let line_list := line_list ++
    [ EmptyString;
        "#";
        "# Configurations";
        "#" ] in
  let line_list :=
    fold_left
      (fun line_list configuration =>
         let target_list :=
           [Core.name configuration +:+ ":"]
           ++ map (fun platform => Core.name configuration +:+ code platform)
                  (platforms self)
           ++ [".SYMBOLIC"] in
         line_list ++ [EmptyString; Py.join " " target_list; T +:+ "@%null"])
      (configuration_names self) line_list in
  let line_list :=
    fold_left
      (fun line_list platform =>
         let target_list :=
           [code platform +:+ ":"]
           ++ map (fun configuration => Core.name configuration +:+ code platform)
                  (configuration_list self)
           ++ [".SYMBOLIC"] in
         line_list ++ [EmptyString; Py.join " " target_list; T +:+ "@%null"])
      (platforms self) line_list in
  let line_list :=
    fold_left
      (fun line_list configuration =>
         let suffix :=
           if bool_decide (Core.project_type configuration = Some ProjectTypes.library)
           then "lib" else "exe" in
         let platform := Core.platform configuration in
         let name :=
           "wat" +:+ Py.slice_from (code platform) (-3) +:+ Core.short_code configuration in
         line_list ++
           [ EmptyString;
             Core.name configuration +:+ code platform +:+ ": .SYMBOLIC";
             T +:+ "@if not exist " +:+ Q +:+ "$(DESTINATION_DIR)" +:+ Q
               +:+ " @mkdir " +:+ Q +:+ "$(DESTINATION_DIR)" +:+ Q;
             T +:+ "@if not exist " +:+ Q +:+ "$(BASE_TEMP_DIR)" +:+ name +:+ Q
               +:+ " @mkdir " +:+ Q +:+ "$(BASE_TEMP_DIR)" +:+ name +:+ Q;
             T +:+ "@set CONFIG=" +:+ Core.name configuration;
             T +:+ "@set TARGET=" +:+ code platform;
             T +:+ "@%make $(DESTINATION_DIR)\$(PROJECT_NAME)wat"
               +:+ Py.slice_from (code platform) (-3)
               +:+ Core.short_code configuration +:+ "." +:+ suffix ])
      (configuration_list self) line_list in
  line_list ++
    [ EmptyString;
        "#";
        "# Disable building this make file";
        "#";
        EmptyString;
        default EmptyString (Core.watcom_filename (solution self)) +:+ ":";
        T +:+ "@%null" ].

(** [Project.write_builds] *)
Definition write_builds (line_list : list string) : list string :=
  let line_list := line_list ++
    [ EmptyString;
        "#";
        "# A = The object file temp folder";
        "#" ] in
  fold_left
    (fun line_list configuration =>
       let is_library :=
         bool_decide (Core.project_type configuration = Some ProjectTypes.library) in
       let suffix := if is_library then ".lib" else ".exe" in
       let line_list := line_list ++
         [ EmptyString;
           "A = $(BASE_TEMP_DIR)wat"
             +:+ Py.slice_from (code (Core.platform configuration)) (-3)
             +:+ Core.short_code configuration;
           "$(DESTINATION_DIR)\$(PROJECT_NAME)wat"
             +:+ Py.slice_from (code (Core.platform configuration)) (-3)
             +:+ Core.short_code configuration +:+ suffix
             +:+ ": $+$(OBJS)$- "
             +:+ default EmptyString (Core.watcom_filename (solution self)) ] in
       if is_library then
         let line_list := line_list ++
    [ T +:+ "@SET WOW=$+$(OBJS)$-";
        T +:+ "@WLIB -q -b -c -n $^@ @WOW" ] in
         match Core.deploy_folder configuration with
         | Some folder =>
             if String.eqb folder EmptyString then line_list
             else
               let deploy_folder :=
                 Py.slice_to (Burger.convert_to_windows_slashes_ending folder) (-1) in
               line_list ++
                 [ T +:+ "@p4 edit " +:+ Q +:+ deploy_folder +:+ "\$^." +:+ Q;
                   T +:+ "@copy /y " +:+ Q +:+ "$^@" +:+ Q +:+ " " +:+ Q
                     +:+ deploy_folder +:+ "\$^." +:+ Q;
                   T +:+ "@p4 revert -a " +:+ Q +:+ deploy_folder +:+ "\$^." +:+ Q ]
         | None => line_list
         end
       else
         line_list ++
    [ T +:+ "@SET WOW={$+$(OBJS)$-}";
        T +:+ "@$(LINK) $(LFlags$(%TARGET)) $(LFlags$(%CONFIG)) LIBRARY burger$(BASE_SUFFIX).lib NAME $^@ FILE @wow" ])
    (configuration_list self) line_list.

(** [Project.generate].  [get_short_code] is called on every platform in
    [write_header], so a configuration without a platform makes it raise
    before anything else happens. *)
Definition generate_lines (line_list : list string) : Py.outcome (Z * list string) :=
  if forallb (fun platform => bool_decide (is_Some platform)) (platforms self)
  then
    let line_list := write_header line_list in
    let line_list := write_source_dir line_list in
    let line_list := write_rules line_list in
    let line_list := write_files line_list in
    let line_list := write_all_target line_list in
    let line_list := write_builds line_list in
    Py.Returns (0, line_list)
  else Py.Raises "AttributeError".

End Emitter.

(** [generate] *)
Definition generate (encapsulate_path_linux : string -> string)
    (os_path_join : string -> string -> string)
    (solution : Core.Solution) (w : World.t) : World.run :=
  if negb (bool_decide (Core.ide solution ∈ SUPPORTED_IDES)) then
    {| World.result := Py.Returns 10; World.solution_after := solution;
       World.world_after := w |}
  else
    let filename :=
      Core.solution_name solution +:+ Core.ide_code solution
      +:+ Core.platform_code solution +:+ ".wmk" in
    let solution := Core.set_watcom_filename filename solution in
    let exporter := new_Project solution in
    match generate_lines encapsulate_path_linux exporter [] with
    | Py.Raises e =>
        {| World.result := Py.Raises e;
           World.solution_after := Watcom.solution exporter;
           World.world_after := w |}
    | Py.Returns (error, watcom_lines) =>
        if negb (error =? 0) then
          {| World.result := Py.Returns error;
             World.solution_after := Watcom.solution exporter;
             World.world_after := w |}
        else
          let '(_, w) :=
            World.save_text_file_if_newer
              (os_path_join (Core.solution_working_directory solution) filename)
              watcom_lines w in
          {| World.result := Py.Returns 0;
             World.solution_after := Watcom.solution exporter;
             World.world_after := w |}
    end.

End Watcom.

(** ** [codewarrior.py]: the entry point *)

Module Codewarrior.

Import Enums.

Local Abbreviation Q := Py.QUOTE.

Definition SUPPORTED_IDES : list IDETypes.t :=
  [IDETypes.codewarrior50; IDETypes.codewarrior58; IDETypes.codewarrior59].

(** [test] *)
Definition test (ide : IDETypes.t) (platform_type : PlatformTypes.t) : bool :=
  bool_decide (platform_type ∈ [PlatformTypes.win32]).

Section Generate.

(** The exporter, [Project(solution)] followed by [Project.generate]: the
    solution as the exporter leaves it, the error code and the lines of the
    XML project.  [run_ide] is the Codewarrior IDE started on a command
    line for a [.mcp] file ([perforce_edit], then [subprocess.call]);
    [CWFolder] is the environment variable of that name. *)
Variable export : Core.Solution -> Py.outcome (Core.Solution * Z * list string).
Variable os_path_join : string -> string -> string.
Variable CWFolder : option string.
Variable run_ide : string -> string -> World.t -> Z * World.t.

(** [generate] *)
Definition generate (solution : Core.Solution) (w : World.t) : World.run :=
  if negb (bool_decide (Core.ide solution ∈ SUPPORTED_IDES)) then
    {| World.result := Py.Returns 10; World.solution_after := solution;
       World.world_after := w |}
  else
    let filename :=
      Core.solution_name solution +:+ Core.ide_code solution
      +:+ Core.platform_code solution +:+ ".mcp" in
    let solution := Core.set_codewarrior_filename filename solution in
    match export solution with
    | Py.Raises e =>
        {| World.result := Py.Raises e; World.solution_after := solution;
           World.world_after := w |}
    | Py.Returns (solution, error, codewarrior_lines) =>
        if negb (error =? 0) then
          {| World.result := Py.Returns error; World.solution_after := solution;
             World.world_after := w |}
        else
          let filename := default filename (Core.codewarrior_filename solution) in
          let xml_filename :=
            os_path_join (Core.solution_working_directory solution) (filename +:+ ".xml") in
          let '(saved, w) :=
            World.save_text_file_if_newer xml_filename codewarrior_lines w in
          if saved =? 0 then
            match CWFolder with
            | Some cwfile =>
                if bool_decide (Core.ide solution ∈ [IDETypes.codewarrior50]) then
                  let mcp_filename :=
                    os_path_join (Core.solution_working_directory solution) filename in
                  let cwfile := os_path_join (os_path_join cwfile "Bin") "ide" in
                  let cmd :=
                    Q +:+ cwfile +:+ Q +:+ " /x " +:+ Q +:+ xml_filename +:+ Q +:+ " "
                    +:+ Q +:+ mcp_filename +:+ Q +:+ " /s /c /q" in
                  let '(error, w) := run_ide cmd mcp_filename w in
                  {| World.result := Py.Returns error; World.solution_after := solution;
                     World.world_after := w |}
                else
                  {| World.result := Py.Returns 0; World.solution_after := solution;
                     World.world_after := w |}
            | None =>
                {| World.result := Py.Returns 0; World.solution_after := solution;
                   World.world_after := w |}
            end
          else
            {| World.result := Py.Returns 0; World.solution_after := solution;
               World.world_after := w |}
    end.

End Generate.

(** [class FILEREF] *)
Module FILEREF.

Record t : Type := {
  configuration : option string;
  filename : string;
  format : string
}.

(** [FILEREF.__init__]; [platform.is_windows()] on [None] raises. *)
Definition new (platform : option PlatformTypes.t) (configuration : option string)
    (filename : string) : Py.outcome t :=
  match platform with
  | None => Py.Raises "AttributeError"
  | Some platform =>
      if PlatformTypes.is_windows platform then
        Py.Returns {| configuration := configuration;
                      filename := Burger.convert_to_windows_slashes filename;
                      format := "Windows" |}
      else
        Py.Returns {| configuration := configuration;
                      filename := Burger.convert_to_linux_slashes filename;
                      format := "Unix" |}
  end.

End FILEREF.

(** [class GROUP]: a name, the groups below it and its file references. *)
Module GROUP.

Inductive t : Type :=
  Make (name : option string) (groups : list t) (filerefs : list FILEREF.t).

Definition name (self : t) : option string := let 'Make name _ _ := self in name.
Definition groups (self : t) : list t := let 'Make _ groups _ := self in groups.
Definition filerefs (self : t) : list FILEREF.t :=
  let 'Make _ _ filerefs := self in filerefs.

(** [GROUP.__init__] *)
Definition new (name : option string) : t := Make name [] [].

(** [GROUP.addfileref]: the group after the call. *)
Definition addfileref (self : t) (platform : option PlatformTypes.t)
    (configuration : option string) (filename : string) : Py.outcome t :=
  if existsb (fun item => String.eqb (FILEREF.filename item) filename) (filerefs self)
  then Py.Returns self
  else
    match FILEREF.new platform configuration filename with
    | Py.Raises e => Py.Raises e
    | Py.Returns item =>
        Py.Returns (Make (name self) (groups self) (filerefs self ++ [item]))
    end.

(** The place of the first group of the name in [self.groups]. *)
Fixpoint position (name : string) (groups : list t) : option nat :=
  match groups with
  | [] => None
  | item :: groups =>
      if bool_decide (GROUP.name item = Some name) then Some 0%nat
      else S <$> position name groups
  end.

(** [GROUP.addgroup]: the group after the call and the place in its
    [groups] of the group the call returns. *)
Definition addgroup (self : t) (name : string) : t * nat :=
  match position name (groups self) with
  | Some place => (self, place)
  | None =>
      (Make (GROUP.name self) (groups self ++ [new (Some name)]) (filerefs self),
       length (groups self))
  end.

End GROUP.

(** The leading [.] and [..] of [parts] discarded. *)
Fixpoint discard_dots (parts : list string) : list string :=
  match parts with
  | part :: rest =>
      if String.eqb part "." || String.eqb part ".." then discard_dots rest else parts
  | [] => []
  end.

(** The [while True] loop of [Project.addtogroups].  [group] is the group
    the loop stands in; the group [addgroup] returns is one of its
    [groups], so what the loop does below it is stored back at its place. *)
Fixpoint descend (platform : option PlatformTypes.t) (configuration : option string)
    (parts : list string) (group : GROUP.t) : Py.outcome GROUP.t :=
  match parts with
  | [] => Py.Returns group
  | [part] => GROUP.addfileref group platform configuration part
  | part :: rest =>
      let '(group, place) := GROUP.addgroup group part in
      match GROUP.groups group !! place with
      | None => Py.Returns group
      | Some below =>
          match descend platform configuration rest below with
          | Py.Raises e => Py.Raises e
          | Py.Returns below =>
              Py.Returns (GROUP.Make (GROUP.name group)
                            (<[place := below]> (GROUP.groups group))
                            (GROUP.filerefs group))
          end
      end
  end.

(** [Project.addtogroups], on [self.group] *)
Definition addtogroups (group : GROUP.t) (platform : option PlatformTypes.t)
    (configuration : option string) (parts : list string) : Py.outcome GROUP.t :=
  match discard_dots parts with
  | [] => Py.Returns group
  | parts => descend platform configuration parts group
  end.

End Codewarrior.

(** ** [defaults.py] *)

Module Defaults.

Import Enums.

(** What the [rules] function of a [build_rules.py] answers to a command:
    the integer 0 when it has nothing to say, a member of an enumeration, or
    names; [Names] holds the list [convert_to_array] makes of such an
    answer. *)
Inductive answer (E : Type) : Type :=
  | Zero
  | Member (m : E)
  | Names (l : list (arg E)).
Arguments Zero {E}.
Arguments Member {E} m.
Arguments Names {E} l.

(** [default != 0]: a member is an [IntEnum], equal to its integer value. *)
Definition differs_from_zero {E : Type} (value : E -> Z) (default : answer E) : bool :=
  match default with
  | Zero => false
  | Member m => negb (value m =? 0)
  | Names _ => true
  end.

(** The loop [for item in temp_list] that converts names to members; a name
    [lookup] does not know is reported and left out. *)
Definition convert_all {E : Type} (lookup : arg E -> Py.outcome (option E))
    (temp_list : list (arg E)) : Py.outcome (list E) :=
  fold_left
    (fun result item =>
       match result with
       | Py.Raises e => Py.Raises e
       | Py.Returns converted =>
           match lookup item with
           | Py.Raises e => Py.Raises e
           | Py.Returns None => Py.Returns converted
           | Py.Returns (Some member) => Py.Returns (converted ++ [member])
           end
       end)
    temp_list (Py.Returns []).

(** The loop [for rules in build_rules_list] of [get_ide_list] and
    [get_platform_list]: the first answer that is not 0 makes the list. *)
Definition first_default {E : Type} (value : E -> Z) (command : string)
    (build_rules_list : list (string -> answer E)) (temp_list : list (arg E))
    : list (arg E) :=
  match find (fun rules => differs_from_zero value (rules command)) build_rules_list with
  | Some rules =>
      match rules command with
      | Member default => [ArgMember default]
      | Names default => default
      | Zero => temp_list
      end
  | None => temp_list
  end.

(** [get_ide_list]; [ides] is [args.ides]. *)
Definition get_ide_list (h : Host) (build_rules_list : list (string -> answer IDETypes.t))
    (ides : list (arg IDETypes.t)) : Py.outcome (list IDETypes.t) :=
  let temp_list := ides in
  let temp_list :=
    if bool_decide (temp_list = []) 
    then first_default IDETypes.value "default_ide" build_rules_list temp_list
    else temp_list in
  convert_all (IDETypes.lookup h) temp_list.

(** [get_platform_list]; [platforms] is [args.platforms]. *)
Definition get_platform_list (h : Host)
    (build_rules_list : list (string -> answer PlatformTypes.t))
    (platforms : list (arg PlatformTypes.t)) : Py.outcome (list PlatformTypes.t) :=
  let temp_list := platforms in
  let temp_list :=
    if bool_decide (temp_list = [])
    then first_default PlatformTypes.value "default_platform" build_rules_list temp_list
    else temp_list in
  convert_all (PlatformTypes.lookup h) temp_list.

(** [fixup_ide_platform]: the two lists as the call leaves them. *)
Definition fixup_ide_platform (h : Host) (ide_list : list IDETypes.t)
    (platform_list : list PlatformTypes.t) : list IDETypes.t * list PlatformTypes.t :=
  if bool_decide (platform_list = []) && bool_decide (ide_list = []) then
    (ide_list ++ [IDETypes.default h], platform_list ++ [PlatformTypes.default h])
  else if bool_decide (platform_list = []) then
    (ide_list, platform_list ++ [PlatformTypes.default h])
  else if bool_decide (ide_list = []) then
    if bool_decide (PlatformTypes.xbox360 ∈ platform_list)
    then (ide_list ++ [IDETypes.vs2010], platform_list)
    else if bool_decide (PlatformTypes.ps3 ∈ platform_list)
    then (ide_list ++ [IDETypes.vs2010], platform_list)
    else if bool_decide (PlatformTypes.ps4 ∈ platform_list)
    then (ide_list ++ [IDETypes.vs2010], platform_list)
    else if bool_decide (PlatformTypes.vita ∈ platform_list)
    then (ide_list ++ [IDETypes.vs2010], platform_list)
    else if bool_decide (PlatformTypes.shield ∈ platform_list)
    then (ide_list ++ [IDETypes.vs2010], platform_list)
    else if bool_decide (PlatformTypes.wiiu ∈ platform_list)
    then (ide_list ++ [IDETypes.vs2013], platform_list)
    else (ide_list ++ [IDETypes.default h], platform_list)
  else (ide_list, platform_list).

End Defaults.

(** ** [build_rules.py] *)

Module BuildRules.

Import Enums.

(** A value of a configuration description. *)
Inductive item : Type :=
  | Flag (b : bool)
  | Number (n : Z)
  | Text (s : string).

(** [PlatformTypes.<name>] in an expression: the member of that name, and
    [AttributeError] when the enumeration has none. *)
Definition member (name : string) : Py.outcome PlatformTypes.t :=
  match find (fun m => String.eqb (PlatformTypes.name m) name) PlatformTypes.members with
  | Some m => Py.Returns m
  | None => Py.Raises "AttributeError"
  end.

(** A tuple of members, built from left to right. *)
Fixpoint members (names : list string) : Py.outcome (list PlatformTypes.t) :=
  match names with
  | [] => Py.Returns []
  | name :: names' =>
      match member name with
      | Py.Raises e => Py.Raises e
      | Py.Returns m =>
          match members names' with
          | Py.Raises e => Py.Raises e
          | Py.Returns l => Py.Returns (m :: l)
          end
      end
  end.

(** [do_configuration_list]; a configuration is the dictionary as it is
    written.  [platform] and [ide] are what [kargs.get] finds, [None] when
    the caller gave none. *)
Definition do_configuration_list (platform : option PlatformTypes.t)
    (ide : option IDETypes.t) : Py.outcome (list (list (string * item))) :=
  let results :=
    [ [("name", Text "Debug"); ("short_code", Text "dbg"); ("debug", Flag true)];
      [("name", Text "Internal"); ("short_code", Text "int"); ("optimization", Number 4);
       ("debug", Flag true)];
      [("name", Text "Release"); ("short_code", Text "rel"); ("optimization", Number 4)] ] in
  let xbox360_configurations (results : list (list (string * item))) :=
    match member "xbox360" with
    | Py.Raises e => Py.Raises e
    | Py.Returns xbox360 =>
        if bool_decide (platform = Some xbox360) then
          Py.Returns
            (results ++
             [ [("name", Text "Profile"); ("short_code", Text "pro");
                ("optimization", Number 4); ("profile", Flag true)];
               [("name", Text "Profile_FastCap"); ("short_code", Text "fas");
                ("optimization", Number 4); ("profile", Text "fast")];
               [("name", Text "CodeAnalysis"); ("short_code", Text "cod");
                ("analyze", Flag true)] ])
        else Py.Returns results
    end in
  match ide with
  | None => Py.Raises "AttributeError"
  | Some ide =>
      if IDETypes.is_visual_studio ide then
        match members ["win32"; "win64"; "winarm32"; "winarm64"; "winitanium"; "xbox360"] with
        | Py.Raises e => Py.Raises e
        | Py.Returns link_time =>
            if bool_decide (platform ∈ map Some link_time) then
              xbox360_configurations
                (results ++
                 [ [("name", Text "Release_LTCG"); ("short_code", Text "ltc");
                    ("optimization", Number 4);
                    ("link_time_code_generation", Flag true)] ])
            else xbox360_configurations results
        end
      else xbox360_configurations results
  end.

End BuildRules.

(** * Properties *)

(** ** The enumerations *)

Module EnumsTheory.

Import Enums.

Lemma lower_nonempty (s : string) :
  String.eqb (Py.lower s) EmptyString = String.eqb s EmptyString.
Proof. destruct s; reflexivity. Qed.

(** *** Platforms *)

Section Platforms.

Import PlatformTypes.

Lemma bool_decide_sym (a b : t) : bool_decide (a = b) = bool_decide (b = a).
Proof. apply bool_decide_ext. split; intros ->; reflexivity. Qed.

Lemma eqb_comm (x y : bool) : Bool.eqb x y = Bool.eqb y x.
Proof. destruct x, y; reflexivity. Qed.

(** C3: [match] is symmetric: [a.match(b) == b.match(a)] for all platforms
    [a] and [b].  Every test of [match] reads its two arguments alike. *)
Theorem match_symmetric (a b : t) : match_ a b = match_ b a.
Proof.
  unfold match_.
  rewrite (bool_decide_sym a b).
  repeat match goal with
  | |- context [bool_decide (a = ?w) || bool_decide (b = ?w)] =>
      rewrite (orb_comm (bool_decide (a = w)) (bool_decide (b = w)))
  end.
  repeat match goal with
  | |- context [Bool.eqb (?p a) (?p b)] => rewrite (eqb_comm (p a) (p b))
  end.
  reflexivity.
Qed.

(** The keys of [_PLATFORMTYPES_EXPANDED]. *)
Definition families : list t :=
  [windows; msdos; macosx; macos9; maccarbon; ios; iosemu; android].

(** The group [match] compares a family with: the predicate of its clause. *)
Definition family_group (F : t) : t -> bool :=
  match F with
  | windows => is_windows
  | macosx => is_macosx
  | macos9 => is_macos_classic
  | maccarbon => is_macos_carbon
  | ios => is_ios
  | msdos => is_msdos
  | android => is_android
  | _ => fun X => bool_decide (X = F)
  end.

Lemma expandable_families (F : t) : is_expandable F = true -> In F families.
Proof. destruct F; intros H; first [discriminate H | (vm_compute; tauto)]. Qed.

Lemma match_group (F X : t) :
  In F families -> F <> iosemu -> match_ F X = family_group F X.
Proof.
  intros HF Hne; simpl in HF.
  repeat (destruct HF as [<- | HF];
          [first [congruence | (destruct X; vm_compute; reflexivity)] |]).
  contradiction.
Qed.

Lemma expanded_in_group (F X : t) :
  In F families -> F <> iosemu -> In X (get_expanded F) -> family_group F X = true.
Proof.
  intros HF Hne HX; simpl in HF.
  repeat (destruct HF as [<- | HF];
          [try congruence; vm_compute in HX;
           repeat (destruct HX as [<- | HX]; [vm_compute; reflexivity |]);
           contradiction |]).
  contradiction.
Qed.

(** C2, as the code has it: for every family [F] other than [iosemu],
    [F.match(X)] is true exactly when [X] is in the group of [F]'s clause
    in [match] ([is_windows] for [windows], [is_ios] for [ios], ...); the
    group holds [F] and every member of [F]'s expansion, so [F.match(m)] is
    true for every member [m], and [F.match(X)] is false for every [X]
    outside the group. *)
Theorem family_match (F X : t) :
  is_expandable F = true -> F <> iosemu ->
  match_ F X = family_group F X
  /\ (In X (get_expanded F) -> match_ F X = true)
  /\ (family_group F X = false -> match_ F X = false)
  /\ family_group F F = true.
Proof.
  intros HF Hne. apply expandable_families in HF.
  pose proof (match_group F X HF Hne) as Hg.
  repeat split.
  - exact Hg.
  - intros HX. rewrite Hg. by apply expanded_in_group.
  - intros HX. by rewrite Hg.
  - rewrite <- (match_group F F HF Hne). unfold match_.
    by rewrite bool_decide_eq_true_2.
Qed.

Lemma family_match_witness :
  match_ windows win32 = family_group windows win32
  /\ (In win32 (get_expanded windows) -> match_ windows win32 = true)
  /\ (family_group windows win32 = false -> match_ windows win32 = false)
  /\ family_group windows windows = true.
Proof.
  apply (family_match windows win32); [reflexivity | discriminate].
Defined.

(** C2 as stated fails twice: [iosemu] is a family, [iosemu32] is in its
    expansion, and [iosemu.match(iosemu32)] is false; [iosemu] is neither
    [ios] nor in the expansion of [ios], and [ios.match(iosemu)] is true. *)
Lemma family_match_counterexample :
  (is_expandable iosemu = true
   /\ In iosemu32 (get_expanded iosemu)
   /\ match_ iosemu iosemu32 = false)
  /\ (is_expandable ios = true
      /\ iosemu <> ios
      /\ ~ In iosemu (get_expanded ios)
      /\ match_ ios iosemu = true).
Proof.
  repeat split; try reflexivity; try discriminate.
  - vm_compute. tauto.
  - vm_compute. intros [H | [H | []]]; discriminate H.
Qed.

(** C10: [default()] answers [win32], [win64] or [linux], none of which is a
    family; it answers [linux] whenever the host is not reported as Windows,
    whatever [get_mac_host_type] says, and on a Windows host [win64] for
    ['x64'] and [win32] otherwise. *)
Theorem default_is_concrete (h : Host) :
  In (PlatformTypes.default h) [win32; win64; linux]
  /\ is_expandable (PlatformTypes.default h) = false
  /\ (probe_true (get_windows_host_type h) = false -> PlatformTypes.default h = linux)
  /\ (probe_true (get_windows_host_type h) = true ->
      PlatformTypes.default h
      = if bool_decide (get_windows_host_type h = Some "x64") then win64 else win32).
Proof.
  unfold PlatformTypes.default.
  destruct (probe_true (get_windows_host_type h)).
  - destruct (bool_decide (get_windows_host_type h = Some "x64"));
      (split; [simpl; tauto |]); (split; [reflexivity |]);
      (split; [discriminate | reflexivity]).
  - split; [simpl; tauto |]. split; [reflexivity |].
    split; [reflexivity | discriminate].
Qed.

End Platforms.

(** *** [lookup] *)

Lemma getitem_name {E : Type} (members : list E) (name : E -> string) (m : E) :
  find (fun x => String.eqb (name x) (name m)) members = Some m ->
  getitem members name (name m) = Py.Returns (Some m).
Proof. unfold getitem. by intros ->. Qed.

(** A member whose value is not zero comes back unchanged. *)
Lemma ProjectTypes_lookup_member (h : Host) (m : ProjectTypes.t) :
  m <> ProjectTypes.library ->
  ProjectTypes.lookup h (ArgMember m) = Py.Returns (Some m).
Proof. destruct m; intros H; first [congruence | reflexivity]. Qed.

Lemma IDETypes_lookup_member (h : Host) (m : IDETypes.t) :
  m <> IDETypes.vs2003 ->
  IDETypes.lookup h (ArgMember m) = Py.Returns (Some m).
Proof. destruct m; intros H; first [congruence | reflexivity]. Qed.

Lemma PlatformTypes_lookup_member (h : Host) (m : PlatformTypes.t) :
  m <> PlatformTypes.windows ->
  PlatformTypes.lookup h (ArgMember m) = Py.Returns (Some m).
Proof. destruct m; intros H; first [congruence | reflexivity]. Qed.

(** [IDETypes.lookup] and [PlatformTypes.lookup] find a member by its name
    whatever the case of the letters. *)
Lemma IDETypes_lookup_name (h : Host) (m : IDETypes.t) (s : string) :
  Py.lower s = IDETypes.name m ->
  IDETypes.lookup h (ArgStr s) = Py.Returns (Some m).
Proof.
  intros Hs. unfold IDETypes.lookup. cbn [arg_true].
  rewrite <- lower_nonempty, Hs.
  replace (String.eqb (IDETypes.name m) EmptyString) with false by (by destruct m).
  cbn [negb]. unfold hasattr.
  replace (Py.str_in (IDETypes.name m) (map IDETypes.name IDETypes.members))
    with true by (destruct m; vm_compute; reflexivity).
  cbn [orb]. apply getitem_name. destruct m; vm_compute; reflexivity.
Qed.

Lemma PlatformTypes_lookup_name (h : Host) (m : PlatformTypes.t) (s : string) :
  Py.lower s = PlatformTypes.name m ->
  PlatformTypes.lookup h (ArgStr s) = Py.Returns (Some m).
Proof.
  intros Hs. unfold PlatformTypes.lookup. cbn [arg_true].
  rewrite <- lower_nonempty, Hs.
  replace (String.eqb (PlatformTypes.name m) EmptyString) with false by (by destruct m).
  cbn [negb]. unfold hasattr.
  replace (Py.str_in (PlatformTypes.name m) (map PlatformTypes.name PlatformTypes.members))
    with true by (destruct m; vm_compute; reflexivity).
  cbn [orb]. apply getitem_name. destruct m; vm_compute; reflexivity.
Qed.

(** C5 at the inputs where the code leaves it: the first member of each
    enumeration has the value 0, which [if x:] takes for false, so [lookup]
    answers [None] for [ProjectTypes.library], [IDETypes.vs2003] and
    [PlatformTypes.windows]; and [ProjectTypes.lookup] tests [hasattr] on
    the name as given, so ["APP"] finds no member although ["app"] does. *)
Theorem lookup_falsy_member (h : Host) :
  ProjectTypes.lookup h (ArgMember ProjectTypes.library) = Py.Returns None
  /\ IDETypes.lookup h (ArgMember IDETypes.vs2003) = Py.Returns None
  /\ PlatformTypes.lookup h (ArgMember PlatformTypes.windows) = Py.Returns None
  /\ (Py.str_in "APP" (runtime_attrs h) = false ->
      ProjectTypes.lookup h (ArgStr "APP") = Py.Returns None)
  /\ ProjectTypes.lookup h (ArgStr "app") = Py.Returns (Some ProjectTypes.app).
Proof.
  split; [reflexivity |]. split; [reflexivity |]. split; [reflexivity |].
  split; [intros H |]; unfold ProjectTypes.lookup, hasattr; cbn [arg_true].
  - rewrite H. vm_compute. reflexivity.
  - vm_compute. reflexivity.
Qed.

End EnumsTheory.

(** ** Source files and chained settings *)

Module SourceTheory.

Import Enums.

(** The examples of the group name that come out as expected: a file in
    [a/b], a file two directories up and then in [y], and a bare name. *)
Lemma extractgroupname_examples (directory : string) :
  Legacy.extractgroupname (Legacy.new_SourceFile "a/b/c.cpp" directory Legacy.FileTypes.cpp)
    = "a\b"
  /\ Legacy.extractgroupname (Legacy.new_SourceFile "../../y/z.h" directory Legacy.FileTypes.h)
    = "y"
  /\ Legacy.extractgroupname (Legacy.new_SourceFile "c.cpp" directory Legacy.FileTypes.cpp)
    = EmptyString
  /\ Package.extractgroupname (Package.new_SourceFile "a/b/c.cpp" directory FileTypes.cpp)
    = "a\b"
  /\ Package.extractgroupname (Package.new_SourceFile "../../y/z.h" directory FileTypes.h)
    = "y"
  /\ Package.extractgroupname (Package.new_SourceFile "c.cpp" directory FileTypes.cpp)
    = EmptyString.
Proof. repeat split. Qed.

(** C4 at the input where the code leaves it: for [./x.cpp] the base name is
    cut off first, which leaves ["."]; that no longer starts with [.\], so
    the group name is ["."] and not the empty string, in [core.py] and in
    [__init__.py] alike.  The same happens to [../x.cpp], which gives
    [".."]. *)
Theorem extractgroupname_current_directory (directory : string) :
  Legacy.extractgroupname (Legacy.new_SourceFile "./x.cpp" directory Legacy.FileTypes.cpp)
    = "."
  /\ Package.extractgroupname (Package.new_SourceFile "./x.cpp" directory FileTypes.cpp)
    = "."
  /\ Legacy.extractgroupname (Legacy.new_SourceFile "../x.cpp" directory Legacy.FileTypes.cpp)
    = ".."
  /\ Package.extractgroupname (Package.new_SourceFile "../x.cpp" directory FileTypes.cpp)
    = "..".
Proof. repeat split. Qed.

End SourceTheory.

Module ChainTheory.

Import Core.

Lemma str_in_elem_of (x : string) (l : list string) :
  Py.str_in x l = true <-> x ∈ l.
Proof.
  unfold Py.str_in. rewrite existsb_exists. split.
  - intros (y & Hy & Heq). apply String.eqb_eq in Heq as ->.
    by apply list_elem_of_In.
  - intros Hx. exists x. split; [by apply list_elem_of_In | apply String.eqb_refl].
Qed.

(** One turn of the loop of [unique]. *)
Definition keep (result : list string) (item : string) : list string :=
  if Py.str_in item result then result else result ++ [item].

Lemma unique_snoc (l : list string) (a : string) :
  unique (l ++ [a]) = keep (unique l) a.
Proof. unfold unique. by rewrite fold_left_app. Qed.

Lemma keep_cases (result : list string) (a : string) :
  ((a ∈ result) /\ keep result a = result)
  \/ ((a ∉ result) /\ keep result a = result ++ [a]).
Proof.
  unfold keep. destruct (Py.str_in a result) eqn:E.
  - left. split; [by apply str_in_elem_of | done].
  - right. split; [| done]. rewrite <- str_in_elem_of. by rewrite E.
Qed.

Lemma unique_elem_of (l : list string) (x : string) : x ∈ unique l <-> x ∈ l.
Proof.
  induction l as [| a l IH] using rev_ind; [done |].
  rewrite unique_snoc.
  destruct (keep_cases (unique l) a) as [[Ha ->] | [Ha ->]];
    rewrite ?elem_of_app, ?list_elem_of_singleton, IH; [| done].
  split; [by left | intros [H | ->]; [done | by apply IH]].
Qed.

Lemma unique_NoDup (l : list string) : NoDup (unique l).
Proof.
  induction l as [| a l IH] using rev_ind; [constructor |].
  rewrite unique_snoc.
  destruct (keep_cases (unique l) a) as [[Ha ->] | [Ha ->]]; [done |].
  apply NoDup_app. split; [done |]. split; [| apply NoDup_singleton].
  intros x Hx Hxa. apply list_elem_of_singleton in Hxa as ->. done.
Qed.

(** [x] stands before [y] in [l]. *)
Definition before (x y : string) (l : list string) : Prop :=
  exists l1 l2 l3, l = l1 ++ x :: l2 ++ y :: l3.

Lemma before_snoc (x y a : string) (l : list string) :
  before x y (l ++ [a]) -> before x y l \/ (y = a /\ x ∈ l).
Proof.
  intros (l1 & l2 & l3 & Heq).
  destruct l3 as [| b l3 _] using rev_ind.
  - right.
    assert (l = l1 ++ x :: l2 /\ a = y) as [-> ->].
    { apply (app_inj_tail l (l1 ++ x :: l2) a y).
      rewrite Heq. by simplify_list_eq. }
    split; [done |]. set_solver.
  - left. exists l1, l2, l3.
    apply (app_inj_tail l (l1 ++ x :: l2 ++ y :: l3) a b).
    rewrite Heq. by simplify_list_eq.
Qed.

(** First-seen order: when [x] stands before [y] in [unique l], then [x]
    occurs in [l] at a place before which [y] does not occur. *)
Lemma unique_first_seen (l : list string) (x y : string) :
  before x y (unique l) ->
  exists l1 l2, l = l1 ++ x :: l2 /\ y ∉ l1.
Proof.
  induction l as [| a l IH] using rev_ind.
  - intros (l1 & l2 & l3 & Heq). by destruct l1.
  - rewrite unique_snoc.
    destruct (keep_cases (unique l) a) as [[Ha ->] | [Ha ->]]; intros Hb.
    + destruct (IH Hb) as (l1 & l2 & -> & Hy).
      exists l1, (l2 ++ [a]). split; [by rewrite <- app_assoc | done].
    + apply before_snoc in Hb as [Hb | [-> Hx]].
      * destruct (IH Hb) as (l1 & l2 & -> & Hy).
        exists l1, (l2 ++ [a]). split; [by rewrite <- app_assoc | done].
      * apply (proj1 (unique_elem_of l x)) in Hx.
        apply list_elem_of_split in Hx as (l1 & l2 & ->).
        exists l1, (l2 ++ [a]). split; [by rewrite <- app_assoc |].
        intros Hin. apply Ha, unique_elem_of. set_solver.
Qed.

(** C1: for a configuration with an owning project, [get_chained_value] is
    the configuration's own value when that is set, otherwise the project's
    value when that is set, otherwise [None]; [get_unique_chained_list] is
    the configuration's list followed by the project's with every item
    kept where it is first seen: it has no duplicates, it has the items of
    both lists and no others, and an item that stands before another one
    occurs in the chain before the other one does. *)
Theorem chained_resolution (projects : list Project) (c : Configuration)
    (p : Project) (attribute_name : string) :
  parent c ≫= (projects !!.) = Some p ->
  let own := attributes c !! attribute_name in
  let inherited := project_attributes p !! attribute_name in
  get_chained_value projects c attribute_name
    = (if is_set own then default VNone own
       else if is_set inherited then default VNone inherited
       else VNone)
  /\ get_unique_chained_list projects c attribute_name
     = unique (as_list own ++ as_list inherited)
  /\ NoDup (get_unique_chained_list projects c attribute_name)
  /\ (forall x, x ∈ get_unique_chained_list projects c attribute_name
                <-> x ∈ as_list own ++ as_list inherited)
  /\ (forall x y, before x y (get_unique_chained_list projects c attribute_name) ->
        exists l1 l2, as_list own ++ as_list inherited = l1 ++ x :: l2 /\ y ∉ l1).
Proof.
  intros Hp own inherited.
  assert (Hl : get_unique_chained_list projects c attribute_name
               = unique (as_list own ++ as_list inherited)).
  { unfold get_unique_chained_list, get_chained_list, chain. rewrite Hp.
    cbn [map concat]. by rewrite app_nil_r. }
  split.
  { unfold get_chained_value, chain. rewrite Hp. reflexivity. }
  rewrite Hl. split; [done |]. split; [apply unique_NoDup |].
  split; [intros x; apply unique_elem_of | intros x y; apply unique_first_seen].
Qed.

(** A configuration that sets [define_list] and leaves [include_folders_list]
    to its project. *)
Definition sample_project : Project :=
  {| project_name := "foo";
     project_platform := None;
     project_attributes :=
       {[ "define_list" := VList ["A"; "B"];
          "include_folders_list" := VList ["inc"] ]};
     configuration_list := [];
     codefiles := [];
     resolve := fun _ => [] |}.

Definition sample_configuration : Configuration :=
  {| name := "Debug";
     platform := None;
     project_type := None;
     short_code := "dbg";
     deploy_folder := None;
     attributes := {[ "define_list" := VList ["B"; "C"] ]};
     parent := Some 0%nat |}.

Lemma chained_resolution_witness :
  get_chained_value [sample_project] sample_configuration "include_folders_list"
    = VList ["inc"]
  /\ get_unique_chained_list [sample_project] sample_configuration "define_list"
     = ["B"; "C"; "A"].
Proof.
  pose proof (chained_resolution [sample_project] sample_configuration sample_project
                "include_folders_list" eq_refl) as (Hv & _).
  pose proof (chained_resolution [sample_project] sample_configuration sample_project
                "define_list" eq_refl) as (_ & Hl & _).
  split; [rewrite Hv | rewrite Hl]; reflexivity.
Defined.

End ChainTheory.

(** ** Scanning and sorting *)

Module ScanTheory.

Import Legacy.

(** *** [sorted] *)

Section Sorted.

Context {A : Type} (f : A -> A -> Z).

(** The order [sorted] sorts by. *)
Definition le_by (x y : A) : Prop := f x y <= 0.

Hypothesis f_total : forall x y, le_by x y \/ le_by y x.

Lemma insert_sorted_Permutation (x : A) (l : list A) :
  Py.insert_sorted f x l ≡ₚ x :: l.
Proof.
  induction l as [| y l IH]; [done |]. cbn [Py.insert_sorted].
  destruct (f x y <=? 0); [done |]. rewrite IH. apply Permutation_swap.
Qed.

Lemma sorted_Permutation (l : list A) : Py.sorted f l ≡ₚ l.
Proof.
  induction l as [| x l IH]; [done |]. cbn [Py.sorted foldr].
  rewrite insert_sorted_Permutation. by f_equiv.
Qed.

Lemma insert_sorted_HdRel (a x : A) (l : list A) :
  le_by a x -> HdRel le_by a l -> HdRel le_by a (Py.insert_sorted f x l).
Proof.
  intros Hax Hl. destruct l as [| y l]; cbn [Py.insert_sorted].
  - by constructor.
  - destruct (f x y <=? 0); constructor; [done |]. by inversion Hl.
Qed.

Lemma insert_sorted_Sorted (x : A) (l : list A) :
  Sorted le_by l -> Sorted le_by (Py.insert_sorted f x l).
Proof.
  induction 1 as [| y l Hl IH Hy]; cbn [Py.insert_sorted].
  - by repeat constructor.
  - destruct (f x y <=? 0) eqn:E.
    + constructor; [by constructor |]. constructor. unfold le_by. lia.
    + constructor; [done |]. apply insert_sorted_HdRel; [| done].
      destruct (f_total x y) as [H | H]; [unfold le_by in H; lia | done].
Qed.

Lemma sorted_Sorted (l : list A) : Sorted le_by (Py.sorted f l).
Proof.
  induction l as [| x l IH]; [constructor |]. cbn [Py.sorted foldr].
  by apply insert_sorted_Sorted.
Qed.

End Sorted.

(** [cmp] is the order of stdpp's [String.le]. *)
Lemma cmp_le (a b : string) : Py.cmp a b <= 0 <-> String.le a b.
Proof.
  unfold Py.cmp, String.le, String.leb.
  destruct (String.compare a b); simpl; split; intros; first [done | lia].
Qed.

(** The order of [getfilelist]: the character codes of the file names. *)
Definition by_filename (x y : SourceFile) : Prop :=
  le_by (fun x y => Py.cmp (filename x) (filename y)) x y.

Lemma by_filename_le (x y : SourceFile) :
  by_filename x y <-> String.le (filename x) (filename y).
Proof. apply cmp_le. Qed.

#[local] Instance by_filename_trans : Transitive by_filename.
Proof.
  intros x y z. rewrite !by_filename_le. apply (transitivity (R := String.le)).
Qed.

Lemma by_filename_total (x y : SourceFile) : by_filename x y \/ by_filename y x.
Proof. rewrite !by_filename_le. apply (total String.le). Qed.

Lemma by_filename_antisym (x y : SourceFile) :
  by_filename x y -> by_filename y x -> filename x = filename y.
Proof. rewrite !by_filename_le. apply (anti_symm String.le). Qed.


(** Membership in a list put together with [++] and [::]. *)
Ltac in_list := rewrite ?elem_of_app, ?elem_of_cons; tauto.

(** *** What a scan finds *)

(** Induction on a directory tree, with the property known for every entry
    of a directory. *)
Lemma node_nested_ind (P : node -> Prop) :
  P File -> P Other ->
  (forall entries, Forall (fun e => P e.2) entries -> P (Dir entries)) ->
  forall n, P n.
Proof.
  intros HFile HOther HDir. fix IH 1. intros [| entries |].
  - exact HFile.
  - apply HDir. induction entries as [| [baseName entry] entries IHentries].
    + constructor.
    + constructor; [apply IH | exact IHentries].
  - exact HOther.
Qed.

Section Found.

Variable os_sep : string.
Variable os_path_join : string -> string -> string.
Variable self : SolutionData.
Variable recurse : bool.
Variable acceptable : list FileTypes.t.

(** The name is on the exclusion list. *)
Definition excluded (baseName : string) : bool :=
  existsb (fun item => String.eqb (Py.lower baseName) (Py.lower item)) (exclude self).

(** The type of an accepted file: the first extension of the table the name
    ends with, when its type is among the acceptable ones. *)
Definition accepted_type (baseName : string) : option FileTypes.t :=
  match find (fun item => Py.endswith (Py.lower baseName) (fst item))
             defaultcodeextensions with
  | Some item =>
      if existsb (fun item2 => bool_decide (snd item = item2)) acceptable
      then Some (snd item) else None
  | None => None
  end.

(** The entry made for a file of a directory. *)
Definition entry_of (directory baseName : string) (type : FileTypes.t) : SourceFile :=
  new_SourceFile
    (if String.eqb directory "." then baseName else directory +:+ os_sep +:+ baseName)
    (searchDir_of os_path_join self directory) type.

(** The files one entry of a directory contributes. *)
Definition entry_files (files_of : string -> node -> list SourceFile)
    (directory : string) (e : string * node) : list SourceFile :=
  if excluded e.1 then []
  else
    match e.2 with
    | File =>
        match accepted_type e.1 with
        | Some type => [entry_of directory e.1 type]
        | None => []
        end
    | Dir _ => if recurse then files_of (directory +:+ os_sep +:+ e.1) e.2 else []
    | Other => []
    end.

(** The files a scan of [directory] finds when [here] is what is there. *)
Fixpoint found_files (directory : string) (here : node) : list SourceFile :=
  match here with
  | Dir nameList => flat_map (entry_files found_files directory) nameList
  | _ => []
  end.

(** Every listed directory contributed a file. *)
Definition dirs_contribute (newfiles : list SourceFile) (newdirs : list string) : Prop :=
  forall d, d ∈ newdirs ->
    exists fl, fl ∈ newfiles /\ directory fl = searchDir_of os_path_join self d.

(** Every file comes from a listed directory, or from [directory] when that
    one was listed before ([found]). *)
Definition files_listed (found : bool) (directory : string)
    (newfiles : list SourceFile) (newdirs : list string) : Prop :=
  forall fl, fl ∈ newfiles ->
    (exists d, d ∈ newdirs /\ Legacy.directory fl = searchDir_of os_path_join self d)
    \/ (found = true /\ Legacy.directory fl = searchDir_of os_path_join self directory).

(** What a call of the scan does to the two lists it is given. *)
Definition scan_spec (found : bool) (directory : string) (newfiles : list SourceFile)
    (before after : list SourceFile * list string) : Prop :=
  exists newdirs,
    after = (before.1 ++ newfiles, before.2 ++ newdirs)
    /\ dirs_contribute newfiles newdirs
    /\ files_listed found directory newfiles newdirs.

Lemma scan_entries_spec
    (scan : string -> node -> list SourceFile -> list string
            -> list SourceFile * list string)
    (files_of : string -> node -> list SourceFile)
    (directory : string) (nameList : list (string * node)) :
  Forall (fun e => forall d cf inc,
            scan_spec false d (files_of d e.2) (cf, inc) (scan d e.2 cf inc)) nameList ->
  forall found cf inc,
    scan_spec found directory (flat_map (entry_files files_of directory) nameList)
      (cf, inc)
      (scan_entries os_sep self recurse acceptable scan directory
         (searchDir_of os_path_join self directory) nameList found cf inc).
Proof.
  induction 1 as [| [baseName entry] nameList Hentry _ IH]; intros found cf inc.
  - exists []. cbn. rewrite !app_nil_r. repeat split; intros ? H; by apply elem_of_nil in H.
  - cbn [scan_entries flat_map]. unfold entry_files at 1. cbn [fst snd].
    fold (excluded baseName). destruct (excluded baseName); [apply IH |].
    destruct entry as [| entries |]; [| | apply IH].
    + (* a file *)
      unfold accepted_type.
      destruct (find _ defaultcodeextensions) as [item |]; [| apply IH].
      destruct (existsb _ acceptable); [| apply IH].
      fold (entry_of directory baseName item.2).
      destruct (IH true (cf ++ [entry_of directory baseName item.2])
                   (if found then inc else inc ++ [directory]))
        as (newdirs & -> & Hdirs & Hfiles).
      exists ((if found then [] else [directory]) ++ newdirs). cbn [fst snd].
      split; [| split].
      * f_equal; [by rewrite <- app_assoc |].
        destruct found; [done | by rewrite <- app_assoc].
      * intros d Hd. apply elem_of_app in Hd as [Hd | Hd].
        -- destruct found; [by apply elem_of_nil in Hd |].
           apply list_elem_of_singleton in Hd as ->.
           exists (entry_of directory baseName item.2). split; [in_list | done].
        -- destruct (Hdirs d Hd) as (fl & Hfl & Heq). exists fl. split; [in_list | done].
      * intros fl Hfl.
        assert (Hhere : Legacy.directory fl = searchDir_of os_path_join self directory ->
                  (exists d, d ∈ (if found then [] else [directory]) ++ newdirs
                             /\ Legacy.directory fl = searchDir_of os_path_join self d)
                  \/ (found = true
                      /\ Legacy.directory fl = searchDir_of os_path_join self directory)).
        { intros Heq. destruct found; [by right | left].
          exists directory. split; [in_list | done]. }
        apply elem_of_cons in Hfl as [-> | Hfl]; [by apply Hhere |].
        destruct (Hfiles fl Hfl) as [(d & Hd & Heq) | [_ Heq]]; [| by apply Hhere].
        left. exists d. split; [in_list | done].
    + (* a directory *)
      destruct recurse; [| apply IH].
      destruct (Hentry (directory +:+ os_sep +:+ baseName) cf inc)
        as (newdirs1 & Hscan & Hdirs1 & Hfiles1).
      cbn [fst snd] in Hscan. rewrite Hscan.
      destruct (IH found (cf ++ files_of (directory +:+ os_sep +:+ baseName) (Dir entries))
                   (inc ++ newdirs1))
        as (newdirs2 & -> & Hdirs2 & Hfiles2).
      exists (newdirs1 ++ newdirs2). cbn [fst snd].
      split; [by rewrite <- !app_assoc | split].
      * intros d Hd. apply elem_of_app in Hd as [Hd | Hd].
        -- destruct (Hdirs1 d Hd) as (fl & Hfl & Heq). exists fl. split; [in_list | done].
        -- destruct (Hdirs2 d Hd) as (fl & Hfl & Heq). exists fl. split; [in_list | done].
      * intros fl Hfl. apply elem_of_app in Hfl as [Hfl | Hfl].
        -- destruct (Hfiles1 fl Hfl) as [(d & Hd & Heq) | [? _]]; [| done].
           left. exists d. split; [in_list | done].
        -- destruct (Hfiles2 fl Hfl) as [(d & Hd & Heq) | ?]; [| by right].
           left. exists d. split; [in_list | done].
Qed.

Lemma scandirectory_at_spec (here : node) :
  forall directory cf inc,
    scan_spec false directory (found_files directory here) (cf, inc)
      (scandirectory_at os_sep os_path_join self recurse acceptable directory here cf inc).
Proof.
  induction here as [| | entries IH] using node_nested_ind; intros directory cf inc.
  - exists []. cbn. rewrite !app_nil_r. repeat split; intros ? H; by apply elem_of_nil in H.
  - exists []. cbn. rewrite !app_nil_r. repeat split; intros ? H; by apply elem_of_nil in H.
  - cbn [scandirectory_at found_files]. by apply scan_entries_spec.
Qed.

End Found.


(** *** [getfilelist] *)

(** A source folder and whether it is scanned with its subdirectories. *)
Definition folder_of (item : string) : bool * string :=
  let recurse := Py.endswith item "/*.*" in
  (recurse, if recurse then Py.slice item 0 (Py.len item - 4) else item).

Section Getfilelist.

Variable os_sep : string.
Variable os_path_join : string -> string -> string.
Variable disk : string -> node.
Variable self : SolutionData.
Variable acceptable : list FileTypes.t.

(** The files the scan of one source folder finds. *)
Definition folder_files (item : string) : list SourceFile :=
  found_files os_sep os_path_join self (folder_of item).1 acceptable (folder_of item).2
    (disk (searchDir_of os_path_join self (folder_of item).2)).

(** The files the scans of all the source folders find, in scan order. *)
Definition scanned_files : list SourceFile :=
  flat_map folder_files (sourcefolders self).

(** One turn of the loop of [getfilelist]. *)
Definition scan_folder (lists : list SourceFile * list string) (item : string)
    : list SourceFile * list string :=
  scandirectory os_sep os_path_join disk self (folder_of item).1 acceptable
    (folder_of item).2 lists.1 lists.2.

Lemma getfilelist_unfold :
  getfilelist os_sep os_path_join disk self acceptable
  = (Py.sorted (fun x y => Py.cmp (filename x) (filename y))
       (fold_left scan_folder (sourcefolders self) (codefiles self, [])).1,
     (fold_left scan_folder (sourcefolders self) (codefiles self, [])).2).
Proof.
  unfold getfilelist.
  generalize (codefiles self, @nil string).
  induction (sourcefolders self) as [| item folders IH]; intros [cf inc]; [done |].
  cbn [fold_left]. apply IH.
Qed.

Lemma getfilelist_scans (folders : list string) (lists : list SourceFile * list string) :
  scan_spec os_path_join self false EmptyString (flat_map folder_files folders) lists
    (fold_left scan_folder folders lists).
Proof.
  revert lists. induction folders as [| item folders IH]; intros [cf inc].
  - exists []. cbn. rewrite !app_nil_r. repeat split; intros ? H; by apply elem_of_nil in H.
  - cbn [fold_left flat_map]. unfold scan_folder at 2, scandirectory. cbn [fst snd].
    destruct (scandirectory_at_spec os_sep os_path_join self (folder_of item).1 acceptable
                (disk (searchDir_of os_path_join self (folder_of item).2))
                (folder_of item).2 cf inc)
      as (newdirs1 & -> & Hdirs1 & Hfiles1).
    fold (folder_files item) in Hdirs1, Hfiles1 |- *. cbn [fst snd].
    destruct (IH (cf ++ folder_files item, inc ++ newdirs1))
      as (newdirs2 & -> & Hdirs2 & Hfiles2).
    exists (newdirs1 ++ newdirs2). cbn [fst snd].
    split; [by rewrite <- !app_assoc | split].
    + intros d Hd. apply elem_of_app in Hd as [Hd | Hd].
      * destruct (Hdirs1 d Hd) as (fl & Hfl & Heq). exists fl. split; [in_list | done].
      * destruct (Hdirs2 d Hd) as (fl & Hfl & Heq). exists fl. split; [in_list | done].
    + intros fl Hfl. apply elem_of_app in Hfl as [Hfl | Hfl].
      * destruct (Hfiles1 fl Hfl) as [(d & Hd & Heq) | [? _]]; [| done].
        left. exists d. split; [in_list | done].
      * destruct (Hfiles2 fl Hfl) as [(d & Hd & Heq) | [? _]]; [| done].
        left. exists d. split; [in_list | done].
Qed.

(** What [getfilelist] answers: the sorted files and the directories. *)
Lemma getfilelist_result :
  let result := getfilelist os_sep os_path_join disk self acceptable in
  StronglySorted by_filename result.1
  /\ result.1 ≡ₚ codefiles self ++ scanned_files
  /\ (forall d, d ∈ result.2 ->
        exists fl, fl ∈ scanned_files
                   /\ directory fl = searchDir_of os_path_join self d)
  /\ (forall fl, fl ∈ scanned_files ->
        exists d, d ∈ result.2
                  /\ directory fl = searchDir_of os_path_join self d).
Proof.
  rewrite getfilelist_unfold.
  destruct (getfilelist_scans (sourcefolders self) (codefiles self, []))
    as (newdirs & -> & Hdirs & Hfiles).
  cbn [fst snd app]. fold scanned_files in Hdirs, Hfiles |- *.
  split; [| split; [| split]].
  - apply Sorted_StronglySorted; [apply _ |].
    apply (sorted_Sorted (fun x y => Py.cmp (filename x) (filename y))).
    apply by_filename_total.
  - apply sorted_Permutation.
  - exact Hdirs.
  - intros fl Hfl. destruct (Hfiles fl Hfl) as [H | [? _]]; done.
Qed.


End Getfilelist.


(** *** The order of the listing *)

(** Two trees with the same content: every directory lists the same entries,
    in any order. *)
Inductive same_tree : node -> node -> Prop :=
  | same_File : same_tree File File
  | same_Other : same_tree Other Other
  | same_Dir entries1 entries2 :
      same_entries entries1 entries2 -> same_tree (Dir entries1) (Dir entries2)
with same_entries : list (string * node) -> list (string * node) -> Prop :=
  | same_nil : same_entries [] []
  | same_skip baseName entry1 entry2 entries1 entries2 :
      same_tree entry1 entry2 -> same_entries entries1 entries2 ->
      same_entries ((baseName, entry1) :: entries1) ((baseName, entry2) :: entries2)
  | same_swap e1 e2 entries :
      same_entries (e1 :: e2 :: entries) (e2 :: e1 :: entries)
  | same_trans entries1 entries2 entries3 :
      same_entries entries1 entries2 -> same_entries entries2 entries3 ->
      same_entries entries1 entries3.

Scheme same_tree_mut := Induction for same_tree Sort Prop
  with same_entries_mut := Induction for same_entries Sort Prop.

Lemma same_tree_refl (n : node) : same_tree n n.
Proof.
  induction n as [| | entries IH] using node_nested_ind; try constructor.
  induction IH as [| [baseName entry] entries Hentry _ IH]; by constructor.
Qed.

Section Listing.

Variable os_sep : string.
Variable os_path_join : string -> string -> string.
Variable self : SolutionData.
Variable acceptable : list FileTypes.t.

Lemma found_files_same_tree (recurse : bool) (here1 here2 : node) :
  same_tree here1 here2 ->
  forall directory,
    found_files os_sep os_path_join self recurse acceptable directory here1
    ≡ₚ found_files os_sep os_path_join self recurse acceptable directory here2.
Proof.
  set (files_of := found_files os_sep os_path_join self recurse acceptable).
  set (one := entry_files os_sep os_path_join self recurse acceptable files_of).
  intros Hsame.
  induction Hsame using same_tree_mut with
    (P0 := fun entries1 entries2 _ =>
             forall directory,
               flat_map (one directory) entries1 ≡ₚ flat_map (one directory) entries2);
    intros directory.
  - done.
  - done.
  - apply IHHsame.
  - done.
  - cbn [flat_map]. f_equiv; [| apply IHHsame0].
    unfold one, entry_files. cbn [fst snd].
    destruct (excluded self baseName); [done |].
    destruct Hsame; try done.
    destruct recurse; [| done]. apply IHHsame.
  - cbn [flat_map]. rewrite !app_assoc. f_equiv. apply Permutation_app_comm.
  - etrans; [apply IHHsame | apply IHHsame0].
Qed.

Lemma scanned_files_same_tree (disk1 disk2 : string -> node) :
  (forall path, same_tree (disk1 path) (disk2 path)) ->
  scanned_files os_sep os_path_join disk1 self acceptable
  ≡ₚ scanned_files os_sep os_path_join disk2 self acceptable.
Proof.
  intros Hdisk. unfold scanned_files.
  induction (sourcefolders self) as [| item folders IH]; [done |].
  cbn [flat_map]. f_equiv; [| done].
  unfold folder_files. by apply found_files_same_tree.
Qed.


End Listing.

(** *** Examples *)

(** [os.path.join] of a POSIX host, for a relative second path. *)
Definition posix_join (a b : string) : string := a +:+ "/" +:+ b.

Definition solution_at (folders : list string) : SolutionData :=
  {| verbose := false;
     workingDir := "/w";
     kind := "tool";
     projectname := "project";
     ide := "vs2010";
     platform := "windows";
     configurations := ["Debug"; "Internal"; "Release"];
     finalfolder := None;
     exclude := [];
     defines := [];
     sourcefolders := folders;
     includefolders := [];
     codefiles := [] |}.

(** A working directory with [a.cpp] and [B.cpp], and a folder [src] with
    [main.cpp]. *)
Definition mixed_case_disk (path : string) : node :=
  if String.eqb path "/w" then Dir [("a.cpp", File); ("B.cpp", File)]
  else if String.eqb path "/w/src" then Dir [("main.cpp", File)]
  else Other.

Definition mixed_case_disk_swapped (path : string) : node :=
  if String.eqb path "/w" then Dir [("B.cpp", File); ("a.cpp", File)]
  else if String.eqb path "/w/src" then Dir [("main.cpp", File)]
  else Other.

(** The order without regard to case, which the claim C6 speaks of. *)
Definition by_filename_nocase (x y : SourceFile) : Prop :=
  Py.cmp (Py.lower (filename x)) (Py.lower (filename y)) <= 0.


Lemma mixed_case_disk_same (path : string) :
  same_tree (mixed_case_disk path) (mixed_case_disk_swapped path).
Proof.
  unfold mixed_case_disk, mixed_case_disk_swapped.
  destruct (String.eqb path "/w"); [constructor; apply same_swap |].
  apply same_tree_refl.
Qed.


(** A folder [x] of a POSIX host with a subdirectory [y] holding [z.cpp] and,
    next to it, a file whose name is [y\z.cpp]: both get the file name
    [x\y\z.cpp]. *)
Definition backslash_disk (path : string) : node :=
  if String.eqb path "/w/x"
  then Dir [("y", Dir [("z.cpp", File)]); ("y\z.cpp", File)]
  else Other.

Definition backslash_disk_swapped (path : string) : node :=
  if String.eqb path "/w/x"
  then Dir [("y\z.cpp", File); ("y", Dir [("z.cpp", File)])]
  else Other.


End ScanTheory.

(** ** The emitters *)

Module EmitterTheory.

Import Enums.

(** *** Unsupported combinations *)

Inductive emitter : Set := WatcomEmitter | CodewarriorEmitter.

(** What the two emitters take from their surroundings. *)
Record surroundings : Type := {
  encapsulate_path_linux : string -> string;
  os_path_join : string -> string -> string;
  export : Core.Solution -> Py.outcome (Core.Solution * Z * list string);
  CWFolder : option string;
  run_ide : string -> string -> World.t -> Z * World.t
}.

Definition supported_ides (e : emitter) : list IDETypes.t :=
  match e with
  | WatcomEmitter => Watcom.SUPPORTED_IDES
  | CodewarriorEmitter => Codewarrior.SUPPORTED_IDES
  end.

Definition test_of (e : emitter) : IDETypes.t -> PlatformTypes.t -> bool :=
  match e with
  | WatcomEmitter => Watcom.test
  | CodewarriorEmitter => Codewarrior.test
  end.

Definition generate_of (s : surroundings) (e : emitter)
    : Core.Solution -> World.t -> World.run :=
  match e with
  | WatcomEmitter => Watcom.generate (encapsulate_path_linux s) (os_path_join s)
  | CodewarriorEmitter =>
      Codewarrior.generate (export s) (os_path_join s) (CWFolder s) (run_ide s)
  end.


(** A project for [linux] with the configurations [Debug] and [Release]. *)
Definition linux_project : Core.Project :=
  {| Core.project_name := "foo";
     Core.project_platform := Some PlatformTypes.linux;
     Core.project_attributes := ∅;
     Core.configuration_list :=
       [ Core.owned_by 0 (Core.new_Configuration "Debug" (Some PlatformTypes.linux)
                            (Some ProjectTypes.tool));
         Core.owned_by 0 (Core.new_Configuration "Release" (Some PlatformTypes.linux)
                            (Some ProjectTypes.tool)) ];
     Core.codefiles := [];
     Core.resolve := fun _ => [] |}.

Definition linux_solution (ide : IDETypes.t) : Core.Solution :=
  {| Core.solution_name := "foo";
     Core.solution_working_directory := "/w";
     Core.ide := ide;
     Core.ide_code := default EmptyString (IDETypes.get_short_code ide);
     Core.platform_code := "lnx";
     Core.perforce := false;
     Core.verbose := false;
     Core.project_list := [linux_project];
     Core.watcom_filename := None;
     Core.codewarrior_filename := None |}.

Definition empty_disk : World.t := {| World.files := ∅; World.written := [] |}.

Definition posix_surroundings
    (export : Core.Solution -> Py.outcome (Core.Solution * Z * list string))
    : surroundings :=
  {| encapsulate_path_linux := fun path => path;
     os_path_join := ScanTheory.posix_join;
     export := export;
     CWFolder := None;
     run_ide := fun _ _ w => (0, w) |}.




(** *** The Watcom round trip *)

(** The source folder of the scenario: [main.cpp] and [main.h]. *)
Definition foo_folder : list Core.SourceFile :=
  [ {| Core.relative_pathname := "main.cpp"; Core.working_directory := "/w";
       Core.type := FileTypes.cpp |};
    {| Core.relative_pathname := "main.h"; Core.working_directory := "/w";
       Core.type := FileTypes.h |} ].

(** The configurations [new_configuration] makes of the names [Debug] and
    [Release] for the platform ["windows"]. *)
Definition foo_configurations (h : Host) : list Core.Configuration :=
  match Package.new_configuration h ["Debug"; "Release"] (ArgStr "windows")
          (Some ProjectTypes.tool) with
  | Py.Returns results => map (Core.owned_by 0) results
  | Py.Raises _ => []
  end.

Definition foo_project (h : Host) : Core.Project :=
  {| Core.project_name := "foo";
     Core.project_platform := Some PlatformTypes.windows;
     Core.project_attributes := ∅;
     Core.configuration_list := foo_configurations h;
     Core.codefiles := [];
     Core.resolve :=
       fun acceptable => filter (fun fl => Core.type fl ∈ acceptable) foo_folder |}.

Definition foo_solution (h : Host) : Core.Solution :=
  {| Core.solution_name := "foo";
     Core.solution_working_directory := "/w";
     Core.ide := IDETypes.watcom;
     Core.ide_code := default EmptyString (IDETypes.get_short_code IDETypes.watcom);
     Core.platform_code :=
       default EmptyString (PlatformTypes.get_short_code PlatformTypes.windows);
     Core.perforce := false;
     Core.verbose := false;
     Core.project_list := [foo_project h];
     Core.watcom_filename := None;
     Core.codewarrior_filename := None |}.

(** The lines of the [OBJS] macro: from the line that starts with [OBJS=] to
    the next empty line. *)
Fixpoint until_empty (lines : list string) : list string :=
  match lines with
  | [] => []
  | line :: lines' =>
      if String.eqb line EmptyString then [] else line :: until_empty lines'
  end.

Fixpoint objs_section (lines : list string) : list string :=
  match lines with
  | [] => []
  | line :: lines' =>
      if Py.startswith line "OBJS=" then until_empty lines else objs_section lines'
  end.

Lemma foo_configurations_expanded (h : Host) :
  map (fun c => (Core.name c, Core.platform c, Core.short_code c)) (foo_configurations h)
  = [ ("Debug", Some PlatformTypes.win32, "dbg");
      ("Debug", Some PlatformTypes.win64, "dbg");
      ("Release", Some PlatformTypes.win32, "rel");
      ("Release", Some PlatformTypes.win64, "rel") ].
Proof. vm_compute. reflexivity. Qed.

(** Writing a file that is not there yet. *)
Lemma save_absent (file_name : string) (text_lines : list string) (w : World.t) :
  World.files w !! file_name = None ->
  World.save_text_file_if_newer file_name text_lines w
  = (0, {| World.files := <[file_name := text_lines]> (World.files w);
           World.written := World.written w ++ [file_name] |}).
Proof.
  intros Hnone. unfold World.save_text_file_if_newer.
  rewrite Hnone. by destruct (decide _).
Qed.

(** The name [generate] gives the file of a solution. *)
Definition wmk_name (solution : Core.Solution) : string :=
  Core.solution_name solution +:+ Core.ide_code solution
  +:+ Core.platform_code solution +:+ ".wmk".

(** What [generate] does for a supported IDE when the exporter makes its
    lines and the file is not there yet. *)
Lemma watcom_generate_writes (encapsulate : string -> string)
    (join : string -> string -> string) (solution : Core.Solution) (w : World.t)
    (lines : list string) :
  let named := Core.set_watcom_filename (wmk_name solution) solution in
  let path := join (Core.solution_working_directory solution) (wmk_name solution) in
  Core.ide solution ∈ Watcom.SUPPORTED_IDES ->
  Watcom.generate_lines encapsulate (Watcom.new_Project named) [] = Py.Returns (0, lines) ->
  World.files w !! path = None ->
  Watcom.generate encapsulate join solution w
  = {| World.result := Py.Returns 0;
       World.solution_after := Watcom.solution (Watcom.new_Project named);
       World.world_after :=
         {| World.files := <[path := lines]> (World.files w);
            World.written := World.written w ++ [path] |} |}.
Proof.
  intros named path Hide Hlines Hnone. unfold Watcom.generate.
  rewrite bool_decide_eq_true_2 by done. cbn [negb].
  fold (wmk_name solution). cbv zeta. fold named. rewrite Hlines.
  change (negb (0 =? 0)) with false. cbv iota.
  change (Core.solution_working_directory named)
    with (Core.solution_working_directory solution).
  fold path. by rewrite save_absent.
Qed.


End EmitterTheory.

(** ** The lookups of the enumerations *)

Module LookupTheory.

Import Enums.

(** [s.lower()] twice is [s.lower()]. *)
Lemma lower_char_idempotent (c : ascii) : Py.lower_char (Py.lower_char c) = Py.lower_char c.
Proof.
  destruct c as [[] [] [] [] [] [] [] []]; vm_compute; reflexivity.
Qed.

Lemma lower_idempotent (s : string) : Py.lower (Py.lower s) = Py.lower s.
Proof.
  induction s as [| c s IH]; [reflexivity |].
  cbn [Py.lower]. by rewrite lower_char_idempotent, IH.
Qed.

(** A host whose runtime adds the attributes of Python's [int] to the
    enumeration classes. *)
Definition sample_host : Host :=
  {| runtime_attrs :=
       [ "real"; "imag"; "numerator"; "denominator"; "conjugate";
         "bit_length"; "to_bytes"; "from_bytes"; "mro" ];
     xcode_table_order := [10; 9; 8; 7; 6; 5; 4; 3];
     get_windows_host_type := Some "x64";
     get_mac_host_type := None;
     where_is_visual_studio := fun version => (version =? 2010) || (version =? 2017);
     where_is_xcode := fun _ => false;
     where_is_codeblocks := false;
     where_is_watcom := true |}.

(** X1.  [IDETypes.lookup] finds an IDE by what it prints and by its short
    code: a string that is, up to the case of its letters, the display
    string ([repr]) or the short code ([get_short_code]) of the IDE [x],
    and whose lower-case form is no attribute that the class has besides
    its members, is looked up to [x]. *)
Theorem ide_lookup_round_trip (h : Host) (x : IDETypes.t) (s : string) :
  Py.str_in (Py.lower s) (runtime_attrs h) = false ->
  Some (Py.lower s) = Py.lower <$> IDETypes.repr x
  \/ Some (Py.lower s) = IDETypes.get_short_code x ->
  IDETypes.lookup h (ArgStr s) = Py.Returns (Some x).
Proof.
  intros Hattr Hs. unfold IDETypes.lookup. cbn [arg_true].
  rewrite <- EnumsTheory.lower_nonempty. cbv zeta. unfold hasattr.
  remember (Py.lower s) as t eqn:Et. clear Et.
  destruct x; vm_compute in Hs; destruct Hs as [Hs | Hs];
    injection Hs as ->; rewrite Hattr; vm_compute; reflexivity.
Qed.


Lemma ide_lookup_round_trip_witness :
  IDETypes.lookup sample_host (ArgStr "Open Watcom 1.9 WMAKE")
  = Py.Returns (Some IDETypes.watcom).
Proof.
  apply (ide_lookup_round_trip sample_host IDETypes.watcom "Open Watcom 1.9 WMAKE");
    [reflexivity | left; reflexivity].
Defined.

(** X2.  [PlatformTypes.lookup] finds a platform by what it prints and by
    its short code: a string that is, up to the case of its letters, the
    display string ([repr]) or the short code ([get_short_code]) of the
    platform [x], and whose lower-case form is no attribute that the class
    has besides its members, is looked up to [x]. *)
Theorem platform_lookup_round_trip (h : Host) (x : PlatformTypes.t) (s : string) :
  Py.str_in (Py.lower s) (runtime_attrs h) = false ->
  Some (Py.lower s) = Py.lower <$> PlatformTypes.repr x
  \/ Some (Py.lower s) = PlatformTypes.get_short_code x ->
  PlatformTypes.lookup h (ArgStr s) = Py.Returns (Some x).
Proof.
  intros Hattr Hs. unfold PlatformTypes.lookup. cbn [arg_true].
  rewrite <- EnumsTheory.lower_nonempty. cbv zeta. unfold hasattr.
  remember (Py.lower s) as t eqn:Et. clear Et.
  destruct x; vm_compute in Hs; destruct Hs as [Hs | Hs];
    injection Hs as ->; rewrite Hattr; vm_compute; reflexivity.
Qed.

Lemma platform_lookup_round_trip_witness :
  PlatformTypes.lookup sample_host (ArgStr "DOS4GW")
  = Py.Returns (Some PlatformTypes.msdos4gw).
Proof.
  apply (platform_lookup_round_trip sample_host PlatformTypes.msdos4gw "DOS4GW");
    [reflexivity | right; reflexivity].
Defined.

(** Membership in a tuple of names, one name at a time. *)
Lemma str_in_cases (s : string) (l : list string) :
  Py.str_in s l = true -> In s l.
Proof.
  unfold Py.str_in. intros H. apply existsb_exists in H as (n & Hn & Heq).
  apply String.eqb_eq in Heq. by subst.
Qed.

(** X3.  [ProjectTypes.lookup] finds a project type by what it prints: a
    string that is, up to the case of its letters, the display string
    ([repr]) of the project type [x], and that as written is no attribute
    that the class has besides its members, is looked up to [x]. *)
Theorem project_lookup_round_trip (h : Host) (x : ProjectTypes.t) (s : string) :
  Py.str_in s (runtime_attrs h) = false ->
  Some (Py.lower s) = Py.lower <$> ProjectTypes.repr x ->
  ProjectTypes.lookup h (ArgStr s) = Py.Returns (Some x).
Proof.
  intros Hattr Hs. unfold ProjectTypes.lookup. cbn [arg_true].
  rewrite <- EnumsTheory.lower_nonempty. cbv zeta. unfold hasattr.
  rewrite Hattr, orb_false_r.
  destruct (Py.str_in s (map ProjectTypes.name ProjectTypes.members)) eqn:Ename.
  - apply str_in_cases in Ename. cbn in Ename.
    repeat (destruct Ename as [<- | Ename];
            [destruct x; vm_compute in Hs; first [discriminate Hs | reflexivity] |]).
    contradiction.
  - destruct (Py.str_in s ProjectTypes.methods) eqn:Emethod.
    + apply str_in_cases in Emethod. cbn in Emethod.
      repeat (destruct Emethod as [<- | Emethod];
              [destruct x; vm_compute in Hs; discriminate Hs |]).
      contradiction.
    + cbn [orb]. remember (Py.lower s) as t eqn:Et. clear Et.
      destruct x; vm_compute in Hs; injection Hs as ->; vm_compute; reflexivity.
Qed.

Lemma project_lookup_round_trip_witness :
  ProjectTypes.lookup sample_host (ArgStr "dynamic LIBRARY")
  = Py.Returns (Some ProjectTypes.sharedlibrary).
Proof.
  apply (project_lookup_round_trip sample_host ProjectTypes.sharedlibrary "dynamic LIBRARY");
    reflexivity.
Defined.

(** X4.  The name of a method of an enumeration is no member of it: [lookup]
    finds the name with [hasattr], indexes the class with it and raises
    [KeyError].  [ProjectTypes.lookup] does so for the name as written,
    [IDETypes.lookup] and [PlatformTypes.lookup] for the name in any letter
    case. *)
Theorem lookup_method_name_raises (h : Host) (s : string) :
  (In s ProjectTypes.methods ->
   ProjectTypes.lookup h (ArgStr s) = Py.Raises "KeyError")
  /\ (In (Py.lower s) IDETypes.methods ->
      IDETypes.lookup h (ArgStr s) = Py.Raises "KeyError")
  /\ (In (Py.lower s) PlatformTypes.methods ->
      PlatformTypes.lookup h (ArgStr s) = Py.Raises "KeyError").
Proof.
  split; [| split].
  - intros Hs. cbn in Hs.
    repeat (destruct Hs as [<- | Hs]; [vm_compute; reflexivity |]). contradiction.
  - intros Hs. unfold IDETypes.lookup. cbn [arg_true].
    rewrite <- EnumsTheory.lower_nonempty. cbv zeta. unfold hasattr.
    remember (Py.lower s) as t eqn:Et. clear Et. cbn in Hs.
    repeat (destruct Hs as [<- | Hs]; [vm_compute; reflexivity |]). contradiction.
  - intros Hs. unfold PlatformTypes.lookup. cbn [arg_true].
    rewrite <- EnumsTheory.lower_nonempty. cbv zeta. unfold hasattr.
    remember (Py.lower s) as t eqn:Et. clear Et. cbn in Hs.
    repeat (destruct Hs as [<- | Hs]; [vm_compute; reflexivity |]). contradiction.
Qed.

(** X5.  [PlatformTypes.lookup] reads a string through [lower()] only: a
    string and its lower-case form are looked up alike, whatever the
    answer (a member, [None] or an exception). *)
Theorem platform_lookup_ignores_case (h : Host) (s : string) :
  PlatformTypes.lookup h (ArgStr s) = PlatformTypes.lookup h (ArgStr (Py.lower s)).
Proof.
  unfold PlatformTypes.lookup. cbn [arg_true]. cbv zeta.
  by rewrite lower_idempotent, EnumsTheory.lower_nonempty.
Qed.


(** The generic names [IDETypes.lookup] knows. *)
Definition ide_aliases : list string :=
  [ "vs"; "visualstudio"; "visual_studio"; "visual studio"; "xcode";
    "codewarrior"; "metrowerks"; "cw"; "freescale" ].

(** X6.  [IDETypes.lookup] compares the generic names (vs, visualstudio,
    xcode, codewarrior, metrowerks, cw, freescale, ...) with the string as
    written and not with its lower-case form.  So a string is looked up as
    its lower-case form is, or it is not found; and a generic name written
    with a capital letter is not found ([None]), when its lower-case form
    is no attribute that the class has besides its members. *)
Theorem ide_lookup_alias_case (h : Host) (s : string) :
  (IDETypes.lookup h (ArgStr s) = IDETypes.lookup h (ArgStr (Py.lower s))
   \/ IDETypes.lookup h (ArgStr s) = Py.Returns None)
  /\ (In (Py.lower s) ide_aliases -> s <> Py.lower s ->
      Py.str_in (Py.lower s) (runtime_attrs h) = false ->
      IDETypes.lookup h (ArgStr s) = Py.Returns None).
Proof.
  unfold IDETypes.lookup. cbn [arg_true]. cbv zeta.
  rewrite lower_idempotent, (EnumsTheory.lower_nonempty s).
  split.
  - destruct (negb (String.eqb s EmptyString)); [| by left].
    destruct (hasattr h IDETypes.members IDETypes.name IDETypes.methods (Py.lower s));
      [by left |].
    destruct (find _ (map fst IDETypes.IDETYPES_READABLE)); [by left |].
    destruct (Py.str_in s ["vs"; "visualstudio"; "visual_studio"; "visual studio"]) eqn:E1.
    { apply str_in_cases in E1. cbn in E1.
      repeat (destruct E1 as [<- | E1]; [by left |]). contradiction. }
    destruct (Py.str_in s ["xcode"]) eqn:E2.
    { apply str_in_cases in E2. cbn in E2.
      repeat (destruct E2 as [<- | E2]; [by left |]). contradiction. }
    destruct (Py.str_in s ["codewarrior"; "metrowerks"; "cw"; "freescale"]) eqn:E3.
    { apply str_in_cases in E3. cbn in E3.
      repeat (destruct E3 as [<- | E3]; [by left |]). contradiction. }
    by right.
  - intros Hs Hne Hattr.
    assert (Hnot : forall l, Forall (fun a => Py.lower a = a) l -> Py.str_in s l = false).
    { intros l Hl. destruct (Py.str_in s l) eqn:E; [| done].
      apply str_in_cases, list_elem_of_In in E. rewrite Forall_forall in Hl.
      apply Hl in E. by rewrite E in Hne. }
    rewrite !Hnot by (repeat constructor).
    unfold hasattr. rewrite Hattr.
    remember (Py.lower s) as t eqn:Et. clear Et Hne Hnot.
    cbn in Hs.
    destruct (negb (String.eqb s EmptyString)); [| done].
    repeat (destruct Hs as [<- | Hs]; [vm_compute; reflexivity |]). contradiction.
Qed.

(** X7.  Every IDE has a short code, of three characters, and every platform
    has one, of three or six characters; no two IDEs share a code, and no
    two platforms do. *)
Theorem short_codes_distinct :
  (forall x y : IDETypes.t,
     (exists c, IDETypes.get_short_code x = Some c /\ String.length c = 3%nat)
     /\ (IDETypes.get_short_code x = IDETypes.get_short_code y -> x = y))
  /\ (forall x y : PlatformTypes.t,
        (exists c, PlatformTypes.get_short_code x = Some c
                   /\ (String.length c = 3%nat \/ String.length c = 6%nat))
        /\ (PlatformTypes.get_short_code x = PlatformTypes.get_short_code y -> x = y)).
Proof.
  split.
  - pose (decode := fun c : option string =>
       snd <$> find (fun item => bool_decide (Some (fst item) = c))
                    (map (fun x => (default EmptyString (IDETypes.get_short_code x), x))
                         IDETypes.members)).
    assert (Hdecode : forall x, decode (IDETypes.get_short_code x) = Some x)
      by (intros []; vm_compute; reflexivity).
    intros x y. split.
    + destruct x; eexists; (split; [reflexivity | reflexivity]).
    + intros H. apply (f_equal decode) in H. rewrite !Hdecode in H. by injection H.
  - pose (decode := fun c : option string =>
       snd <$> find (fun item => bool_decide (Some (fst item) = c))
                    (map (fun x => (default EmptyString (PlatformTypes.get_short_code x), x))
                         PlatformTypes.members)).
    assert (Hdecode : forall x, decode (PlatformTypes.get_short_code x) = Some x)
      by (intros []; vm_compute; reflexivity).
    intros x y. split.
    + destruct x; eexists; (split; [reflexivity | first [by left | by right]]).
    + intros H. apply (f_equal decode) in H. rewrite !Hdecode in H. by injection H.
Qed.

(** X8.  [get_expanded] answers concrete platforms: a platform [y] of the
    expansion of [x] is not expandable and [get_expanded] of it is [y]
    alone; when [x] is not expandable [y] is [x] itself, and when [x] is
    expandable [y] is another platform than [x]. *)
Theorem get_expanded_flat (x y : PlatformTypes.t) :
  In y (PlatformTypes.get_expanded x) ->
  PlatformTypes.is_expandable y = false
  /\ PlatformTypes.get_expanded y = [y]
  /\ (PlatformTypes.is_expandable x = false -> y = x)
  /\ (PlatformTypes.is_expandable x = true -> y <> x).
Proof.
  intros Hy.
  destruct x; vm_compute in Hy;
    repeat (destruct Hy as [<- | Hy];
            [(split; [reflexivity |]); (split; [reflexivity |]);
             (split; [first [reflexivity | discriminate] |]);
             first [discriminate | (intros _; discriminate)] |]);
    contradiction.
Qed.

Lemma get_expanded_flat_witness :
  PlatformTypes.is_expandable PlatformTypes.macosxintel64 = false
  /\ PlatformTypes.get_expanded PlatformTypes.macosxintel64 = [PlatformTypes.macosxintel64]
  /\ (PlatformTypes.is_expandable PlatformTypes.macosx = false ->
      PlatformTypes.macosxintel64 = PlatformTypes.macosx)
  /\ (PlatformTypes.is_expandable PlatformTypes.macosx = true ->
      PlatformTypes.macosxintel64 <> PlatformTypes.macosx).
Proof.
  apply (get_expanded_flat PlatformTypes.macosx PlatformTypes.macosxintel64).
  vm_compute. tauto.
Defined.

(** The groups of platforms the [is_*] predicates name. *)
Definition platform_groups (x : PlatformTypes.t) : list bool :=
  [ PlatformTypes.is_windows x; PlatformTypes.is_macosx x; PlatformTypes.is_ios x;
    PlatformTypes.is_macos_classic x; PlatformTypes.is_macos_carbon x;
    PlatformTypes.is_msdos x; PlatformTypes.is_android x ].

(** X9.  The groups [is_windows], [is_macosx], [is_ios], [is_macos_classic],
    [is_macos_carbon], [is_msdos] and [is_android] do not overlap: a
    platform belongs to one of them at most, and an expandable platform to
    exactly one.  [is_macos] holds of a platform when it holds of a platform
    of its expansion. *)
Theorem platform_groups_disjoint (x : PlatformTypes.t) :
  (length (filter (fun b => b = true) (platform_groups x)) <= 1)%nat
  /\ (PlatformTypes.is_expandable x = true ->
      length (filter (fun b => b = true) (platform_groups x)) = 1%nat)
  /\ PlatformTypes.is_macos x
     = existsb PlatformTypes.is_macos (PlatformTypes.get_expanded x).
Proof.
  destruct x; vm_compute; (split; [lia |]); (split; [| reflexivity]);
    first [reflexivity | discriminate | (intros _; reflexivity) | (intros H; discriminate H)].
Qed.

End LookupTheory.

(** ** The default IDE of a host *)

Module HostTheory.

Import Enums.
Import IDETypes.

(** The year of a Visual Studio and the version of an Xcode, as the tables
    of [get_installed_visual_studio] and [get_installed_xcode] pair them. *)
Definition vs_year (x : IDETypes.t) : option Z :=
  match x with
  | vs2003 => Some 2003 | vs2005 => Some 2005 | vs2008 => Some 2008
  | vs2010 => Some 2010 | vs2012 => Some 2012 | vs2013 => Some 2013
  | vs2015 => Some 2015 | vs2017 => Some 2017 | vs2019 => Some 2019
  | _ => None
  end.

Definition vs_years : list Z := [2019; 2017; 2015; 2013; 2012; 2010; 2008; 2005; 2003].

Definition xcode_version (x : IDETypes.t) : option Z :=
  match x with
  | xcode3 => Some 3 | xcode4 => Some 4 | xcode5 => Some 5 | xcode6 => Some 6
  | xcode7 => Some 7 | xcode8 => Some 8 | xcode9 => Some 9 | xcode10 => Some 10
  | _ => None
  end.

Lemma installed_visual_studio_newest (h : Host) :
  match get_installed_visual_studio h with
  | Some x =>
      exists y, vs_year x = Some y /\ where_is_visual_studio h y = true
                /\ forall z, In z vs_years -> y < z -> where_is_visual_studio h z = false
  | None => forall z, In z vs_years -> where_is_visual_studio h z = false
  end.
Proof.
  unfold get_installed_visual_studio. cbn [find fst snd fmap option_fmap option_map].
  repeat lazymatch goal with
  | |- context [if where_is_visual_studio h ?y then _ else _] =>
      destruct (where_is_visual_studio h y) eqn:?
  end; cbn [fmap option_fmap option_map snd].
  all: try (eexists; split; [reflexivity |]; split; [eassumption |]).
  all: intros z Hz; cbn in Hz;
    repeat (destruct Hz as [<- | Hz]; [intros; first [assumption | lia] |]);
    contradiction.
Qed.

Lemma installed_xcode_found (h : Host) (x : IDETypes.t) :
  get_installed_xcode h = Some x ->
  exists v, xcode_version x = Some v /\ where_is_xcode h v = true.
Proof.
  unfold get_installed_xcode. cbv zeta.
  induction (xcode_table_order h) as [| v l IH]; [discriminate |].
  cbn [omap list_omap].
  match goal with
  | |- context [Py.dict_get ?d v] => destruct (Py.dict_get d v) as [y |] eqn:Ev
  end; cbn [fmap option_fmap option_map]; [| exact IH].
  cbn [find fst]. destruct (where_is_xcode h v) eqn:Ew; [| exact IH].
  cbn [fmap option_fmap option_map snd]. intros [= <-]. exists v. split; [| done].
  cbn [Py.dict_get] in Ev.
  repeat (case_decide; [subst v; injection Ev as <-; reflexivity |]).
  discriminate Ev.
Qed.

(** X10.  [IDETypes.default] names an IDE the probes of the host found.  A
    Visual Studio is answered on a Windows host only, where it is installed
    and no newer one of the table is; an Xcode on a Mac host that is no
    Windows host, where it is installed; Codeblocks when its probe finds
    it, Watcom when its probe does and that of Codeblocks does not.  On a
    Windows host with a Visual Studio of the table installed the answer is
    a Visual Studio; what is neither a Visual Studio nor an Xcode is
    Codeblocks, Watcom or make. *)
Theorem ide_default_installed (h : Host) :
  (forall y, vs_year (IDETypes.default h) = Some y ->
     probe_true (get_windows_host_type h) = true
     /\ where_is_visual_studio h y = true
     /\ forall z, In z vs_years -> y < z -> where_is_visual_studio h z = false)
  /\ (forall v, xcode_version (IDETypes.default h) = Some v ->
        probe_true (get_windows_host_type h) = false
        /\ probe_true (get_mac_host_type h) = true
        /\ where_is_xcode h v = true)
  /\ (IDETypes.default h = codeblocks -> where_is_codeblocks h = true)
  /\ (IDETypes.default h = watcom ->
      where_is_codeblocks h = false /\ where_is_watcom h = true)
  /\ (probe_true (get_windows_host_type h) = true ->
      (exists y, In y vs_years /\ where_is_visual_studio h y = true) ->
      is_visual_studio (IDETypes.default h) = true)
  /\ (is_visual_studio (IDETypes.default h) = false ->
      is_xcode (IDETypes.default h) = false ->
      In (IDETypes.default h) [codeblocks; watcom; make]).
Proof.
  unfold IDETypes.default. cbv zeta.
  pose proof (installed_visual_studio_newest h) as Hvs.
  pose proof (installed_xcode_found h) as Hxc.
  assert (Hfall : forall P : IDETypes.t -> Prop,
            (where_is_codeblocks h = true -> P codeblocks) ->
            (where_is_codeblocks h = false -> where_is_watcom h = true -> P watcom) ->
            (where_is_codeblocks h = false -> where_is_watcom h = false -> P make) ->
            P (if where_is_codeblocks h then codeblocks
               else if where_is_watcom h then watcom else make)).
  { intros P H1 H2 H3. destruct (where_is_codeblocks h); [by apply H1 |].
    destruct (where_is_watcom h); [by apply H2 | by apply H3]. }
  destruct (probe_true (get_windows_host_type h)) eqn:Ewin.
  - destruct (get_installed_visual_studio h) as [x |].
    + destruct Hvs as (y & Hy & Hin & Hnew).
      split; [intros y' Hy'; rewrite Hy in Hy'; injection Hy' as <-; done |].
      split; [intros v Hv; destruct x; discriminate |].
      split; [intros ->; discriminate |].
      split; [intros ->; discriminate |].
      split; [intros _ _; destruct x; first [reflexivity | discriminate] |].
      intros Hx. destruct x; discriminate.
    + apply Hfall; intros; repeat split; try done; try discriminate; cbn; try tauto.
      all: intros _ (y & Hy & Hin); rewrite (Hvs y Hy) in Hin; discriminate.
  - destruct (probe_true (get_mac_host_type h)) eqn:Emac.
    + destruct (get_installed_xcode h) as [x |].
      * destruct (Hxc x eq_refl) as (v & Hv & Hin).
        split; [intros y Hy; destruct x; discriminate |].
        split; [intros v' Hv'; rewrite Hv in Hv'; injection Hv' as <-; done |].
        split; [intros ->; discriminate |].
        split; [intros ->; discriminate |].
        split; [discriminate |].
        intros _ Hx. destruct x; discriminate.
      * apply Hfall; intros; repeat split; try done; try discriminate; cbn; tauto.
    + apply Hfall; intros; repeat split; try done; try discriminate; cbn; tauto.
Qed.

End HostTheory.

(** ** The defaults of a build: [defaults.py] and [build_rules.py] *)

Module DefaultsTheory.

Import Enums.
Import Defaults.

(** The conversion loop, one item at a time. *)
Lemma convert_all_from {E : Type} (value : E -> Z)
    (lookup : arg E -> Py.outcome (option E)) (members converted : list E) :
  (forall m, value m = 0 -> lookup (ArgMember m) = Py.Returns None) ->
  (forall m, value m <> 0 -> lookup (ArgMember m) = Py.Returns (Some m)) ->
  fold_left
    (fun result item =>
       match result with
       | Py.Raises e => Py.Raises e
       | Py.Returns converted =>
           match lookup item with
           | Py.Raises e => Py.Raises e
           | Py.Returns None => Py.Returns converted
           | Py.Returns (Some member) => Py.Returns (converted ++ [member])
           end
       end)
    (map ArgMember members) (Py.Returns converted)
  = Py.Returns (converted ++ List.filter (fun m => negb (value m =? 0)) members).
Proof.
  intros Hzero Hother. revert converted.
  induction members as [| m members IH]; intros converted; cbn [map fold_left List.filter].
  - by rewrite app_nil_r.
  - destruct (Z.eqb_spec (value m) 0) as [Hm | Hm]; cbn [negb].
    + rewrite (Hzero m Hm). apply IH.
    + rewrite (Hother m Hm), IH. by rewrite <- app_assoc.
Qed.

Lemma convert_all_members {E : Type} (value : E -> Z)
    (lookup : arg E -> Py.outcome (option E)) (members : list E) :
  (forall m, value m = 0 -> lookup (ArgMember m) = Py.Returns None) ->
  (forall m, value m <> 0 -> lookup (ArgMember m) = Py.Returns (Some m)) ->
  convert_all lookup (map ArgMember members)
  = Py.Returns (List.filter (fun m => negb (value m =? 0)) members).
Proof. intros Hzero Hother. by apply (convert_all_from value). Qed.

Lemma ide_value_zero (m : IDETypes.t) : IDETypes.value m = 0 <-> m = IDETypes.vs2003.
Proof. split; [destruct m; first [reflexivity | discriminate] | by intros ->]. Qed.

Lemma platform_value_zero (m : PlatformTypes.t) :
  PlatformTypes.value m = 0 <-> m = PlatformTypes.windows.
Proof. split; [destruct m; first [reflexivity | discriminate] | by intros ->]. Qed.

(** X11.  [get_ide_list] and [get_platform_list], given members on the command
    line, do not ask the build rules and answer the members in the order
    given, but for the member whose value is 0 ([vs2003], [windows]), which
    [lookup] turns into [None] and the loop leaves out. *)
Theorem requested_members_kept (h : Host)
    (ide_rules : list (string -> answer IDETypes.t))
    (platform_rules : list (string -> answer PlatformTypes.t))
    (ides : list IDETypes.t) (platforms : list PlatformTypes.t) :
  ides <> [] -> platforms <> [] ->
  get_ide_list h ide_rules (map ArgMember ides)
  = Py.Returns (List.filter (fun m => bool_decide (m <> IDETypes.vs2003)) ides)
  /\ get_platform_list h platform_rules (map ArgMember platforms)
     = Py.Returns (List.filter (fun m => bool_decide (m <> PlatformTypes.windows)) platforms).
Proof.
  intros Hides Hplatforms. unfold get_ide_list, get_platform_list. cbv zeta.
  rewrite !bool_decide_eq_false_2 by (by destruct ides, platforms).
  split.
  - rewrite (convert_all_members IDETypes.value).
    + f_equal. apply filter_ext. intros m.
      destruct (decide (m = IDETypes.vs2003)) as [-> | Hm]; [reflexivity |].
      rewrite bool_decide_eq_true_2 by done.
      destruct (Z.eqb_spec (IDETypes.value m) 0) as [H0 | H0]; [| done].
      by apply ide_value_zero in H0.
    + intros m Hm. apply ide_value_zero in Hm as ->. reflexivity.
    + intros m Hm. apply EnumsTheory.IDETypes_lookup_member.
      intros ->. by apply Hm.
  - rewrite (convert_all_members PlatformTypes.value).
    + f_equal. apply filter_ext. intros m.
      destruct (decide (m = PlatformTypes.windows)) as [-> | Hm]; [reflexivity |].
      rewrite bool_decide_eq_true_2 by done.
      destruct (Z.eqb_spec (PlatformTypes.value m) 0) as [H0 | H0]; [| done].
      by apply platform_value_zero in H0.
    + intros m Hm. apply platform_value_zero in Hm as ->. reflexivity.
    + intros m Hm. apply EnumsTheory.PlatformTypes_lookup_member.
      intros ->. by apply Hm.
Qed.

Lemma requested_members_kept_witness :
  get_ide_list LookupTheory.sample_host [] (map ArgMember [IDETypes.vs2003; IDETypes.watcom])
  = Py.Returns
      (List.filter (fun m => bool_decide (m <> IDETypes.vs2003))
         [IDETypes.vs2003; IDETypes.watcom])
  /\ get_platform_list LookupTheory.sample_host []
       (map ArgMember [PlatformTypes.windows; PlatformTypes.linux])
     = Py.Returns
         (List.filter (fun m => bool_decide (m <> PlatformTypes.windows))
            [PlatformTypes.windows; PlatformTypes.linux]).
Proof.
  apply (requested_members_kept LookupTheory.sample_host [] []
           [IDETypes.vs2003; IDETypes.watcom] [PlatformTypes.windows; PlatformTypes.linux]);
    discriminate.
Defined.

(** X12.  With nothing on the command line the first answer of the build
    rules that differs from 0 makes the list.  A rules function answering
    the member of value 0 ([IDETypes.vs2003], [PlatformTypes.windows]) is
    passed over like one that answers 0, since an [IntEnum] member equals
    its value; any other member answered makes the list of that member; and
    without build rules the list is empty. *)
Theorem zero_member_default_skipped (h : Host)
    (ide_rules : list (string -> answer IDETypes.t))
    (platform_rules : list (string -> answer PlatformTypes.t)) :
  get_ide_list h ((fun _ => Member IDETypes.vs2003) :: ide_rules) []
  = get_ide_list h ide_rules []
  /\ get_platform_list h ((fun _ => Member PlatformTypes.windows) :: platform_rules) []
     = get_platform_list h platform_rules []
  /\ (forall m, m <> IDETypes.vs2003 ->
        get_ide_list h ((fun _ => Member m) :: ide_rules) [] = Py.Returns [m])
  /\ (forall m, m <> PlatformTypes.windows ->
        get_platform_list h ((fun _ => Member m) :: platform_rules) [] = Py.Returns [m])
  /\ get_ide_list h [] [] = Py.Returns []
  /\ get_platform_list h [] [] = Py.Returns [].
Proof.
  split; [reflexivity |]. split; [reflexivity |].
  split; [| split; [| split; reflexivity]].
  - intros m Hm. unfold get_ide_list, first_default. cbn [bool_decide decide_rel find].
    rewrite bool_decide_eq_true_2 by done. cbn [find differs_from_zero].
    replace (negb (IDETypes.value m =? 0)) with true by (destruct m; done).
    unfold convert_all. cbn [fold_left].
    by rewrite EnumsTheory.IDETypes_lookup_member.
  - intros m Hm. unfold get_platform_list, first_default.
    rewrite bool_decide_eq_true_2 by done. cbn [find differs_from_zero].
    replace (negb (PlatformTypes.value m =? 0)) with true by (destruct m; done).
    unfold convert_all. cbn [fold_left].
    by rewrite EnumsTheory.PlatformTypes_lookup_member.
Qed.


End DefaultsTheory.

Module BuildRulesTheory.

Import Enums.
Import BuildRules.

(** The text of an entry of a configuration description. *)
Definition text_of (description : list (string * item)) (key : string) : option string :=
  match Py.dict_get description key with
  | Some (Text s) => Some s
  | _ => None
  end.

(** X14.  [do_configuration_list] raises [AttributeError] for every Visual
    Studio IDE, whatever the platform, since the tuple of its test names
    [PlatformTypes.winarm32], which the enumeration does not have; it does
    so too without an IDE ([None]).  For every other IDE it answers the
    configurations Debug, Internal and Release, followed for the Xbox 360
    by the configurations Profile, Profile_FastCap and CodeAnalysis, and the
    short code of each is the one [configuration_short_code] gives its
    name. *)
Theorem do_configuration_list_cases (platform : option PlatformTypes.t)
    (ide : IDETypes.t) :
  (IDETypes.is_visual_studio ide = true ->
   do_configuration_list platform (Some ide) = Py.Raises "AttributeError")
  /\ do_configuration_list platform None = Py.Raises "AttributeError"
  /\ (IDETypes.is_visual_studio ide = false ->
      exists results,
        do_configuration_list platform (Some ide) = Py.Returns results
        /\ omap (fun description => text_of description "name") results
           = [ "Debug"; "Internal"; "Release" ]
             ++ (if bool_decide (platform = Some PlatformTypes.xbox360)
                 then [ "Profile"; "Profile_FastCap"; "CodeAnalysis" ] else [])
        /\ Forall (fun description =>
                     exists name, text_of description "name" = Some name
                       /\ text_of description "short_code" = configuration_short_code name)
                  results).
Proof.
  split; [| split; [reflexivity |]].
  - intros Hvs. unfold do_configuration_list. rewrite Hvs. reflexivity.
  - intros Hvs. unfold do_configuration_list. rewrite Hvs.
    change (member "xbox360") with (Py.Returns PlatformTypes.xbox360).
    cbv beta iota zeta.
    destruct (bool_decide (platform = Some PlatformTypes.xbox360));
      (eexists; split; [reflexivity |]; split; [reflexivity |]);
      repeat constructor; eexists; (split; reflexivity).
Qed.

End BuildRulesTheory.

(** ** [Property] *)

Module PropertyTheory.

Import Enums.
Import Package.

Section Properties.

Context {C D : Type} `{EqDecision C}.

Implicit Types (entries : list (Property.t C D)) (item : Property.t C D).

(** The entries a query selects: the three tests of the loop in one. *)
Definition selects (name : option string) (configuration : option C)
    (platform : option PlatformTypes.t) (item : Property.t C D) : bool :=
  (match configuration, Property.configuration item with
   | Some wanted, Some found => bool_decide (found = wanted)
   | _, _ => true
   end)
  && (match platform, Property.platform item with
      | Some wanted, Some found => PlatformTypes.match_ found wanted
      | _, _ => true
      end)
  && (match name with
      | Some wanted => String.eqb (Property.name item) wanted
      | None => true
      end).

Lemma find_from entries (result : list (Property.t C D)) name configuration platform :
  fold_left
    (fun result item =>
       if match configuration, Property.configuration item with
          | None, _ => true
          | Some _, None => true
          | Some wanted, Some found => bool_decide (found = wanted)
          end
       then
         if match platform, Property.platform item with
            | None, _ => true
            | Some _, None => true
            | Some wanted, Some found => PlatformTypes.match_ found wanted
            end
         then
           if match name with
              | None => true
              | Some wanted => String.eqb (Property.name item) wanted
              end
           then result ++ [item]
           else result
         else result
       else result)
    entries result
  = result ++ List.filter (selects name configuration platform) entries.
Proof.
  revert result. induction entries as [| item entries IH]; intros result.
  - cbn. by rewrite app_nil_r.
  - cbn [fold_left List.filter]. rewrite IH. unfold selects at 2.
    destruct configuration as [wanted_c |], (Property.configuration item) as [found_c |];
      destruct platform as [wanted_p |], (Property.platform item) as [found_p |];
      destruct name as [wanted_n |];
      repeat match goal with
             | |- context [bool_decide ?P] => destruct (bool_decide P)
             | |- context [PlatformTypes.match_ ?a ?b] => destruct (PlatformTypes.match_ a b)
             | |- context [String.eqb ?a ?b] => destruct (String.eqb a b)
             end;
      cbn [andb]; by rewrite <- ?app_assoc.
Qed.

Lemma find_filter entries name configuration platform :
  Property.find entries name configuration platform
  = List.filter (selects name configuration platform) entries.
Proof. unfold Property.find. by rewrite find_from. Qed.

Lemma getdata_from entries (result : list D) name configuration platform :
  fold_left
    (fun result item =>
       if match configuration, Property.configuration item with
          | None, _ => true
          | Some _, None => true
          | Some wanted, Some found => bool_decide (found = wanted)
          end
       then
         if match platform, Property.platform item with
            | None, _ => true
            | Some _, None => true
            | Some wanted, Some found => PlatformTypes.match_ found wanted
            end
         then
           if match name with
              | None => true
              | Some wanted => String.eqb (Property.name item) wanted
              end
           then result ++ [Property.data item]
           else result
         else result
       else result)
    entries result
  = result ++ map Property.data (List.filter (selects name configuration platform) entries).
Proof.
  revert result. induction entries as [| item entries IH]; intros result.
  - cbn. by rewrite app_nil_r.
  - cbn [fold_left List.filter]. rewrite IH. unfold selects at 2.
    destruct configuration as [wanted_c |], (Property.configuration item) as [found_c |];
      destruct platform as [wanted_p |], (Property.platform item) as [found_p |];
      destruct name as [wanted_n |];
      repeat match goal with
             | |- context [bool_decide ?P] => destruct (bool_decide P)
             | |- context [PlatformTypes.match_ ?a ?b] => destruct (PlatformTypes.match_ a b)
             | |- context [String.eqb ?a ?b] => destruct (String.eqb a b)
             end;
      cbn [andb map]; by rewrite <- ?app_assoc.
Qed.

(** X15.  [Property.getdata] answers the [data] of the entries that
    [Property.find] answers to the same query, in the same order. *)
Theorem getdata_is_data_of_find entries name configuration platform :
  Property.getdata entries name configuration platform
  = map Property.data (Property.find entries name configuration platform).
Proof. unfold Property.getdata. by rewrite getdata_from, find_filter. Qed.

(** X16.  [Property.find] selects entries without reordering them (the answer
    is a sublist of [entries]); a query without name, configuration and
    platform answers all entries; [find] on an answer, with the same query,
    gives the answer again; an entry without configuration and platform is
    found by every query for its name; and [find] on two lists joined is the
    two answers joined. *)
Theorem find_selects_in_order entries name configuration platform :
  sublist (Property.find entries name configuration platform) entries
  /\ Property.find entries None None None = entries
  /\ Property.find (Property.find entries name configuration platform) name configuration platform
     = Property.find entries name configuration platform
  /\ (forall item,
        item ∈ entries ->
        Property.configuration item = None -> Property.platform item = None ->
        item ∈ Property.find entries (Some (Property.name item)) configuration platform)
  /\ (forall extra,
        Property.find (entries ++ extra) name configuration platform
        = Property.find entries name configuration platform
          ++ Property.find extra name configuration platform).
Proof.
  rewrite !find_filter. split; [| split; [| split; [| split]]].
  - induction entries as [| item entries IH]; cbn [List.filter]; [constructor |].
    destruct (selects _ _ _ item); by constructor.
  - induction entries as [| item entries IH]; [done |].
    cbn [List.filter selects andb]. by rewrite IH.
  - induction entries as [| item entries IH]; [done |].
    cbn [List.filter]. destruct (selects name configuration platform item) eqn:E; [| done].
    cbn [List.filter]. by rewrite E, IH.
  - intros item Hin Hc Hp. rewrite find_filter.
    apply list_elem_of_In, filter_In. split; [by apply list_elem_of_In |].
    unfold selects. rewrite Hc, Hp, String.eqb_refl.
    by destruct configuration, platform.
  - intros extra. rewrite !find_filter. apply List.filter_app.
Qed.

End Properties.

End PropertyTheory.

(** ** Group names and configurations *)

Module GroupNameTheory.

Import Enums.

(** The character does not occur in the string. *)
Fixpoint no_char (c : ascii) (s : string) : bool :=
  match s with
  | EmptyString => true
  | String a s' => negb (Ascii.eqb a c) && no_char c s'
  end.

Lemma rfind_from_absent (c : ascii) (s : string) (i acc : Z) :
  no_char c s = true -> Py.rfind_from (String c EmptyString) s i acc = acc.
Proof.
  revert i acc. induction s as [| a s IH]; intros i acc Hs; [reflexivity |].
  cbn [no_char] in Hs. apply andb_true_iff in Hs as [Ha Hs].
  cbn [Py.rfind_from String.prefix].
  destruct (ascii_dec c a) as [-> | Hne].
  - by rewrite Ascii.eqb_refl in Ha.
  - by apply IH.
Qed.

Lemma rfind_absent (c : ascii) (s : string) :
  no_char c s = true -> Py.rfind s (String c EmptyString) = -1.
Proof. apply rfind_from_absent. Qed.

Lemma replace_char_absent (a b : ascii) (s : string) :
  a <> b -> no_char a (Py.replace_char a b s) = true.
Proof.
  intros Hab. induction s as [| c s IH]; [reflexivity |].
  cbn [Py.replace_char no_char]. rewrite IH, andb_true_r.
  destruct (Ascii.eqb c a) eqn:E.
  - apply negb_true_iff, Ascii.eqb_neq. congruence.
  - by rewrite E.
Qed.

(** [newname[2:len(newname)]] drops two characters. *)
Lemma slice_from_two (a b : ascii) (rest : string) :
  Py.slice (String a (String b rest)) 2 (Py.len (String a (String b rest))) = rest.
Proof.
  unfold Py.slice, Py.clamp, Py.len. cbn [String.length].
  replace (Z.of_nat (S (S (String.length rest))) <? 0) with false by (symmetry; apply Z.ltb_ge; lia).
  cbn [Z.ltb Z.compare].
  replace (Z.to_nat (Z.min (Z.max (Z.of_nat (S (S (String.length rest)))) 0)
                       (Z.of_nat (S (S (String.length rest))))))
    with (S (S (String.length rest))) by lia.
  replace (Z.to_nat (Z.min (Z.max 2 0) (Z.of_nat (S (S (String.length rest))))))
    with 2%nat by lia.
  cbn [Py.drop]. replace (S (S (String.length rest)) - 2)%nat with (String.length rest) by lia.
  clear. induction rest as [| c rest IH]; [reflexivity |].
  cbn [String.length Py.take]. by rewrite IH.
Qed.

Lemma strip_current_prefixes_unfold (slash newname : string) :
  Package.strip_current_prefixes slash newname
  = match newname with
    | String _ (String _ rest) =>
        if Py.startswith newname ("." +:+ slash)
        then Package.strip_current_prefixes slash rest
        else newname
    | _ => newname
    end.
Proof. by destruct newname as [| a [| b rest]]. Qed.

(** What the loop leaves does not start with the prefix it removes. *)
Lemma strip_current_prefixes_done (slash : string) (n : nat) :
  forall newname, (String.length newname <= n)%nat ->
    String.length slash = 1%nat ->
    Py.startswith (Package.strip_current_prefixes slash newname) ("." +:+ slash) = false.
Proof.
  induction n as [| n IH]; intros newname Hlen Hslash.
  - destruct newname; [| cbn in Hlen; lia].
    destruct slash as [| c [| ? ?]]; try discriminate. reflexivity.
  - rewrite strip_current_prefixes_unfold.
    destruct newname as [| a [| b rest]].
    + destruct slash as [| c [| ? ?]]; try discriminate. reflexivity.
    + destruct slash as [| c [| ? ?]]; try discriminate.
      unfold Py.startswith.
      change ("." +:+ String c EmptyString) with (String "." (String c EmptyString)).
      cbn [String.prefix]. by destruct (ascii_dec "." a).
    + destruct (Py.startswith (String a (String b rest)) ("." +:+ slash)) eqn:E; [| done].
      apply IH; [cbn in Hlen; lia | done].
Qed.

(** X17.  The [extractgroupname] of [__init__.py] is the one of [core.py]
    followed by the removal of the leading [.\] prefixes, which [core.py]
    leaves in place; so its answer never starts with [.\]. *)
Theorem extractgroupname_versions (relativepathname directory : string)
    (filetype : FileTypes.t) (legacy_type : Legacy.FileTypes.t) :
  Package.extractgroupname (Package.new_SourceFile relativepathname directory filetype)
  = Package.strip_current_prefixes "\"
      (Legacy.extractgroupname
         (Legacy.new_SourceFile relativepathname directory legacy_type))
  /\ Py.startswith
       (Package.extractgroupname
          (Package.new_SourceFile relativepathname directory filetype))
       ".\" = false.
Proof.
  unfold Package.extractgroupname, Legacy.extractgroupname,
    Package.new_SourceFile, Legacy.new_SourceFile.
  cbn [Package.filename Legacy.filename]. cbv zeta.
  set (filename := Burger.convert_to_windows_slashes relativepathname).
  assert (Hslash : Py.rfind filename "/" = -1).
  { apply (rfind_absent Py.SLASH). apply replace_char_absent. discriminate. }
  rewrite Hslash. cbn [Z.eqb].
  destruct (Py.rfind filename "\" =? -1) eqn:Eindex; [by split |].
  set (newname := Legacy.strip_parent_prefixes "\" (Py.slice filename 0 (Py.rfind filename "\"))).
  split; [| by apply (strip_current_prefixes_done "\" (String.length newname))].
  rewrite (strip_current_prefixes_unfold "\" newname).
  destruct newname as [| a [| b rest]]; [reflexivity | |].
  { replace (Py.startswith (String a EmptyString) ".\") with false; [reflexivity |].
    unfold Py.startswith. cbn [String.prefix]. by destruct (ascii_dec "." a). }
  change ("." +:+ "\") with ".\".
  destruct (Py.startswith (String a (String b rest)) ".\") eqn:E.
  - by rewrite slice_from_two.
  - rewrite (strip_current_prefixes_unfold "\" (String a (String b rest))).
    change ("." +:+ "\") with ".\". by rewrite E.
Qed.

End GroupNameTheory.

Module ConfigurationTheory.

Import Enums.

Lemma expanded_concrete (p q : PlatformTypes.t) :
  In q (PlatformTypes.get_expanded p) -> PlatformTypes.is_expandable q = false.
Proof.
  intros Hq. destruct p; vm_compute in Hq;
    repeat (destruct Hq as [<- | Hq]; [reflexivity |]); contradiction.
Qed.

(** The loop of [new_configuration] for a platform that was looked up. *)
Lemma new_configuration_from (h : Host) (names : list string) (platform : arg PlatformTypes.t)
    (project_type : option ProjectTypes.t) (platform_type : PlatformTypes.t)
    (results : list Core.Configuration) :
  arg_true PlatformTypes.value platform = true ->
  PlatformTypes.lookup h platform = Py.Returns (Some platform_type) ->
  fold_left
    (fun results name =>
       match results with
       | Py.Raises e => Py.Raises e
       | Py.Returns results =>
           if arg_true PlatformTypes.value platform then
             match PlatformTypes.lookup h platform with
             | Py.Raises e => Py.Raises e
             | Py.Returns None => Py.Raises "TypeError"
             | Py.Returns (Some platform_type) =>
                 Py.Returns
                   (results ++ map (fun item => Core.new_Configuration name (Some item) project_type)
                                   (PlatformTypes.get_expanded platform_type))
             end
           else
             let given := match platform with ArgMember x => Some x | _ => None end in
             Py.Returns (results ++ [Core.new_Configuration name given project_type])
       end)
    names (Py.Returns results)
  = Py.Returns
      (results ++
       flat_map (fun name =>
                   map (fun item => Core.new_Configuration name (Some item) project_type)
                       (PlatformTypes.get_expanded platform_type))
                names).
Proof.
  intros Htrue Hlookup.
  match goal with |- fold_left ?f _ _ = _ => set (step := f) end.
  assert (Hstep : forall results name,
            step (Py.Returns results) name
            = Py.Returns
                (results ++ map (fun item => Core.new_Configuration name (Some item) project_type)
                                (PlatformTypes.get_expanded platform_type)))
    by (intros; unfold step; by rewrite Htrue, Hlookup).
  clearbody step. revert results.
  induction names as [| name names IH]; intros results; cbn [fold_left flat_map].
  - by rewrite app_nil_r.
  - rewrite Hstep, IH. by rewrite <- app_assoc.
Qed.

Lemma new_configuration_given (h : Host) (names : list string) (platform : arg PlatformTypes.t)
    (project_type : option ProjectTypes.t) (results : list Core.Configuration) :
  arg_true PlatformTypes.value platform = false ->
  fold_left
    (fun results name =>
       match results with
       | Py.Raises e => Py.Raises e
       | Py.Returns results =>
           if arg_true PlatformTypes.value platform then
             match PlatformTypes.lookup h platform with
             | Py.Raises e => Py.Raises e
             | Py.Returns None => Py.Raises "TypeError"
             | Py.Returns (Some platform_type) =>
                 Py.Returns
                   (results ++ map (fun item => Core.new_Configuration name (Some item) project_type)
                                   (PlatformTypes.get_expanded platform_type))
             end
           else
             let given := match platform with ArgMember x => Some x | _ => None end in
             Py.Returns (results ++ [Core.new_Configuration name given project_type])
       end)
    names (Py.Returns results)
  = Py.Returns
      (results ++
       map (fun name =>
              Core.new_Configuration name
                (match platform with ArgMember x => Some x | _ => None end) project_type)
           names).
Proof.
  intros Hfalse.
  match goal with |- fold_left ?f _ _ = _ => set (step := f) end.
  assert (Hstep : forall results name,
            step (Py.Returns results) name
            = Py.Returns
                (results ++
                 [Core.new_Configuration name
                    (match platform with ArgMember x => Some x | _ => None end)
                    project_type]))
    by (intros; unfold step; by rewrite Hfalse).
  clearbody step. revert results.
  induction names as [| name names IH]; intros results; cbn [fold_left map].
  - by rewrite app_nil_r.
  - rewrite Hstep, IH. by rewrite <- app_assoc.
Qed.

(** Once a turn of a loop has raised, the loop is over. *)
Lemma fold_left_raises {A B : Type} (step : Py.outcome A -> B -> Py.outcome A)
    (l : list B) (e : string) :
  (forall e item, step (Py.Raises e) item = Py.Raises e) ->
  fold_left step l (Py.Raises e) = Py.Raises e.
Proof.
  intros Hstep. induction l as [| item l IH]; [done |].
  cbn [fold_left]. by rewrite Hstep.
Qed.

(** X18.  [new_configuration] makes, for a platform that [lookup] finds, one
    configuration for every name and every platform of the expansion
    ([get_expanded]), names first; it raises [TypeError] when [lookup]
    answers [None] and there is a name.  Every configuration made for a
    platform argument that is true has a platform that is not expandable.
    The member [PlatformTypes.windows] is false (its value is 0), so given
    as a member it is not expanded, while the string windows is expanded to
    win32 and win64. *)
Theorem new_configuration_expands (h : Host) (names : list string)
    (platform : arg PlatformTypes.t) (project_type : option ProjectTypes.t) :
  (forall platform_type,
     arg_true PlatformTypes.value platform = true ->
     PlatformTypes.lookup h platform = Py.Returns (Some platform_type) ->
     Package.new_configuration h names platform project_type
     = Py.Returns
         (flat_map (fun name =>
                      map (fun item => Core.new_Configuration name (Some item) project_type)
                          (PlatformTypes.get_expanded platform_type))
                   names))
  /\ (arg_true PlatformTypes.value platform = true ->
      PlatformTypes.lookup h platform = Py.Returns None -> names <> [] ->
      Package.new_configuration h names platform project_type = Py.Raises "TypeError")
  /\ (forall results,
        arg_true PlatformTypes.value platform = true ->
        Package.new_configuration h names platform project_type = Py.Returns results ->
        Forall (fun c => exists q, Core.platform c = Some q
                                   /\ PlatformTypes.is_expandable q = false) results)
  /\ Package.new_configuration h names (ArgMember PlatformTypes.windows) project_type
     = Py.Returns
         (map (fun name => Core.new_Configuration name (Some PlatformTypes.windows)
                             project_type) names)
  /\ Package.new_configuration h names (ArgStr "windows") project_type
     = Py.Returns
         (flat_map (fun name =>
                      [ Core.new_Configuration name (Some PlatformTypes.win32) project_type;
                        Core.new_Configuration name (Some PlatformTypes.win64) project_type ])
                   names).
Proof.
  assert (Hknown : forall platform platform_type,
            arg_true PlatformTypes.value platform = true ->
            PlatformTypes.lookup h platform = Py.Returns (Some platform_type) ->
            Package.new_configuration h names platform project_type
            = Py.Returns
                (flat_map (fun name =>
                             map (fun item => Core.new_Configuration name (Some item)
                                                project_type)
                                 (PlatformTypes.get_expanded platform_type))
                          names)).
  { intros p platform_type Htrue Hlookup.
    exact (new_configuration_from h names p project_type platform_type [] Htrue Hlookup). }
  assert (Hraises : forall name names' e,
            names = name :: names' ->
            arg_true PlatformTypes.value platform = true ->
            PlatformTypes.lookup h platform
            = match e with
              | Some e => Py.Raises e
              | None => Py.Returns None
              end ->
            Package.new_configuration h names platform project_type
            = Py.Raises (default "TypeError" e)).
  { intros name names' e -> Htrue Hlookup. unfold Package.new_configuration.
    match goal with |- fold_left ?f _ _ = _ => set (step := f) end.
    assert (Hfirst : step (Py.Returns []) name = Py.Raises (default "TypeError" e))
      by (unfold step; rewrite Htrue, Hlookup; by destruct e).
    assert (Hstep : forall e item, step (Py.Raises e) item = Py.Raises e) by done.
    clearbody step. cbn [fold_left]. rewrite Hfirst. by apply fold_left_raises. }
  split; [| split; [| split; [| split]]].
  - intros platform_type. apply Hknown.
  - intros Htrue Hlookup Hnames. destruct names as [| name names'] eqn:E; [done |].
    by apply (Hraises name names' None).
  - intros results Htrue Hresults.
    destruct (PlatformTypes.lookup h platform) as [[platform_type |] | e] eqn:Hlookup.
    + rewrite (Hknown platform platform_type Htrue Hlookup) in Hresults.
      injection Hresults as <-.
      apply Forall_forall. intros c Hc. apply list_elem_of_In, in_flat_map in Hc
        as (name & _ & Hc). apply in_map_iff in Hc as (q & <- & Hq).
      exists q. split; [reflexivity | by apply (expanded_concrete platform_type)].
    + destruct names as [| name names'] eqn:E; [injection Hresults as <-; constructor |].
      by rewrite (Hraises name names' None) in Hresults.
    + destruct names as [| name names'] eqn:E; [injection Hresults as <-; constructor |].
      by rewrite (Hraises name names' (Some e)) in Hresults.
  - exact (new_configuration_given h names (ArgMember PlatformTypes.windows)
             project_type [] eq_refl).
  - rewrite (Hknown (ArgStr "windows") PlatformTypes.windows); [done | done |].
    by apply (EnumsTheory.PlatformTypes_lookup_name h PlatformTypes.windows).
Qed.

End ConfigurationTheory.

(** ** What a scan accepts *)

Module FilterTheory.

Import Legacy.
Import ScanTheory.

Section Filters.

Variable os_sep : string.
Variable os_path_join : string -> string -> string.
Variable disk : string -> node.
Variable self : SolutionData.
Variable acceptable : list FileTypes.t.

(** A file entry a scan made: of a name that is not excluded, with the type
    of the first extension of the table that the name ends with, which is
    one of the accepted types; the name is kept with backslashes. *)
Definition scanned (fl : SourceFile) : Prop :=
  exists directory baseName extension,
    fl = entry_of os_sep os_path_join self directory baseName (type fl)
    /\ excluded self baseName = false
    /\ List.find (fun item => Py.endswith (Py.lower baseName) (fst item))
                 defaultcodeextensions = Some (extension, type fl)
    /\ In (type fl) acceptable
    /\ GroupNameTheory.no_char Py.SLASH (filename fl) = true.

Lemma accepted_type_scanned (directory baseName : string) (type : FileTypes.t) :
  excluded self baseName = false ->
  accepted_type acceptable baseName = Some type ->
  scanned (entry_of os_sep os_path_join self directory baseName type).
Proof.
  intros Hexcluded Haccepted. unfold accepted_type in Haccepted.
  destruct (List.find _ defaultcodeextensions) as [[extension type'] |] eqn:Efind;
    [| discriminate].
  cbn [snd] in Haccepted.
  destruct (existsb _ acceptable) eqn:Eacc; [| discriminate].
  injection Haccepted as ->.
  exists directory, baseName, extension. cbn [Legacy.type entry_of new_SourceFile].
  split; [reflexivity |]. split; [done |]. split; [done |]. split.
  - apply existsb_exists in Eacc as (item2 & Hin & Heq).
    apply bool_decide_eq_true in Heq. by subst.
  - cbn [filename]. apply GroupNameTheory.replace_char_absent. discriminate.
Qed.

Lemma found_files_scanned (recurse : bool) (here : node) :
  forall directory fl,
    fl ∈ found_files os_sep os_path_join self recurse acceptable directory here ->
    scanned fl.
Proof.
  induction here as [| | entries IH] using node_nested_ind; intros directory fl Hfl;
    try (by apply elem_of_nil in Hfl).
  cbn [found_files] in Hfl.
  apply list_elem_of_In, in_flat_map in Hfl as ([baseName entry] & Hentry & Hfl).
  rewrite Forall_forall in IH.
  unfold entry_files in Hfl. cbn [fst snd] in Hfl.
  destruct (excluded self baseName) eqn:Hexcluded; [done |].
  destruct entry as [| entries' |]; [| | done].
  - destruct (accepted_type acceptable baseName) as [type |] eqn:Haccepted; [| done].
    destruct Hfl as [<- | []]. by apply accepted_type_scanned.
  - destruct recurse; [| done].
    apply (IH (baseName, Dir entries')) with (directory +:+ os_sep +:+ baseName);
      [by apply list_elem_of_In | by apply list_elem_of_In].
Qed.

(** X19.  Every file [getfilelist] answers is a declared codefile or a file a
    scan made: its base name matches no pattern of the [exclude] list, its
    type is that of the first extension of [defaultcodeextensions] the name
    ends with, this type is one of the accepted types, and its file name
    holds no slash (they are turned into backslashes). *)
Theorem getfilelist_filters :
  Forall (fun fl => fl ∈ codefiles self \/ scanned fl)
         (getfilelist os_sep os_path_join disk self acceptable).1.
Proof.
  apply Forall_forall. intros fl Hfl.
  destruct (getfilelist_result os_sep os_path_join disk self acceptable) as (_ & Hperm & _).
  rewrite Hperm in Hfl. apply elem_of_app in Hfl as [Hfl | Hfl]; [by left | right].
  unfold scanned_files in Hfl.
  apply list_elem_of_In, in_flat_map in Hfl as (item & _ & Hfl).
  apply list_elem_of_In in Hfl. by apply found_files_scanned in Hfl.
Qed.

(** The files of a directory itself. *)
Definition files_here (directory : string) (nameList : list (string * node))
    : list SourceFile :=
  flat_map
    (fun e =>
       if excluded self e.1 then []
       else
         match e.2, accepted_type acceptable e.1 with
         | File, Some type => [entry_of os_sep os_path_join self directory e.1 type]
         | _, _ => []
         end)
    nameList.

Lemma scan_entries_flat
    (scan : string -> node -> list SourceFile -> list string
            -> list SourceFile * list string)
    (directory : string) (nameList : list (string * node)) :
  forall found cf inc,
    scan_entries os_sep self false acceptable scan directory
      (searchDir_of os_path_join self directory) nameList found cf inc
    = (cf ++ files_here directory nameList,
       if found then inc
       else match files_here directory nameList with
            | [] => inc
            | _ :: _ => inc ++ [directory]
            end).
Proof.
  induction nameList as [| [baseName entry] nameList IH]; intros found cf inc.
  - cbn. rewrite app_nil_r. by destruct found.
  - cbn [scan_entries files_here flat_map fst snd].
    fold (excluded self baseName). fold (files_here directory nameList).
    destruct (excluded self baseName); [apply IH |].
    destruct entry as [| entries |]; [| apply IH | apply IH].
    unfold accepted_type.
    destruct (List.find _ defaultcodeextensions) as [item |]; [| apply IH].
    destruct (existsb _ acceptable); [| apply IH].
    rewrite IH. fold (entry_of os_sep os_path_join self directory baseName item.2).
    cbn [app]. rewrite <- app_assoc. cbn [app]. by destruct found.
Qed.

(** X20.  [scandirectory] without recursion adds the accepted files of the
    directory itself, in the order of the listing, behind the files it is
    given, and nothing of the directories below; the directory is added to
    the include directories when a file was found; a directory that does not
    exist adds nothing.  Each file added has the searched directory as its
    [directory]. *)
Theorem scandirectory_without_recursion (directory : string)
    (codefiles : list SourceFile) (includedirectories : list string) :
  exists nameList newfiles,
    match disk (searchDir_of os_path_join self directory) with
    | Dir entries => nameList = entries
    | _ => nameList = []
    end
    /\ newfiles = files_here directory nameList
    /\ scandirectory os_sep os_path_join disk self false acceptable
         directory codefiles includedirectories
       = (codefiles ++ newfiles,
          match newfiles with
          | [] => includedirectories
          | _ :: _ => includedirectories ++ [directory]
          end)
    /\ Forall (fun fl =>
                 Legacy.directory fl = searchDir_of os_path_join self directory
                 /\ exists baseName, In (baseName, File) nameList
                      /\ fl = entry_of os_sep os_path_join self directory baseName (type fl))
              newfiles.
Proof.
  unfold scandirectory.
  destruct (disk (searchDir_of os_path_join self directory)) as [| entries |].
  - exists [], []. cbn. by rewrite app_nil_r.
  - exists entries, (files_here directory entries).
    cbn [scandirectory_at]. rewrite scan_entries_flat.
    repeat split; try done.
    apply Forall_forall. intros fl Hfl.
    apply list_elem_of_In, in_flat_map in Hfl as ([baseName entry] & Hentry & Hfl).
    cbn [fst snd] in Hfl. destruct (excluded self baseName); [done |].
    destruct entry; try done.
    destruct (accepted_type acceptable baseName); [| done].
    destruct Hfl as [<- | []]. split; [reflexivity |].
    exists baseName. by split.
  - exists [], []. cbn. by rewrite app_nil_r.
Qed.

End Filters.

End FilterTheory.

(** ** The Watcom exporter *)

Module WatcomTheory.

Import Enums.

(** The file types the Watcom exporter asks the projects for. *)
Definition watcom_types : list FileTypes.t :=
  [FileTypes.h; FileTypes.cpp; FileTypes.c; FileTypes.x86].

(** The loops of [Project.__init__] over the scanned projects. *)
Definition collect (solution : Core.Solution) (scanned : list Core.Project) : Watcom.Project :=
  fold_left
    (fun self project =>
       fold_left
         (fun self configuration =>
            {| Watcom.solution := solution;
               Watcom.platforms :=
                 if bool_decide (Core.platform configuration ∈ Watcom.platforms self)
                 then Watcom.platforms self
                 else Watcom.platforms self ++ [Core.platform configuration];
               Watcom.configuration_list := Watcom.configuration_list self;
               Watcom.configuration_names :=
                 if existsb (fun item => String.eqb (Core.name configuration) (Core.name item))
                            (Watcom.configuration_names self)
                 then Watcom.configuration_names self
                 else Watcom.configuration_names self ++ [configuration] |})
         (Core.configuration_list project)
         {| Watcom.solution := solution;
            Watcom.platforms := Watcom.platforms self;
            Watcom.configuration_list :=
              Watcom.configuration_list self ++ Core.configuration_list project;
            Watcom.configuration_names := Watcom.configuration_names self |})
    scanned
    {| Watcom.solution := solution; Watcom.platforms := [];
       Watcom.configuration_list := []; Watcom.configuration_names := [] |}.

Lemma new_Project_collect (solution : Core.Solution) :
  Watcom.new_Project solution
  = collect (Core.set_project_list
               (map (Core.get_file_list watcom_types) (Core.project_list solution)) solution)
            (map (Core.get_file_list watcom_types) (Core.project_list solution)).
Proof. reflexivity. Qed.

(** An invariant of a loop. *)
Lemma fold_left_invariant {A B : Type} (P : A -> Prop) (f : A -> B -> A) (l : list B) (a : A) :
  P a -> (forall a b, P a -> P (f a b)) -> P (fold_left f l a).
Proof.
  intros Ha Hf. revert a Ha. induction l as [| b l IH]; intros a Ha; [done |].
  cbn [fold_left]. by apply IH, Hf.
Qed.

Lemma collect_solution (solution : Core.Solution) (scanned : list Core.Project) :
  Watcom.solution (collect solution scanned) = solution.
Proof.
  unfold collect.
  apply (fold_left_invariant (fun self => Watcom.solution self = solution)); [done |].
  intros self project Hself.
  by apply (fold_left_invariant (fun self => Watcom.solution self = solution)).
Qed.

Lemma get_file_list_twice (acceptable : list FileTypes.t) (p : Core.Project) :
  Core.get_file_list acceptable (Core.get_file_list acceptable p)
  = Core.get_file_list acceptable p.
Proof. reflexivity. Qed.

Lemma set_watcom_filename_again (filename : string) (l : list Core.Project)
    (solution : Core.Solution) :
  Core.set_watcom_filename filename
    (Core.set_project_list l (Core.set_watcom_filename filename solution))
  = Core.set_project_list l (Core.set_watcom_filename filename solution).
Proof. reflexivity. Qed.

Lemma save_again (file_name : string) (text_lines : list string) (w : World.t) :
  World.save_text_file_if_newer file_name text_lines
    (World.save_text_file_if_newer file_name text_lines w).2
  = World.save_text_file_if_newer file_name text_lines w.
Proof.
  unfold World.save_text_file_if_newer at 2 3.
  destruct (decide (World.files w !! file_name = Some text_lines)) as [Hsame | Hnew];
    cbn [snd]; unfold World.save_text_file_if_newer.
  - by rewrite decide_True.
  - cbn [World.files]. by rewrite decide_True by apply lookup_insert_eq.
Qed.

(** X21.  The Watcom [generate] run again on the solution and the disk that a
    first run left gives the same answer and leaves solution and disk as
    they are: the file is written once, [save_text_file_if_newer] finds the
    same lines the second time. *)
Theorem watcom_generate_twice (encapsulate : string -> string)
    (join : string -> string -> string) (solution : Core.Solution) (w : World.t) :
  let first := Watcom.generate encapsulate join solution w in
  Watcom.generate encapsulate join (World.solution_after first) (World.world_after first)
  = first.
Proof.
  cbv zeta. unfold Watcom.generate at 2 3 4.
  destruct (bool_decide (Core.ide solution ∈ Watcom.SUPPORTED_IDES)) eqn:Eide; cbn [negb].
  - cbv zeta. fold (EmitterTheory.wmk_name solution).
    set (filename := EmitterTheory.wmk_name solution).
    set (named := Core.set_watcom_filename filename solution).
    set (scanned := map (Core.get_file_list watcom_types) (Core.project_list solution)).
    assert (Hexporter : Watcom.solution (Watcom.new_Project named)
                        = Core.set_project_list scanned named).
    { rewrite new_Project_collect. apply collect_solution. }
    assert (Hfixed : Watcom.new_Project (Core.set_project_list scanned named)
                     = Watcom.new_Project named).
    { rewrite !new_Project_collect.
      change (Core.project_list (Core.set_project_list scanned named)) with scanned.
      change (Core.project_list named) with (Core.project_list solution).
      fold scanned.
      replace (map (Core.get_file_list watcom_types) scanned) with scanned; [reflexivity |].
      unfold scanned. rewrite map_map. apply map_ext. intros p.
      by rewrite get_file_list_twice. }
    assert (Hagain : forall w',
              Watcom.generate encapsulate join (Core.set_project_list scanned named) w'
              = match Watcom.generate_lines encapsulate (Watcom.new_Project named) [] with
                | Py.Raises e =>
                    {| World.result := Py.Raises e;
                       World.solution_after := Core.set_project_list scanned named;
                       World.world_after := w' |}
                | Py.Returns (error, watcom_lines) =>
                    if negb (error =? 0) then
                      {| World.result := Py.Returns error;
                         World.solution_after := Core.set_project_list scanned named;
                         World.world_after := w' |}
                    else
                      {| World.result := Py.Returns 0;
                         World.solution_after := Core.set_project_list scanned named;
                         World.world_after :=
                           (World.save_text_file_if_newer
                              (join (Core.solution_working_directory solution) filename)
                              watcom_lines w').2 |}
                end).
    { intros w'. unfold Watcom.generate.
      change (Core.ide (Core.set_project_list scanned named)) with (Core.ide solution).
      rewrite Eide. cbn [negb]. cbv zeta.
      change (Core.solution_name (Core.set_project_list scanned named)
              +:+ Core.ide_code (Core.set_project_list scanned named)
              +:+ Core.platform_code (Core.set_project_list scanned named) +:+ ".wmk")
        with filename.
      change (Core.set_watcom_filename filename (Core.set_project_list scanned named))
        with (Core.set_project_list scanned named).
      rewrite Hfixed, Hexporter.
      destruct (Watcom.generate_lines encapsulate (Watcom.new_Project named) [])
        as [[error watcom_lines] | e]; [| reflexivity].
      destruct (negb (error =? 0)); [reflexivity |].
      change (Core.solution_working_directory (Core.set_project_list scanned named))
        with (Core.solution_working_directory solution).
      by destruct (World.save_text_file_if_newer _ watcom_lines w'). }
    rewrite Hexporter.
    destruct (Watcom.generate_lines encapsulate (Watcom.new_Project named) [])
      as [[error watcom_lines] | e] eqn:Elines.
    + destruct (negb (error =? 0)) eqn:Eerror.
      * cbn [World.solution_after World.world_after]. by rewrite Hagain.
      * change (Core.solution_working_directory named)
          with (Core.solution_working_directory solution).
        destruct (World.save_text_file_if_newer
                    (join (Core.solution_working_directory solution) filename)
                    watcom_lines w) as [saved w1] eqn:Esave.
        cbn [World.solution_after World.world_after]. rewrite Hagain.
        f_equal.
        pose proof (save_again (join (Core.solution_working_directory solution) filename)
                      watcom_lines w) as Hsave.
        rewrite Esave in Hsave. cbn [snd] in Hsave. by rewrite Hsave.
    + cbn [World.solution_after World.world_after]. by rewrite Hagain.
  - cbn [World.solution_after World.world_after]. unfold Watcom.generate.
    by rewrite Eide.
Qed.

(** *** Configurations without a platform *)

(** The configurations of a list of projects. *)
Definition all_configurations (projects : list Core.Project) : list Core.Configuration :=
  flat_map Core.configuration_list projects.

Lemma collect_platforms (solution : Core.Solution) (scanned : list Core.Project)
    (platform : option PlatformTypes.t) :
  platform ∈ Watcom.platforms (collect solution scanned)
  <-> platform ∈ map Core.platform (all_configurations scanned).
Proof.
  unfold collect.
  set (inner := fun (self : Watcom.Project) (configuration : Core.Configuration) =>
         {| Watcom.solution := solution;
            Watcom.platforms :=
              if bool_decide (Core.platform configuration ∈ Watcom.platforms self)
              then Watcom.platforms self
              else Watcom.platforms self ++ [Core.platform configuration];
            Watcom.configuration_list := Watcom.configuration_list self;
            Watcom.configuration_names :=
              if existsb (fun item => String.eqb (Core.name configuration) (Core.name item))
                         (Watcom.configuration_names self)
              then Watcom.configuration_names self
              else Watcom.configuration_names self ++ [configuration] |}).
  assert (Hinner : forall configurations self,
            platform ∈ Watcom.platforms (fold_left inner configurations self)
            <-> platform ∈ Watcom.platforms self
                \/ platform ∈ map Core.platform configurations).
  { induction configurations as [| c configurations IH]; intros self; cbn [fold_left map].
    - rewrite elem_of_nil. tauto.
    - rewrite IH, elem_of_cons. unfold inner. cbn [Watcom.platforms].
      case_bool_decide as Hc; [| rewrite elem_of_app, list_elem_of_singleton];
        intuition congruence. }
  set (init := {| Watcom.solution := solution; Watcom.platforms := [];
                  Watcom.configuration_list := []; Watcom.configuration_names := [] |}).
  assert (Houter : forall projects self,
            platform
            ∈ Watcom.platforms
                (fold_left
                   (fun self project =>
                      fold_left inner (Core.configuration_list project)
                        {| Watcom.solution := solution;
                           Watcom.platforms := Watcom.platforms self;
                           Watcom.configuration_list :=
                             Watcom.configuration_list self
                             ++ Core.configuration_list project;
                           Watcom.configuration_names := Watcom.configuration_names self |})
                   projects self)
            <-> platform ∈ Watcom.platforms self
                \/ platform ∈ map Core.platform (all_configurations projects)).
  { induction projects as [| project projects IH]; intros self;
      cbn [fold_left all_configurations flat_map map].
    - rewrite elem_of_nil. tauto.
    - rewrite IH, Hinner. cbn [Watcom.platforms].
      fold (all_configurations projects). rewrite map_app, elem_of_app. tauto. }
  rewrite (Houter scanned init). cbn [Watcom.platforms init]. rewrite elem_of_nil. tauto.
Qed.

Lemma scanned_configurations (acceptable : list FileTypes.t) (projects : list Core.Project) :
  all_configurations (map (Core.get_file_list acceptable) projects)
  = all_configurations projects.
Proof.
  induction projects as [| p projects IH]; [done |].
  cbn [map all_configurations flat_map]. fold (all_configurations projects).
  fold (all_configurations (map (Core.get_file_list acceptable) projects)).
  by rewrite IH.
Qed.

(** A solution for Watcom with one project and the configurations given. *)
Definition sample_solution (configurations : list Core.Configuration) : Core.Solution :=
  {| Core.solution_name := "foo";
     Core.solution_working_directory := "/w";
     Core.ide := IDETypes.watcom;
     Core.ide_code := "wat";
     Core.platform_code := "w32";
     Core.perforce := false;
     Core.verbose := false;
     Core.project_list :=
       [ {| Core.project_name := "foo";
            Core.project_platform := Some PlatformTypes.win32;
            Core.project_attributes := ∅;
            Core.configuration_list := configurations;
            Core.codefiles := [];
            Core.resolve := fun _ => [] |} ];
     Core.watcom_filename := None;
     Core.codewarrior_filename := None |}.

(** X22.  For an IDE it supports, the Watcom [generate] needs a platform in
    every configuration: with a configuration without platform
    ([platform] is [None]) it raises [AttributeError] and the disk is left
    as it was; when every configuration has one it answers 0, the makefile
    exists afterwards and no other file of the disk has changed. *)
Theorem watcom_platform_required (encapsulate : string -> string)
    (join : string -> string -> string) (solution : Core.Solution) (w : World.t) :
  Core.ide solution ∈ Watcom.SUPPORTED_IDES ->
  let run := Watcom.generate encapsulate join solution w in
  let path :=
    join (Core.solution_working_directory solution) (EmitterTheory.wmk_name solution) in
  (None ∈ map Core.platform (all_configurations (Core.project_list solution)) ->
   World.result run = Py.Raises "AttributeError" /\ World.world_after run = w)
  /\ (None ∉ map Core.platform (all_configurations (Core.project_list solution)) ->
      World.result run = Py.Returns 0
      /\ is_Some (World.files (World.world_after run) !! path)
      /\ forall other, other <> path ->
           World.files (World.world_after run) !! other = World.files w !! other).
Proof.
  intros Hide run path. subst run. unfold Watcom.generate.
  rewrite bool_decide_eq_true_2 by done. cbn [negb]. cbv zeta.
  fold (EmitterTheory.wmk_name solution).
  set (named := Core.set_watcom_filename (EmitterTheory.wmk_name solution) solution).
  unfold Watcom.generate_lines.
  assert (Hplatforms : forall platform,
            platform ∈ Watcom.platforms (Watcom.new_Project named)
            <-> platform ∈ map Core.platform (all_configurations (Core.project_list solution))).
  { intros platform. rewrite new_Project_collect, collect_platforms.
    by rewrite scanned_configurations. }
  split.
  - intros Hnone. apply Hplatforms in Hnone.
    replace (forallb _ (Watcom.platforms (Watcom.new_Project named))) with false; [done |].
    symmetry. apply not_true_is_false. intros Hall.
    rewrite forallb_forall in Hall. apply list_elem_of_In, Hall in Hnone.
    apply bool_decide_eq_true in Hnone. by destruct Hnone.
  - intros Hsome.
    replace (forallb _ (Watcom.platforms (Watcom.new_Project named))) with true.
    + change (negb (0 =? 0)) with false. cbv iota.
      change (Core.solution_working_directory named)
        with (Core.solution_working_directory solution).
      fold path. unfold World.save_text_file_if_newer.
      destruct (decide _) as [Hsame | Hnew]; cbn [World.result World.world_after World.files].
      * split; [done |]. split; [by rewrite Hsame | done].
      * split; [done |]. split; [by rewrite lookup_insert_eq |].
        intros other Hother. by rewrite lookup_insert_ne.
    + symmetry. apply forallb_forall. intros platform Hin.
      apply bool_decide_eq_true. destruct platform as [platform |]; [done |].
      exfalso. apply Hsome, Hplatforms. by apply list_elem_of_In.
Qed.

Lemma watcom_platform_required_witness :
  let solution :=
    sample_solution
      [ Core.new_Configuration "Debug" (Some PlatformTypes.win32) (Some ProjectTypes.tool);
        Core.new_Configuration "Release" None (Some ProjectTypes.tool) ] in
  let run := Watcom.generate (fun path => path) ScanTheory.posix_join solution
               EmitterTheory.empty_disk in
  World.result run = Py.Raises "AttributeError"
  /\ World.world_after run = EmitterTheory.empty_disk.
Proof.
  cbv zeta.
  apply (watcom_platform_required (fun path => path) ScanTheory.posix_join
           (sample_solution
              [ Core.new_Configuration "Debug" (Some PlatformTypes.win32)
                  (Some ProjectTypes.tool);
                Core.new_Configuration "Release" None (Some ProjectTypes.tool) ])
           EmitterTheory.empty_disk).
  - apply list_elem_of_here.
  - cbn. apply list_elem_of_further, list_elem_of_here.
Defined.

(** *** The defaults of the header *)

Lemma default_config_loop (configurations : list Core.Configuration) (config : option string) :
  fold_left
    (fun config item =>
       if String.eqb (Core.name item) "Release" then Some "Release"
       else match config with
            | None => Some (Core.name item)
            | Some _ => config
            end)
    configurations config
  = if existsb (fun item => String.eqb (Core.name item) "Release") configurations
    then Some "Release"
    else match config with
         | Some _ => config
         | None => head (map Core.name configurations)
         end.
Proof.
  revert config. induction configurations as [| item l IH]; intros config;
    cbn [fold_left existsb map head].
  - by destruct config.
  - rewrite IH. destruct (String.eqb (Core.name item) "Release"); cbn [orb].
    + by destruct (existsb _ l).
    + by destruct config.
Qed.

Lemma default_target_loop (platforms : list (option PlatformTypes.t)) (target : option string) :
  fold_left
    (fun target platform =>
       if bool_decide (platform = Some PlatformTypes.msdos4gw) then Some (Watcom.code platform)
       else match target with
            | None => Some (Watcom.code platform)
            | Some _ => target
            end)
    platforms target
  = if bool_decide (Some PlatformTypes.msdos4gw ∈ platforms)
    then Some "dos4gw"
    else match target with
         | Some _ => target
         | None => head (map Watcom.code platforms)
         end.
Proof.
  revert target. induction platforms as [| platform l IH]; intros target;
    cbn [fold_left map head].
  - rewrite bool_decide_eq_false_2 by (apply not_elem_of_nil). by destruct target.
  - rewrite IH. destruct (decide (platform = Some PlatformTypes.msdos4gw)) as [-> | Hdos].
    + rewrite (bool_decide_eq_true_2 (_ ∈ _ :: l)) by constructor.
      rewrite (bool_decide_eq_true_2 (_ = _)) by done.
      by case_bool_decide.
    + rewrite (bool_decide_eq_false_2 (platform = _)) by done.
      destruct (decide (Some PlatformTypes.msdos4gw ∈ l)) as [Hin | Hout].
      * rewrite !bool_decide_eq_true_2; [done | by constructor | done].
      * rewrite !bool_decide_eq_false_2; [by destruct target | | done].
        rewrite elem_of_cons. intros [Heq | Hin]; [by apply Hdos | by apply Hout].
Qed.


End WatcomTheory.

(** ** The groups of a Codewarrior project *)

Module CodewarriorTheory.

Import Enums.
Import Codewarrior.

(** The groups below one group have names of their own, at every level. *)
Inductive well_named : GROUP.t -> Prop :=
| well_named_group name groups filerefs :
    NoDup (map GROUP.name groups) ->
    Forall well_named groups ->
    well_named (GROUP.Make name groups filerefs).

(** [parts] leads through groups of these names to a file reference of
    the name [filename]. *)
Fixpoint holds (parts : list string) (filename : string) (group : GROUP.t) : Prop :=
  match parts with
  | [] => False
  | [_] => filename ∈ map FILEREF.filename (GROUP.filerefs group)
  | part :: rest =>
      exists below, below ∈ GROUP.groups group /\ GROUP.name below = Some part
                    /\ holds rest filename below
  end.

(** The name a file reference for [platform] gets. *)
Definition converted (platform : PlatformTypes.t) (filename : string) : string :=
  if PlatformTypes.is_windows platform then Burger.convert_to_windows_slashes filename
  else Burger.convert_to_linux_slashes filename.

Lemma well_named_new (name : option string) : well_named (GROUP.new name).
Proof. constructor; cbn [map]; constructor. Qed.

Lemma position_found (name : string) (groups : list GROUP.t) (place : nat) :
  GROUP.position name groups = Some place ->
  exists below, groups !! place = Some below /\ GROUP.name below = Some name.
Proof.
  revert place. induction groups as [| item groups IH]; intros place; cbn [GROUP.position].
  - discriminate.
  - case_bool_decide as Hname.
    + intros [= <-]. by exists item.
    + destruct (GROUP.position name groups) as [p |]; [| discriminate].
      intros [= <-]. by apply IH.
Qed.

Lemma position_absent (name : string) (groups : list GROUP.t) :
  GROUP.position name groups = None -> Some name ∉ map GROUP.name groups.
Proof.
  induction groups as [| item groups IH]; cbn [GROUP.position map].
  - intros _. apply not_elem_of_nil.
  - case_bool_decide as Hname; [discriminate |].
    destruct (GROUP.position name groups); [discriminate |].
    intros _. rewrite elem_of_cons. intros [Heq | Hin]; [by apply Hname | by apply IH].
Qed.

Lemma addfileref_result (self : GROUP.t) (platform : PlatformTypes.t)
    (configuration : option string) (filename : string) :
  exists filerefs,
    GROUP.addfileref self (Some platform) configuration filename
    = Py.Returns (GROUP.Make (GROUP.name self) (GROUP.groups self) filerefs)
    /\ (filename ∈ map FILEREF.filename filerefs
        \/ converted platform filename ∈ map FILEREF.filename filerefs).
Proof.
  unfold GROUP.addfileref.
  destruct (existsb _ (GROUP.filerefs self)) eqn:Hseen.
  - exists (GROUP.filerefs self). split; [by destruct self |]. left.
    apply existsb_exists in Hseen as (item & Hin & Heq).
    apply String.eqb_eq in Heq. subst filename.
    apply list_elem_of_fmap. exists item. split; [done | by apply list_elem_of_In].
  - unfold FILEREF.new, converted.
    destruct (PlatformTypes.is_windows platform);
      (eexists; split; [reflexivity |]; right; rewrite map_app, elem_of_app; right;
       apply list_elem_of_here).
Qed.

Lemma descend_result (platform : PlatformTypes.t) (configuration : option string)
    (parts : list string) (group : GROUP.t) :
  parts <> [] -> well_named group ->
  exists after,
    descend (Some platform) configuration parts group = Py.Returns after
    /\ GROUP.name after = GROUP.name group
    /\ well_named after
    /\ (holds parts (default EmptyString (last parts)) after
        \/ holds parts (converted platform (default EmptyString (last parts))) after).
Proof.
  revert group. induction parts as [| part rest IH]; intros group Hparts Hnamed; [done |].
  destruct rest as [| next rest].
  - cbn [descend last default holds].
    destruct (addfileref_result group platform configuration part)
      as (filerefs & -> & Hin).
    eexists. split; [reflexivity |]. split; [done |]. split; [| exact Hin].
    destruct Hnamed as [name groups filerefs' Hdup Hall]. by constructor.
  - change (descend (Some platform) configuration (part :: next :: rest) group)
      with (let '(group, place) := GROUP.addgroup group part in
            match GROUP.groups group !! place with
            | None => Py.Returns group
            | Some below =>
                match descend (Some platform) configuration (next :: rest) below with
                | Py.Raises e => Py.Raises e
                | Py.Returns below =>
                    Py.Returns (GROUP.Make (GROUP.name group)
                                  (<[place := below]> (GROUP.groups group))
                                  (GROUP.filerefs group))
                end
            end).
    change (last (part :: next :: rest)) with (last (next :: rest)).
    destruct Hnamed as [name groups filerefs Hdup Hall].
    assert (Hstep : exists place below groups',
               GROUP.addgroup (GROUP.Make name groups filerefs) part
               = (GROUP.Make name groups' filerefs, place)
               /\ groups' !! place = Some below
               /\ GROUP.name below = Some part
               /\ well_named below
               /\ NoDup (map GROUP.name groups')
               /\ Forall well_named groups').
    { unfold GROUP.addgroup. cbn [GROUP.groups GROUP.name GROUP.filerefs].
      destruct (GROUP.position part groups) as [place |] eqn:Hplace.
      - apply position_found in Hplace as (below & Hbelow & Hname).
        exists place, below, groups.
        split; [done |]. split; [done |]. split; [done |].
        split; [by eapply Forall_lookup_1 in Hall | done].
      - apply position_absent in Hplace.
        exists (length groups), (GROUP.new (Some part)), (groups ++ [GROUP.new (Some part)]).
        split; [done |]. split; [| split; [done |]; split; [| split]].
        + by apply list_lookup_middle.
        + apply well_named_new.
        + rewrite map_app. apply NoDup_app. split; [done |]. split.
          * intros x Hx. cbn. rewrite list_elem_of_singleton. by intros ->.
          * apply NoDup_singleton.
        + apply Forall_app. split; [done |]. constructor; [| constructor].
          apply well_named_new. }
    destruct Hstep as (place & below & groups' & -> & Hbelow & Hname & Hwell & Hdup' & Hall').
    cbn [GROUP.groups GROUP.name GROUP.filerefs]. rewrite Hbelow.
    destruct (IH below ltac:(done) Hwell) as (after & -> & Hsame & Hafter & Hholds).
    eexists. split; [reflexivity |]. split; [done |].
    assert (Hnames : map GROUP.name (<[place := after]> groups') = map GROUP.name groups').
    { change (map GROUP.name) with (fmap (M := list) GROUP.name).
      rewrite list_fmap_insert, Hsame.
      apply list_insert_id. by rewrite list_lookup_fmap, Hbelow. }
    split.
    + constructor; [by rewrite Hnames |]. by apply Forall_insert.
    + assert (Hin : after ∈ <[place := after]> groups').
      { apply list_elem_of_lookup. exists place.
        apply list_lookup_insert_eq. by eapply lookup_lt_Some. }
      destruct Hholds as [Hholds | Hholds]; [left | right];
        (exists after; cbn [GROUP.groups]; split; [done |]; split; [congruence | done]).
Qed.

Lemma discard_dots_last (parts : list string) :
  discard_dots parts <> [] -> last (discard_dots parts) = last parts.
Proof.
  induction parts as [| part rest IH]; [done |]. cbn [discard_dots].
  destruct (String.eqb part "." || String.eqb part ".."); [| done].
  intros Hrest. rewrite (IH Hrest). destruct rest; [done |]. done.
Qed.

(** X24.  [addtogroups] with a platform always returns and keeps the tree of
    groups well named (the groups below one group have names of their own,
    at every level): the leading [.] and [..] parts are dropped, nothing is
    changed when no part is left, and otherwise the remaining parts lead,
    group by group, to a file reference that has the name of the last part
    or its converted form. *)
Theorem addtogroups_well_named (group : GROUP.t) (platform : PlatformTypes.t)
    (configuration : option string) (parts : list string) :
  well_named group ->
  exists after,
    addtogroups group (Some platform) configuration parts = Py.Returns after
    /\ GROUP.name after = GROUP.name group
    /\ well_named after
    /\ (discard_dots parts = [] -> after = group)
    /\ (discard_dots parts <> [] ->
        let filename := default EmptyString (last parts) in
        holds (discard_dots parts) filename after
        \/ holds (discard_dots parts) (converted platform filename) after).
Proof.
  intros Hnamed. unfold addtogroups.
  destruct (discard_dots parts) as [| part rest] eqn:Hparts.
  - exists group. by repeat split.
  - destruct (descend_result platform configuration (part :: rest) group ltac:(done) Hnamed)
      as (after & Hafter & Hname & Hwell & Hholds).
    exists after. split; [done |]. split; [done |]. split; [done |]. split; [done |].
    intros _. cbv zeta. rewrite <- discard_dots_last by (by rewrite Hparts).
    by rewrite Hparts.
Qed.

Lemma addtogroups_well_named_witness :
  exists after,
    addtogroups (GROUP.new None) (Some PlatformTypes.win32) (Some "Debug")
      [".."; "source"; "foo.cpp"]
    = Py.Returns after
    /\ well_named after.
Proof.
  destruct (addtogroups_well_named (GROUP.new None) PlatformTypes.win32 (Some "Debug")
              [".."; "source"; "foo.cpp"]) as (after & Hafter & _ & Hwell & _).
  - constructor; cbn [map]; constructor.
  - by exists after.
Defined.

Lemma addfileref_fixed (self once : GROUP.t) (platform : PlatformTypes.t)
    (configuration : option string) (filename : string) :
  converted platform filename = filename ->
  GROUP.addfileref self (Some platform) configuration filename = Py.Returns once ->
  GROUP.addfileref once (Some platform) configuration filename = Py.Returns once.
Proof.
  intros Hfixed. unfold GROUP.addfileref at 1.
  destruct (existsb _ (GROUP.filerefs self)) eqn:Hseen.
  - intros [= <-]. unfold GROUP.addfileref. by rewrite Hseen.
  - assert (Hnew : exists item,
               FILEREF.new (Some platform) configuration filename = Py.Returns item
               /\ FILEREF.filename item = filename).
    { unfold FILEREF.new. unfold converted in Hfixed.
      destruct (PlatformTypes.is_windows platform); by eexists. }
    destruct Hnew as (item & -> & Hitem). intros [= <-].
    unfold GROUP.addfileref. cbn [GROUP.filerefs].
    by rewrite existsb_app; cbn [existsb]; rewrite Hitem, String.eqb_refl, orb_true_r.
Qed.

(** X25.  [addfileref] compares the names of the references it has, which
    are converted to the slashes of the platform, with the name it is
    given, which is not.  Called twice with a name, the second call changes
    nothing when the group had the name before or the conversion leaves the
    name as it is; otherwise the reference is added twice. *)
Theorem addfileref_again (self : GROUP.t) (platform : PlatformTypes.t)
    (configuration : option string) (filename : string) :
  exists once twice,
    GROUP.addfileref self (Some platform) configuration filename = Py.Returns once
    /\ GROUP.addfileref once (Some platform) configuration filename = Py.Returns twice
    /\ (filename ∈ map FILEREF.filename (GROUP.filerefs self)
        \/ converted platform filename = filename -> twice = once)
    /\ (filename ∉ map FILEREF.filename (GROUP.filerefs self) ->
        converted platform filename <> filename ->
        exists item,
          FILEREF.filename item = converted platform filename
          /\ GROUP.filerefs twice = GROUP.filerefs self ++ [item; item]).
Proof.
  assert (Hseen : forall filerefs,
            existsb (fun item => String.eqb (FILEREF.filename item) filename) filerefs = true
            <-> filename ∈ map FILEREF.filename filerefs).
  { intros filerefs. rewrite existsb_exists. change (map FILEREF.filename filerefs)
      with (FILEREF.filename <$> filerefs). rewrite list_elem_of_fmap.
    split; intros (item & H1 & H2); exists item.
    - apply String.eqb_eq in H2. split; [done | by apply list_elem_of_In].
    - split; [by apply list_elem_of_In | by apply String.eqb_eq]. }
  assert (Hnew : exists item,
             FILEREF.new (Some platform) configuration filename = Py.Returns item
             /\ FILEREF.filename item = converted platform filename).
  { unfold FILEREF.new, converted. destruct (PlatformTypes.is_windows platform); by eexists. }
  destruct Hnew as (item & Hnew & Hitem).
  destruct (decide (filename ∈ map FILEREF.filename (GROUP.filerefs self))) as [Hin | Hout].
  - exists self, self. unfold GROUP.addfileref.
    rewrite (proj2 (Hseen _) Hin). by repeat split.
  - assert (Hout' : existsb (fun item => String.eqb (FILEREF.filename item) filename)
                      (GROUP.filerefs self) = false).
    { apply not_true_is_false. by rewrite Hseen. }
    set (once := GROUP.Make (GROUP.name self) (GROUP.groups self)
                   (GROUP.filerefs self ++ [item])).
    assert (Honce : GROUP.addfileref self (Some platform) configuration filename
                    = Py.Returns once).
    { unfold GROUP.addfileref. by rewrite Hout', Hnew. }
    destruct (decide (converted platform filename = filename)) as [Hfixed | Hchanged].
    + exists once, once. split; [done |].
      split; [by apply (addfileref_fixed self) |]. by split.
    + exists once, (GROUP.Make (GROUP.name self) (GROUP.groups self)
                      ((GROUP.filerefs self ++ [item]) ++ [item])).
      split; [done |]. split; [| split].
      * unfold GROUP.addfileref. cbn [GROUP.filerefs once GROUP.name GROUP.groups].
        rewrite existsb_app, Hout'. cbn [existsb orb]. rewrite Hitem, Hnew.
        by rewrite (proj2 (String.eqb_neq _ _) Hchanged).
      * intros [Hin | Hfixed]; [by destruct Hout | by destruct Hchanged].
      * intros _ _. exists item. split; [done |]. cbn [GROUP.filerefs].
        by rewrite <- app_assoc.
Qed.

Lemma position_insert (name : string) (groups : list GROUP.t) (place : nat)
    (below after : GROUP.t) :
  GROUP.position name groups = Some place ->
  groups !! place = Some below ->
  GROUP.name after = GROUP.name below ->
  GROUP.position name (<[place := after]> groups) = Some place.
Proof.
  revert place. induction groups as [| item groups IH]; intros place; [done |].
  cbn [GROUP.position]. case_bool_decide as Hname.
  - intros [= <-] [= <-] Hafter. cbn. by rewrite bool_decide_eq_true_2 by congruence.
  - destruct (GROUP.position name groups) as [p |] eqn:Hp; [| discriminate].
    intros [= <-] Hbelow Hafter. cbn in Hbelow.
    change (<[S p := after]> (item :: groups)) with (item :: <[p := after]> groups).
    cbn [GROUP.position].
    rewrite bool_decide_eq_false_2 by done. by rewrite (IH p eq_refl Hbelow Hafter).
Qed.

Lemma position_appended (name : string) (groups : list GROUP.t) (after : GROUP.t) :
  GROUP.position name groups = None ->
  GROUP.name after = Some name ->
  GROUP.position name (groups ++ [after]) = Some (length groups).
Proof.
  intros Hnone Hafter. induction groups as [| item groups IH]; cbn [GROUP.position app].
  - by rewrite bool_decide_eq_true_2.
  - cbn [GROUP.position] in Hnone. case_bool_decide; [discriminate |].
    destruct (GROUP.position name groups); [discriminate |]. by rewrite IH.
Qed.

Lemma descend_name (platform : option PlatformTypes.t) (configuration : option string)
    (parts : list string) (group after : GROUP.t) :
  descend platform configuration parts group = Py.Returns after ->
  GROUP.name after = GROUP.name group.
Proof.
  destruct parts as [| part [| next rest]].
  - by intros [= <-].
  - cbn [descend]. unfold GROUP.addfileref.
    destruct (existsb _ _); [by intros [= <-] |].
    destruct (FILEREF.new _ _ _); [by intros [= <-] | discriminate].
  - change (descend platform configuration (part :: next :: rest) group)
      with (let '(group, place) := GROUP.addgroup group part in
            match GROUP.groups group !! place with
            | None => Py.Returns group
            | Some below =>
                match descend platform configuration (next :: rest) below with
                | Py.Raises e => Py.Raises e
                | Py.Returns below =>
                    Py.Returns (GROUP.Make (GROUP.name group)
                                  (<[place := below]> (GROUP.groups group))
                                  (GROUP.filerefs group))
                end
            end).
    unfold GROUP.addgroup.
    destruct (GROUP.position part (GROUP.groups group));
      (destruct (_ !! _); [destruct (descend _ _ _ _) |]; [| discriminate |];
       by intros [= <-]).
Qed.

Lemma descend_twice (platform : PlatformTypes.t) (configuration : option string)
    (parts : list string) (group once : GROUP.t) :
  (forall leaf, last parts = Some leaf -> converted platform leaf = leaf) ->
  descend (Some platform) configuration parts group = Py.Returns once ->
  descend (Some platform) configuration parts once = Py.Returns once.
Proof.
  revert group once. induction parts as [| part rest IH]; intros group once Hleaf; [done |].
  destruct rest as [| next rest].
  - cbn [descend]. apply addfileref_fixed. by apply Hleaf.
  - change (last (part :: next :: rest)) with (last (next :: rest)) in Hleaf.
    specialize (fun group once => IH group once Hleaf).
    assert (Hunfold : forall group,
              descend (Some platform) configuration (part :: next :: rest) group
              = let '(group, place) := GROUP.addgroup group part in
                match GROUP.groups group !! place with
                | None => Py.Returns group
                | Some below =>
                    match descend (Some platform) configuration (next :: rest) below with
                    | Py.Raises e => Py.Raises e
                    | Py.Returns below =>
                        Py.Returns (GROUP.Make (GROUP.name group)
                                      (<[place := below]> (GROUP.groups group))
                                      (GROUP.filerefs group))
                    end
                end) by done.
    rewrite !Hunfold. clear Hunfold.
    destruct group as [name groups filerefs].
    assert (Hstep : exists place below groups',
               GROUP.addgroup (GROUP.Make name groups filerefs) part
               = (GROUP.Make name groups' filerefs, place)
               /\ groups' !! place = Some below
               /\ forall after, GROUP.name after = GROUP.name below ->
                    GROUP.addgroup (GROUP.Make name (<[place := after]> groups') filerefs) part
                    = (GROUP.Make name (<[place := after]> groups') filerefs, place)).
    { unfold GROUP.addgroup. cbn [GROUP.groups GROUP.name GROUP.filerefs].
      destruct (GROUP.position part groups) as [place |] eqn:Hplace.
      - destruct (position_found _ _ _ Hplace) as (below & Hbelow & Hname).
        exists place, below, groups. split; [done |]. split; [done |].
        intros after Hafter. by rewrite (position_insert part groups place below after).
      - exists (length groups), (GROUP.new (Some part)), (groups ++ [GROUP.new (Some part)]).
        split; [done |]. split; [by apply list_lookup_middle |].
        intros after Hafter.
        replace (<[length groups := after]> (groups ++ [GROUP.new (Some part)]))
          with (groups ++ [after]).
        + by rewrite (position_appended part groups after).
        + rewrite insert_app_r_alt by done. by rewrite Nat.sub_diag. }
    destruct Hstep as (place & below & groups' & -> & Hbelow & Hagain).
    cbn [GROUP.groups GROUP.name GROUP.filerefs]. rewrite Hbelow.
    destruct (descend (Some platform) configuration (next :: rest) below)
      as [after |] eqn:Hafter; [| discriminate].
    intros [= <-].
    rewrite (Hagain after (descend_name _ _ _ _ _ Hafter)).
    cbn [GROUP.groups GROUP.name GROUP.filerefs].
    rewrite list_lookup_insert_eq by (by eapply lookup_lt_Some).
    rewrite (IH below after Hafter). by rewrite list_insert_insert_eq.
Qed.

(** X26.  [addtogroups] called again with the parts of the call before
    changes nothing, when the conversion to the slashes of the platform
    leaves the last part as it is (as for the parts of a path split at its
    slashes). *)
Theorem addtogroups_twice (group once : GROUP.t) (platform : PlatformTypes.t)
    (configuration : option string) (parts : list string) :
  (forall leaf, last parts = Some leaf -> converted platform leaf = leaf) ->
  addtogroups group (Some platform) configuration parts = Py.Returns once ->
  addtogroups once (Some platform) configuration parts = Py.Returns once.
Proof.
  intros Hleaf. unfold addtogroups.
  destruct (discard_dots parts) as [| part rest] eqn:Hparts; [by intros [= <-] |].
  apply descend_twice. rewrite <- Hparts, discard_dots_last by (by rewrite Hparts).
  exact Hleaf.
Qed.

Lemma addtogroups_twice_witness :
  let once :=
    GROUP.Make None
      [ GROUP.Make (Some "source") []
          [ {| FILEREF.configuration := Some "Debug"; FILEREF.filename := "foo.cpp";
               FILEREF.format := "Windows" |} ] ] [] in
  addtogroups once (Some PlatformTypes.win32) (Some "Debug") [".."; "source"; "foo.cpp"]
  = Py.Returns once.
Proof.
  cbv zeta.
  apply (addtogroups_twice (GROUP.new None) _ PlatformTypes.win32 (Some "Debug")
           [".."; "source"; "foo.cpp"]).
  - intros leaf [= <-]. reflexivity.
  - reflexivity.
Defined.

End CodewarriorTheory.
